(** * goto-bangumi: identity resolution and merge of canonical entities

    A shallow embedding of
      - internal/model/bangumi.go          (the data model),
      - package database                   (the GORM-backed store: CreateBangumi,
                                            GetBangumiParseByTitle, CheckNewTorrents, ...),
      - package refresh                    (FindNewBangumi, RefreshRSS),
    followed by the properties of the merge/dedup engine, the title match
    index and the feed refresh pipeline.

    Go values are modelled as follows: [int] is [Z], [string] is
    [String.string], a nilable pointer is an [option], a slice is a [list],
    a [(value, error)] result is a sum.  The SQLite/GORM store is a record of
    tables (lists of rows in insertion order) that every operation threads
    explicitly. *)

From Stdlib Require Import ZArith List String Ascii Bool Lia.
Import ListNotations.

Open Scope string_scope.
Open Scope list_scope.
Open Scope Z_scope.

(* ================================================================== *)
(** * internal/model/bangumi.go *)
(* ================================================================== *)

Module MikanItem.
Record t : Type := mk {
  ID : Z;                      (* primaryKey *)
  OfficialTitle : string;
  Season : Z;                  (* default:1 *)
  PosterLink : string }.

Definition with_ID (i : Z) (m : t) : t :=
  mk i (OfficialTitle m) (Season m) (PosterLink m).
Definition with_Season (s : Z) (m : t) : t :=
  mk (ID m) (OfficialTitle m) s (PosterLink m).
End MikanItem.

Module TmdbItem.
(* VoteAverage is a float64 that is only stored and loaded; it is carried
   as the integer of its bit pattern. *)
Record t : Type := mk {
  ID : Z;                      (* primaryKey *)
  Year : string;
  OriginalTitle : string;
  AirDate : string;
  EpisodeCount : Z;
  Title : string;
  Season : Z;                  (* default:1 *)
  PosterLink : string;
  VoteAverage : Z }.

Definition with_ID (i : Z) (m : t) : t :=
  mk i (Year m) (OriginalTitle m) (AirDate m) (EpisodeCount m) (Title m)
     (Season m) (PosterLink m) (VoteAverage m).
Definition with_Season (s : Z) (m : t) : t :=
  mk (ID m) (Year m) (OriginalTitle m) (AirDate m) (EpisodeCount m) (Title m)
     s (PosterLink m) (VoteAverage m).
End TmdbItem.

Module EpisodeMetadata.
Record t : Type := mk {
  ID : Z;                      (* primaryKey;autoIncrement *)
  Title : string;              (* uniqueIndex *)
  Season : Z;                  (* default:1; uniqueIndex *)
  SeasonRaw : string;
  Episode : Z;                 (* gorm:"-" *)
  Sub : string;
  SubType : string;            (* uniqueIndex *)
  Group : string;              (* uniqueIndex *)
  Year : string;               (* gorm:"-" *)
  Resolution : string;         (* uniqueIndex *)
  Source : string;
  AudioInfo : string;
  VideoInfo : string;
  BangumiID : Z }.             (* index; uniqueIndex *)

Definition with_ID (i : Z) (m : t) : t :=
  mk i (Title m) (Season m) (SeasonRaw m) (Episode m) (Sub m) (SubType m)
     (Group m) (Year m) (Resolution m) (Source m) (AudioInfo m) (VideoInfo m)
     (BangumiID m).
Definition with_Season (s : Z) (m : t) : t :=
  mk (ID m) (Title m) s (SeasonRaw m) (Episode m) (Sub m) (SubType m)
     (Group m) (Year m) (Resolution m) (Source m) (AudioInfo m) (VideoInfo m)
     (BangumiID m).
Definition with_BangumiID (b : Z) (m : t) : t :=
  mk (ID m) (Title m) (Season m) (SeasonRaw m) (Episode m) (Sub m) (SubType m)
     (Group m) (Year m) (Resolution m) (Source m) (AudioInfo m) (VideoInfo m)
     b.
(* The two fields tagged gorm:"-" are not columns. *)
Definition columns (m : t) : t :=
  mk (ID m) (Title m) (Season m) (SeasonRaw m) 0 (Sub m) (SubType m)
     (Group m) "" (Resolution m) (Source m) (AudioInfo m) (VideoInfo m)
     (BangumiID m).
End EpisodeMetadata.

Module Bangumi.
Record t : Type := mk {
  ID : Z;                      (* primaryKey *)
  OfficialTitle : string;
  Year : string;
  Season : Z;                  (* default:1 *)
  MikanID : option Z;          (* *int *)
  TmdbID : option Z;           (* *int *)
  MikanItem : option MikanItem.t;
  TmdbItem : option TmdbItem.t;
  RRSSLink : string;
  EpisodeMetadata : list EpisodeMetadata.t;
  EpsCollect : bool;
  Offset : Z;
  IncludeFilter : string;
  ExcludeFilter : string;
  Parse : string;              (* default:'tmdb' *)
  PosterLink : string;
  Deleted : bool }.

(* var b model.Bangumi *)
Definition zero : t :=
  mk 0 "" "" 0 None None None None "" [] false 0 "" "" "" "" false.

Definition with_ID (i : Z) (b : t) : t :=
  mk i (OfficialTitle b) (Year b) (Season b) (MikanID b) (TmdbID b)
     (MikanItem b) (TmdbItem b) (RRSSLink b) (EpisodeMetadata b)
     (EpsCollect b) (Offset b) (IncludeFilter b) (ExcludeFilter b) (Parse b)
     (PosterLink b) (Deleted b).
Definition with_Season (s : Z) (b : t) : t :=
  mk (ID b) (OfficialTitle b) (Year b) s (MikanID b) (TmdbID b)
     (MikanItem b) (TmdbItem b) (RRSSLink b) (EpisodeMetadata b)
     (EpsCollect b) (Offset b) (IncludeFilter b) (ExcludeFilter b) (Parse b)
     (PosterLink b) (Deleted b).
Definition with_Parse (p : string) (b : t) : t :=
  mk (ID b) (OfficialTitle b) (Year b) (Season b) (MikanID b) (TmdbID b)
     (MikanItem b) (TmdbItem b) (RRSSLink b) (EpisodeMetadata b)
     (EpsCollect b) (Offset b) (IncludeFilter b) (ExcludeFilter b) p
     (PosterLink b) (Deleted b).
Definition with_MikanID (i : option Z) (b : t) : t :=
  mk (ID b) (OfficialTitle b) (Year b) (Season b) i (TmdbID b)
     (MikanItem b) (TmdbItem b) (RRSSLink b) (EpisodeMetadata b)
     (EpsCollect b) (Offset b) (IncludeFilter b) (ExcludeFilter b) (Parse b)
     (PosterLink b) (Deleted b).
Definition with_TmdbID (i : option Z) (b : t) : t :=
  mk (ID b) (OfficialTitle b) (Year b) (Season b) (MikanID b) i
     (MikanItem b) (TmdbItem b) (RRSSLink b) (EpisodeMetadata b)
     (EpsCollect b) (Offset b) (IncludeFilter b) (ExcludeFilter b) (Parse b)
     (PosterLink b) (Deleted b).
Definition with_MikanItem (i : option MikanItem.t) (b : t) : t :=
  mk (ID b) (OfficialTitle b) (Year b) (Season b) (MikanID b) (TmdbID b)
     i (TmdbItem b) (RRSSLink b) (EpisodeMetadata b)
     (EpsCollect b) (Offset b) (IncludeFilter b) (ExcludeFilter b) (Parse b)
     (PosterLink b) (Deleted b).
Definition with_TmdbItem (i : option TmdbItem.t) (b : t) : t :=
  mk (ID b) (OfficialTitle b) (Year b) (Season b) (MikanID b) (TmdbID b)
     (MikanItem b) i (RRSSLink b) (EpisodeMetadata b)
     (EpsCollect b) (Offset b) (IncludeFilter b) (ExcludeFilter b) (Parse b)
     (PosterLink b) (Deleted b).
Definition with_EpisodeMetadata (l : list EpisodeMetadata.t) (b : t) : t :=
  mk (ID b) (OfficialTitle b) (Year b) (Season b) (MikanID b) (TmdbID b)
     (MikanItem b) (TmdbItem b) (RRSSLink b) l
     (EpsCollect b) (Offset b) (IncludeFilter b) (ExcludeFilter b) (Parse b)
     (PosterLink b) (Deleted b).

(* The columns of table bangumis: the three association fields are loaded
   by Preload and written through their own tables. *)
Definition columns (b : t) : t :=
  with_EpisodeMetadata [] (with_TmdbItem None (with_MikanItem None b)).
End Bangumi.

(** model.Torrent is declared in a file of package model that is not part of
    the sources at hand. *)
Module Torrent.
(** Modelled from the spec: the declaration of model.Torrent is missing.
    Section 3 gives a Release its name, its source URL (the key it is
    deduplicated by), the downloaded flag, the owning entity's identifier
    and the feed URL it arrived from; these are also the only fields the
    code under study reads or writes ([Name], [URL], [Downloaded],
    [BangumiID], [Bangumi.RRSSLink]). *)
Record t : Type := mk {
  Name : string;
  URL : string;
  Downloaded : bool;
  BangumiID : Z;
  RRSSLink : string }.

Definition with_BangumiID (b : Z) (x : t) : t :=
  mk (Name x) (URL x) (Downloaded x) b (RRSSLink x).
Definition with_RRSSLink (l : string) (x : t) : t :=
  mk (Name x) (URL x) (Downloaded x) (BangumiID x) l.
End Torrent.

(* ================================================================== *)
(** * The store behind [*gorm.DB] *)
(* ================================================================== *)

(** [error] values the code distinguishes: gorm.ErrRecordNotFound and every
    other error of the storage layer. *)
Inductive error : Type :=
| ErrRecordNotFound
| ErrStorage (msg : string).

Inductive result (A : Type) : Type :=
| Ok (a : A)
| Err (e : error).
Arguments Ok {A} a.
Arguments Err {A} e.

(** The tables AutoMigrate creates. *)
Record DB : Type := mkDB {
  tbl_bangumi : list Bangumi.t;
  tbl_mikan : list MikanItem.t;
  tbl_tmdb : list TmdbItem.t;
  tbl_meta : list EpisodeMetadata.t;
  tbl_torrent : list Torrent.t }.

Definition emptyDB : DB := mkDB [] [] [] [] [].

(** Faults of the storage layer are an input of the model: which statement
    fails, and with what message, is decided by the environment. *)
Record Faults : Type := mkFaults {
  fault_first_bangumi : option string;
  fault_save_bangumi : option string;
  fault_parse_by_title : string -> option string;
  fault_torrent_by_url : string -> option string;
  fault_save_torrent : string -> option string }.

Definition no_faults : Faults :=
  mkFaults None None (fun _ => None) (fun _ => None) (fun _ => None).

(** [.First(&dest)]: the matching row with the least primary key
    (ORDER BY pk LIMIT 1). *)
Fixpoint First {A : Type} (pk : A -> Z) (cond : A -> bool) (rows : list A)
  : option A :=
  match rows with
  | [] => None
  | r :: rest =>
      match First pk cond rest with
      | Some r' => if cond r && (pk r <=? pk r') then Some r else Some r'
      | None => if cond r then Some r else None
      end
  end.

(** SQLite's [instr(X, Y)]: the 1-based position of the first occurrence of
    [Y] in [X], 0 when there is none. *)
Fixpoint has_prefix (p s : string) : bool :=
  match p, s with
  | EmptyString, _ => true
  | String a p', String b s' => Ascii.eqb a b && has_prefix p' s'
  | String _ _, EmptyString => false
  end.

Fixpoint instr_from (pos : nat) (X Y : string) : nat :=
  if has_prefix Y X then pos
  else match X with
       | EmptyString => 0%nat
       | String _ X' => instr_from (S pos) X' Y
       end.

Definition instr (X Y : string) : Z := Z.of_nat (instr_from 1 X Y).

(* ================================================================== *)
(** * package database *)
(* ================================================================== *)

(** Where("instr(?, title) > 0 AND instr(?, `group`) > 0", torrentName, torrentName) *)
Definition title_and_group_in (torrentName : string) (m : EpisodeMetadata.t)
  : bool :=
  (0 <? instr torrentName (EpisodeMetadata.Title m))
  && (0 <? instr torrentName (EpisodeMetadata.Group m)).

Definition GetBangumiParseByTitle (fx : Faults) (db : DB) (torrentName : string)
  : result EpisodeMetadata.t :=
  match fault_parse_by_title fx torrentName with
  | Some msg => Err (ErrStorage msg)
  | None =>
      match First EpisodeMetadata.ID (title_and_group_in torrentName)
                  (tbl_meta db) with
      | Some parser => Ok parser
      | None => Err ErrRecordNotFound
      end
  end.

(** ** GORM's write path

    [db.Save(value)] writes, inside one transaction, the belongs-to
    associations, the row itself and the has-many associations:
      - a zero primary key is assigned by AUTOINCREMENT;
      - on INSERT a zero field whose column has a default takes the default;
      - a belongs-to record is inserted with ON CONFLICT DO NOTHING and its
        key is copied into the foreign key of the owner;
      - an owner with a non-zero key is updated with all its fields, and
        inserted when no row has that key;
      - a has-many record receives the owner's key and is inserted with
        ON CONFLICT (id) DO UPDATE SET bangumi_id;
      - a violated unique index fails the statement and rolls everything
        back. *)

(* The key AUTOINCREMENT assigns: positive and above every key in use.  (A
   table that has lost rows may be given a larger one; the properties below
   use only that the key is positive and unused.) *)
Definition next_id (ids : list Z) : Z := fold_right Z.max 0 ids + 1.

Definition create_MikanItem (tbl : list MikanItem.t) (it : MikanItem.t)
  : list MikanItem.t * MikanItem.t :=
  let it := if MikanItem.Season it =? 0 then MikanItem.with_Season 1 it else it in
  if MikanItem.ID it =? 0 then
    let it' := MikanItem.with_ID (next_id (map MikanItem.ID tbl)) it in
    (tbl ++ [it'], it')
  else if existsb (fun r => MikanItem.ID r =? MikanItem.ID it) tbl then (tbl, it)
  else (tbl ++ [it], it).

Definition create_TmdbItem (tbl : list TmdbItem.t) (it : TmdbItem.t)
  : list TmdbItem.t * TmdbItem.t :=
  let it := if TmdbItem.Season it =? 0 then TmdbItem.with_Season 1 it else it in
  if TmdbItem.ID it =? 0 then
    let it' := TmdbItem.with_ID (next_id (map TmdbItem.ID tbl)) it in
    (tbl ++ [it'], it')
  else if existsb (fun r => TmdbItem.ID r =? TmdbItem.ID it) tbl then (tbl, it)
  else (tbl ++ [it], it).

Definition save_belongs_to_MikanItem (tbl : list MikanItem.t) (b : Bangumi.t)
  : list MikanItem.t * Bangumi.t :=
  match Bangumi.MikanItem b with
  | None => (tbl, b)
  | Some it =>
      let '(tbl', it') := create_MikanItem tbl it in
      (tbl', Bangumi.with_MikanID (Some (MikanItem.ID it'))
               (Bangumi.with_MikanItem (Some it') b))
  end.

Definition save_belongs_to_TmdbItem (tbl : list TmdbItem.t) (b : Bangumi.t)
  : list TmdbItem.t * Bangumi.t :=
  match Bangumi.TmdbItem b with
  | None => (tbl, b)
  | Some it =>
      let '(tbl', it') := create_TmdbItem tbl it in
      (tbl', Bangumi.with_TmdbID (Some (TmdbItem.ID it'))
               (Bangumi.with_TmdbItem (Some it') b))
  end.

Definition create_defaults_Bangumi (b : Bangumi.t) : Bangumi.t :=
  let b := if Bangumi.Season b =? 0 then Bangumi.with_Season 1 b else b in
  if String.eqb (Bangumi.Parse b) "" then Bangumi.with_Parse "tmdb" b else b.

Definition save_row_Bangumi (tbl : list Bangumi.t) (b : Bangumi.t)
  : list Bangumi.t * Bangumi.t :=
  if Bangumi.ID b =? 0 then
    let b' := Bangumi.with_ID (next_id (map Bangumi.ID tbl))
                (create_defaults_Bangumi b) in
    (tbl ++ [Bangumi.columns b'], b')
  else if existsb (fun r => Bangumi.ID r =? Bangumi.ID b) tbl then
    (map (fun r => if Bangumi.ID r =? Bangumi.ID b then Bangumi.columns b else r)
         tbl, b)
  else
    let b' := create_defaults_Bangumi b in
    (tbl ++ [Bangumi.columns b'], b').

Definition create_defaults_EpisodeMetadata (m : EpisodeMetadata.t)
  : EpisodeMetadata.t :=
  if EpisodeMetadata.Season m =? 0 then EpisodeMetadata.with_Season 1 m else m.

Definition save_has_many_EpisodeMetadata (tbl : list EpisodeMetadata.t)
  (m : EpisodeMetadata.t) : list EpisodeMetadata.t :=
  if EpisodeMetadata.ID m =? 0 then
    tbl ++ [EpisodeMetadata.columns
              (EpisodeMetadata.with_ID (next_id (map EpisodeMetadata.ID tbl))
                 (create_defaults_EpisodeMetadata m))]
  else if existsb (fun r => EpisodeMetadata.ID r =? EpisodeMetadata.ID m) tbl then
    map (fun r => if EpisodeMetadata.ID r =? EpisodeMetadata.ID m
                  then EpisodeMetadata.with_BangumiID (EpisodeMetadata.BangumiID m) r
                  else r) tbl
  else
    tbl ++ [EpisodeMetadata.columns (create_defaults_EpisodeMetadata m)].

(** uniqueIndex:idx_episode_metadata_unique *)
Definition same_unique_key (a b : EpisodeMetadata.t) : bool :=
  String.eqb (EpisodeMetadata.Title a) (EpisodeMetadata.Title b)
  && (EpisodeMetadata.Season a =? EpisodeMetadata.Season b)
  && String.eqb (EpisodeMetadata.SubType a) (EpisodeMetadata.SubType b)
  && String.eqb (EpisodeMetadata.Group a) (EpisodeMetadata.Group b)
  && String.eqb (EpisodeMetadata.Resolution a) (EpisodeMetadata.Resolution b)
  && (EpisodeMetadata.BangumiID a =? EpisodeMetadata.BangumiID b).

(** No two rows of a list are the same under [same]. *)
Fixpoint pairwise_distinct {A : Type} (same : A -> A -> bool) (l : list A) : bool :=
  match l with
  | [] => true
  | r :: rest => negb (existsb (same r) rest) && pairwise_distinct same rest
  end.

Definition unique_index_ok (tbl : list EpisodeMetadata.t) : bool :=
  pairwise_distinct same_unique_key tbl.

Definition Save_Bangumi (fx : Faults) (db : DB) (b : Bangumi.t)
  : DB * option error :=
  match fault_save_bangumi fx with
  | Some msg => (db, Some (ErrStorage msg))
  | None =>
      let '(mikan, b1) := save_belongs_to_MikanItem (tbl_mikan db) b in
      let '(tmdb, b2) := save_belongs_to_TmdbItem (tbl_tmdb db) b1 in
      let '(rows, b3) := save_row_Bangumi (tbl_bangumi db) b2 in
      let metas :=
        fold_left save_has_many_EpisodeMetadata
          (map (EpisodeMetadata.with_BangumiID (Bangumi.ID b3))
               (Bangumi.EpisodeMetadata b3))
          (tbl_meta db) in
      if unique_index_ok metas
      then (mkDB rows mikan tmdb metas (tbl_torrent db), None)
      else (db, Some (ErrStorage "UNIQUE constraint failed: episode_metadata"))
  end.

(** ** GORM's read path for CreateBangumi *)

Definition column_is (c : option Z) (v : Z) : bool :=
  match c with
  | Some x => x =? v
  | None => false               (* NULL = v is not true *)
  end.

(** Where("mikan_id = ?", mikanID).Or("tmdb_id", tmdbID) *)
Definition mikan_or_tmdb (mikanID tmdbID : Z) (r : Bangumi.t) : bool :=
  column_is (Bangumi.MikanID r) mikanID || column_is (Bangumi.TmdbID r) tmdbID.

(** Preload("MikanItem").Preload("TmdbItem").Preload("EpisodeMetadata"); the
    episode metadata of the entity in the order of the table, which is the
    order of the keys as long as AUTOINCREMENT assigns them. *)
Definition Preload (db : DB) (r : Bangumi.t) : Bangumi.t :=
  Bangumi.with_EpisodeMetadata
    (filter (fun m => EpisodeMetadata.BangumiID m =? Bangumi.ID r) (tbl_meta db))
    (Bangumi.with_TmdbItem
       (match Bangumi.TmdbID r with
        | Some i => find (fun it => TmdbItem.ID it =? i) (tbl_tmdb db)
        | None => None
        end)
       (Bangumi.with_MikanItem
          (match Bangumi.MikanID r with
           | Some i => find (fun it => MikanItem.ID it =? i) (tbl_mikan db)
           | None => None
           end)
          r)).

(** The query of CreateBangumi: [oldBangumi] stays the zero value unless a
    row is found. *)
Definition First_Bangumi (fx : Faults) (db : DB) (mikanID tmdbID : Z)
  : Bangumi.t * option error :=
  match fault_first_bangumi fx with
  | Some msg => (Bangumi.zero, Some (ErrStorage msg))
  | None =>
      match First Bangumi.ID (mikan_or_tmdb mikanID tmdbID) (tbl_bangumi db) with
      | Some r => (Preload db r, None)
      | None => (Bangumi.zero, Some ErrRecordNotFound)
      end
  end.

(** ** CreateBangumi *)

Definition extract_tmdbID (bangumi : Bangumi.t) : Z :=
  match Bangumi.TmdbID bangumi with
  | Some i => i
  | None => match Bangumi.TmdbItem bangumi with
            | Some it => TmdbItem.ID it
            | None => 0
            end
  end.

Definition extract_mikanID (bangumi : Bangumi.t) : Z :=
  match Bangumi.MikanID bangumi with
  | Some i => i
  | None => match Bangumi.MikanItem bangumi with
            | Some it => MikanItem.ID it
            | None => 0
            end
  end.

(** The comparison of the inner loop (lines 162-166). *)
Definition same_dedup_key (existingMeta newMeta : EpisodeMetadata.t) : bool :=
  String.eqb (EpisodeMetadata.Title existingMeta) (EpisodeMetadata.Title newMeta)
  && (EpisodeMetadata.Season existingMeta =? EpisodeMetadata.Season newMeta)
  && String.eqb (EpisodeMetadata.Group existingMeta) (EpisodeMetadata.Group newMeta)
  && String.eqb (EpisodeMetadata.Resolution existingMeta)
                (EpisodeMetadata.Resolution newMeta)
  && String.eqb (EpisodeMetadata.SubType existingMeta) (EpisodeMetadata.SubType newMeta).

(** One iteration of the outer loop (lines 158-175). *)
Definition merge_one (oldID : Z) (attached : list EpisodeMetadata.t)
  (newMeta : EpisodeMetadata.t) : list EpisodeMetadata.t :=
  if existsb (fun existingMeta => same_dedup_key existingMeta newMeta) attached
  then attached
  else attached ++ [EpisodeMetadata.with_BangumiID oldID newMeta].

Definition merge_EpisodeMetadata (oldID : Z)
  (attached news : list EpisodeMetadata.t) : list EpisodeMetadata.t :=
  fold_left (merge_one oldID) news attached.

Definition is_some {A : Type} (o : option A) : bool :=
  match o with Some _ => true | None => false end.

Definition is_none {A : Type} (o : option A) : bool := negb (is_some o).

(** Lines 148-176: the merge path, up to the write. *)
Definition merge_into (oldBangumi bangumi : Bangumi.t) : Bangumi.t :=
  let old1 :=
    if is_none (Bangumi.MikanID oldBangumi) && is_some (Bangumi.MikanItem bangumi)
    then Bangumi.with_MikanItem (Bangumi.MikanItem bangumi) oldBangumi
    else oldBangumi in
  let old2 :=
    if is_none (Bangumi.TmdbID old1) && is_some (Bangumi.TmdbItem bangumi)
    then Bangumi.with_TmdbItem (Bangumi.TmdbItem bangumi) old1
    else old1 in
  Bangumi.with_EpisodeMetadata
    (merge_EpisodeMetadata (Bangumi.ID old2) (Bangumi.EpisodeMetadata old2)
       (Bangumi.EpisodeMetadata bangumi))
    old2.

(** Lines 145-178, given the outcome of the query. *)
Definition CreateBangumi_after_query (fx : Faults) (db : DB)
  (bangumi oldBangumi : Bangumi.t) (err : option error) : DB * option error :=
  match err with
  | Some (ErrStorage msg) => (db, Some (ErrStorage msg))
  | _ =>
      if negb (Bangumi.ID oldBangumi =? 0)
      then Save_Bangumi fx db (merge_into oldBangumi bangumi)
      else Save_Bangumi fx db bangumi
  end.

(** The body of CreateBangumi, which runs with bangumiCreateMutex held. *)
Definition CreateBangumi (fx : Faults) (db : DB) (bangumi : Bangumi.t)
  : DB * option error :=
  let '(oldBangumi, err) :=
    First_Bangumi fx db (extract_mikanID bangumi) (extract_tmdbID bangumi) in
  CreateBangumi_after_query fx db bangumi oldBangumi err.

(** ** Torrents *)

Definition GetTorrentByURL (fx : Faults) (db : DB) (url : string)
  : result Torrent.t :=
  match fault_torrent_by_url fx url with
  | Some msg => Err (ErrStorage msg)
  | None =>
      match find (fun t => String.eqb (Torrent.URL t) url) (tbl_torrent db) with
      | Some torrent => Ok torrent
      | None => Err ErrRecordNotFound
      end
  end.

Definition save_row_Torrent (tbl : list Torrent.t) (torrent : Torrent.t)
  : list Torrent.t :=
  if existsb (fun r => String.eqb (Torrent.URL r) (Torrent.URL torrent)) tbl
  then map (fun r => if String.eqb (Torrent.URL r) (Torrent.URL torrent)
                     then torrent else r) tbl
  else tbl ++ [torrent].

Definition CreateTorrent (fx : Faults) (db : DB) (torrent : Torrent.t)
  : DB * option error :=
  match fault_save_torrent fx (Torrent.URL torrent) with
  | Some msg => (db, Some (ErrStorage msg))
  | None =>
      (mkDB (tbl_bangumi db) (tbl_mikan db) (tbl_tmdb db) (tbl_meta db)
            (save_row_Torrent (tbl_torrent db) torrent), None)
  end.

Fixpoint CheckNewTorrents_from (fx : Faults) (db : DB)
  (newTorrents torrents : list Torrent.t) : result (list Torrent.t) :=
  match torrents with
  | [] => Ok newTorrents
  | torrent :: rest =>
      match GetTorrentByURL fx db (Torrent.URL torrent) with
      | Err (ErrStorage msg) => Err (ErrStorage msg)
      | Err ErrRecordNotFound =>
          CheckNewTorrents_from fx db (newTorrents ++ [torrent]) rest
      | Ok existing =>
          if negb (Torrent.Downloaded existing)
          then CheckNewTorrents_from fx db (newTorrents ++ [torrent]) rest
          else CheckNewTorrents_from fx db newTorrents rest
      end
  end.

Definition CheckNewTorrents (fx : Faults) (db : DB) (torrents : list Torrent.t)
  : result (list Torrent.t) :=
  CheckNewTorrents_from fx db [] torrents.

(* ================================================================== *)
(** * package refresh *)
(* ================================================================== *)

(** What the pipeline does outside the store: calls of the title parser and
    the resolution tasks it starts. *)
Inductive call : Type :=
| CallParse (torrentName : string)
| CallCreateBangumi (t : Torrent.t) (url : string).

(** [newTorrents[key] = t] on a Go map, kept as an association list. *)
Fixpoint map_set (m : list (string * Torrent.t)) (key : string) (t : Torrent.t)
  : list (string * Torrent.t) :=
  match m with
  | [] => [(key, t)]
  | (k, v) :: m' =>
      if String.eqb k key then (key, t) :: m' else (k, v) :: map_set m' key t
  end.

Section Refresh.

(** The collaborators of package refresh, none of which is part of the
    sources at hand: the feed client, the admissibility filter and the
    title parser with the title of what it returns. *)
Variable GetTorrents : string -> list Torrent.t * option error.
Variable FilterTorrent : Torrent.t -> option Bangumi.t -> bool.
Variable ParsedTitle : Type.
Variable ParsedTitle_Title : ParsedTitle -> string.
Variable Parse : string -> option ParsedTitle.

Variable fx : Faults.

Definition getTorrents (db : DB) (url : string) : list Torrent.t :=
  let '(torrents, _) := GetTorrents url in
  match CheckNewTorrents fx db torrents with
  | Ok newTorrents => newTorrents
  | Err _ => []
  end.

Definition pullRss (db : DB) (url : string) : list Torrent.t :=
  map (Torrent.with_RRSSLink url) (getTorrents db url).

(** One iteration of the first loop of FindNewBangumi (lines 40-55). *)
Definition FindNewBangumi_step (db : DB)
  (st : list (string * Torrent.t) * list call) (t : Torrent.t)
  : list (string * Torrent.t) * list call :=
  let '(newTorrents, calls) := st in
  match GetBangumiParseByTitle fx db (Torrent.Name t) with
  | Ok _ => st
  | Err _ =>
      if FilterTorrent t None then
        match Parse (Torrent.Name t) with
        | Some raw =>
            (map_set newTorrents (ParsedTitle_Title raw) t,
             calls ++ [CallParse (Torrent.Name t)])
        | None => (newTorrents, calls ++ [CallParse (Torrent.Name t)])
        end
      else st
  end.

(** FindNewBangumi, as the calls it makes in order; the tasks of the second
    loop are started in the map's iteration order, which Go leaves open. *)
Definition FindNewBangumi (db : DB) (url : string) : list call :=
  let '(torrents, _) := GetTorrents url in
  let '(newTorrents, calls) :=
    fold_left (FindNewBangumi_step db) torrents ([], []) in
  calls ++ map (fun kv => CallCreateBangumi (snd kv) url) newTorrents.

(** One iteration of the loop of RefreshRSS (lines 66-84) on the store and
    the download queue. *)
Definition RefreshRSS_step (st : DB * list Torrent.t) (t : Torrent.t)
  : DB * list Torrent.t :=
  let '(db, DQueue) := st in
  match GetBangumiParseByTitle fx db (Torrent.Name t) with
  | Err _ => st
  | Ok metaData =>
      let t := Torrent.with_BangumiID (EpisodeMetadata.BangumiID metaData) t in
      match GetTorrentByURL fx db (Torrent.URL t) with
      | Ok existingTorrent =>
          if Torrent.Downloaded existingTorrent then st
          else (fst (CreateTorrent fx db t), DQueue ++ [t])
      | Err _ => (fst (CreateTorrent fx db t), DQueue ++ [t])
      end
  end.

Definition RefreshRSS_loop (torrents : list Torrent.t)
  (st : DB * list Torrent.t) : DB * list Torrent.t :=
  fold_left RefreshRSS_step torrents st.

Definition RefreshRSS (db : DB) (DQueue : list Torrent.t) (url : string)
  : DB * list Torrent.t :=
  RefreshRSS_loop (pullRss db url) (db, DQueue).

End Refresh.


(* ================================================================== *)
(** * Concurrent callers of CreateBangumi *)
(* ================================================================== *)

(** Goroutines that call CreateBangumi interleave at the statements that
    touch shared state: the acquisition of bangumiCreateMutex, the query,
    the write and the deferred release.  A caller is at one of these points
    or has returned. *)
Inductive thread : Type :=
| AtLock (bangumi : Bangumi.t)
| AtQuery (bangumi : Bangumi.t)
| AtWrite (bangumi oldBangumi : Bangumi.t) (err : option error)
| AtUnlock (ret : option error)
| Returned (ret : option error).

Record world : Type := mkWorld {
  w_db : DB;
  w_locked : bool;              (* bangumiCreateMutex *)
  w_threads : list thread }.

Fixpoint set_nth {A : Type} (i : nat) (x : A) (l : list A) : list A :=
  match l, i with
  | [], _ => []
  | _ :: l', O => x :: l'
  | a :: l', S i' => a :: set_nth i' x l'
  end.

(** One step of one goroutine.  Lock is enabled only while the mutex is
    free; the other steps are always enabled for the goroutine at them. *)
Inductive step (fx : Faults) : world -> world -> Prop :=
| step_Lock : forall i db ts bangumi,
    nth_error ts i = Some (AtLock bangumi) ->
    step fx (mkWorld db false ts)
            (mkWorld db true (set_nth i (AtQuery bangumi) ts))
| step_Query : forall i db l ts bangumi oldBangumi err,
    nth_error ts i = Some (AtQuery bangumi) ->
    First_Bangumi fx db (extract_mikanID bangumi) (extract_tmdbID bangumi)
    = (oldBangumi, err) ->
    step fx (mkWorld db l ts)
            (mkWorld db l (set_nth i (AtWrite bangumi oldBangumi err) ts))
| step_Write : forall i db l ts bangumi oldBangumi err db' ret,
    nth_error ts i = Some (AtWrite bangumi oldBangumi err) ->
    CreateBangumi_after_query fx db bangumi oldBangumi err = (db', ret) ->
    step fx (mkWorld db l ts) (mkWorld db' l (set_nth i (AtUnlock ret) ts))
| step_Unlock : forall i db l ts ret,
    nth_error ts i = Some (AtUnlock ret) ->
    step fx (mkWorld db l ts) (mkWorld db false (set_nth i (Returned ret) ts)).






(* ================================================================== *)
(** * Vocabulary of the properties *)
(* ================================================================== *)

(** [Y] occurs in [X]. *)
Definition is_substring (Y X : string) : Prop :=
  exists before after, X = (before ++ Y ++ after)%string.

(** The stored record of the containment example. *)
Definition frieren_ABC : EpisodeMetadata.t :=
  EpisodeMetadata.mk 1 "Frieren" 1 "" 0 "" "" "ABC" "" "" "" "" "" 1.

Definition frieren_store : DB := mkDB [] [] [] [frieren_ABC] [].

(** Two entries agree on the five fields of the dedup key. *)
Definition agree_on_key (a b : EpisodeMetadata.t) : Prop :=
  EpisodeMetadata.Title a = EpisodeMetadata.Title b
  /\ EpisodeMetadata.Season a = EpisodeMetadata.Season b
  /\ EpisodeMetadata.Group a = EpisodeMetadata.Group b
  /\ EpisodeMetadata.Resolution a = EpisodeMetadata.Resolution b
  /\ EpisodeMetadata.SubType a = EpisodeMetadata.SubType b.

(** Every field of an entity but its two links and its collection of
    episode metadata. *)
Definition frame (b : Bangumi.t) :=
  (Bangumi.ID b, Bangumi.OfficialTitle b, Bangumi.Year b, Bangumi.Season b,
   Bangumi.RRSSLink b, Bangumi.EpsCollect b, Bangumi.Offset b,
   Bangumi.IncludeFilter b, Bangumi.ExcludeFilter b, Bangumi.Parse b,
   Bangumi.PosterLink b, Bangumi.Deleted b).

(** What SQLite and GORM maintain on a store: primary keys are unique and
    were never zero, the unique index of episode_metadata holds, and every
    episode metadata row belongs to a stored entity. *)
Record wf_db (db : DB) : Prop := mk_wf_db {
  wf_bangumi_keys : NoDup (map Bangumi.ID (tbl_bangumi db));
  wf_bangumi_nonzero : forall r, In r (tbl_bangumi db) -> Bangumi.ID r <> 0;
  wf_meta_keys : NoDup (map EpisodeMetadata.ID (tbl_meta db));
  wf_meta_nonzero : forall m, In m (tbl_meta db) -> EpisodeMetadata.ID m <> 0;
  wf_meta_unique : unique_index_ok (tbl_meta db) = true;
  wf_meta_owner :
    forall m, In m (tbl_meta db) ->
              In (EpisodeMetadata.BangumiID m) (map Bangumi.ID (tbl_bangumi db)) }.

(** A stored entity linked to the release tracker only. *)
Definition one_entity : Bangumi.t :=
  Bangumi.mk 1 "Frieren" "2023" 1 (Some 3141) None None None "" [] false 0 "" ""
    "tmdb" "" false.

(** What INSERT stores for a has-many record that receives key [i]. *)
Definition persist (i : Z) (m : EpisodeMetadata.t) : EpisodeMetadata.t :=
  EpisodeMetadata.columns
    (EpisodeMetadata.with_ID i (create_defaults_EpisodeMetadata m)).

(** An entry as the title parser hands it over: never stored, and with a
    season (a zero season would be replaced by the column default on
    INSERT). *)
Definition fresh_meta (m : EpisodeMetadata.t) : Prop :=
  EpisodeMetadata.ID m = 0 /\ EpisodeMetadata.Season m <> 0.

(** The foreign key an owner is written with: the key of its belongs-to
    record when it has one ([fresh] when that record has none yet), the
    stored foreign key otherwise. *)
Definition written_key (stored item_key : option Z) (fresh : Z) : option Z :=
  match item_key with
  | Some k => Some (if k =? 0 then fresh else k)
  | None => stored
  end.

(** Sample values: catalog records, parsed entries and candidates. *)
Definition mikan_3141 : MikanItem.t := MikanItem.mk 3141 "Frieren" 1 "".

Definition tmdb_209867 : TmdbItem.t :=
  TmdbItem.mk 209867 "2023" "Sousou no Frieren" "2023-09-29" 28 "Frieren" 1 "" 0.

Definition entry (group resolution : string) : EpisodeMetadata.t :=
  EpisodeMetadata.mk 0 "Frieren" 1 "S1" 5 "CHS" "soft" group "2023" resolution
    "Web" "AAC" "HEVC" 0.

Definition candidate (mikanID tmdbID : option Z) (mikan : option MikanItem.t)
  (tmdb : option TmdbItem.t) (metas : list EpisodeMetadata.t) : Bangumi.t :=
  Bangumi.mk 0 "Frieren" "2023" 1 mikanID tmdbID mikan tmdb "" metas false 0
    "" "" "tmdb" "" false.

(** A store holding [one_entity] and one record of episode metadata for it. *)
Definition stored_1080 : EpisodeMetadata.t :=
  EpisodeMetadata.mk 1 "Frieren" 1 "S1" 0 "CHS" "soft" "ABC" "" "1080p"
    "Web" "AAC" "HEVC" 1.

Definition one_entity_store : DB := mkDB [one_entity] [] [] [stored_1080] [].

(** A stored entity linked to the metadata catalog only. *)
Definition tmdb_entity : Bangumi.t :=
  Bangumi.mk 1 "Frieren" "2023" 1 None (Some 209867) None None "" [] false 0 ""
    "" "tmdb" "" false.

Definition tmdb_entity_store : DB := mkDB [tmdb_entity] [] [tmdb_209867] [] [].

(** A candidate carries the release-tracker ID [M]: [M] is what the lookup
    extracts from it, and the embedded record, when there is one, has that
    key.  Zero is the value the lookup uses for "no ID". *)
Definition carries_mikan (M : Z) (c : Bangumi.t) : Prop :=
  M <> 0 /\ extract_mikanID c = M
  /\ (forall it, Bangumi.MikanItem c = Some it -> MikanItem.ID it = M).

(** No stored entity is linked to either ID of the candidate. *)
Definition unseen (db : DB) (c : Bangumi.t) : Prop :=
  forall x, In x (tbl_bangumi db) ->
            mikan_or_tmdb (extract_mikanID c) (extract_tmdbID c) x = false.

(** Two releases of one pull, both of the stored title and group. *)
Definition release_05 : Torrent.t :=
  Torrent.mk "[ABC] Frieren - 05 [1080p]" "https://mikanani.me/t/05" false 0 "".

Definition release_06 : Torrent.t :=
  Torrent.mk "[ABC] Frieren - 06 [1080p]" "https://mikanani.me/t/06" false 0 "".

Definition feed_of_two (url : string) : list Torrent.t * option error :=
  ([release_05; release_06], None).

(** The existence check of one URL fails. *)
Definition fault_on_url (url : string) : Faults :=
  mkFaults None None (fun _ => None)
    (fun u => if String.eqb u url then Some "database is locked" else None)
    (fun _ => None).

(** A candidate as the discovery flow builds it for a release-tracker ID the
    store has not seen: a new value, carrying the ID, with entries as the
    parser produces them and no two of the same key. *)
Definition new_candidate (db : DB) (M : Z) (c : Bangumi.t) : Prop :=
  carries_mikan M c /\ Bangumi.ID c = 0 /\ unseen db c
  /\ Forall fresh_meta (Bangumi.EpisodeMetadata c)
  /\ pairwise_distinct same_dedup_key (Bangumi.EpisodeMetadata c) = true.




(* ================================================================== *)
(** * Further operations of package database *)
(* ================================================================== *)

(** The operations below take the fault of their one statement, if any, as
    an argument. *)

(** UpdateBangumi: [db.Save(bangumi)], without the query of CreateBangumi. *)
Definition UpdateBangumi (fx : Faults) (db : DB) (bangumi : Bangumi.t)
  : DB * option error :=
  Save_Bangumi fx db bangumi.

(** GetBangumiByID: [db.First(&bangumi, id)]. *)
Definition GetBangumiByID (fault : option string) (db : DB) (id : Z)
  : result Bangumi.t :=
  match fault with
  | Some msg => Err (ErrStorage msg)
  | None =>
      match First Bangumi.ID (fun r => Bangumi.ID r =? id) (tbl_bangumi db) with
      | Some bangumi => Ok bangumi
      | None => Err ErrRecordNotFound
      end
  end.

(** A Go [uint] argument reaches SQLite as a signed 64-bit integer: the
    driver passes the same 64 bits, so that values from 2^63 on wrap around
    to the negative keys.  [uint_to_int64] is that conversion, and for an
    [int] key [k] it is also what [uint(k)] is bound as. *)
Definition uint_to_int64 (u : Z) : Z :=
  let w := u mod 2 ^ 64 in
  if w <? 2 ^ 63 then w else w - 2 ^ 64.

(** GetBangumiWithDetails: the same query with the three Preloads.  [id] is
    the value the statement is bound with, [uint_to_int64] of the caller's
    [uint]. *)
Definition GetBangumiWithDetails (fault : option string) (db : DB) (id : Z)
  : result Bangumi.t :=
  match fault with
  | Some msg => Err (ErrStorage msg)
  | None =>
      match First Bangumi.ID (fun r => Bangumi.ID r =? id) (tbl_bangumi db) with
      | Some bangumi => Ok (Preload db bangumi)
      | None => Err ErrRecordNotFound
      end
  end.

(** GetBangumisByMikanID: [Where("mikan_id = ?", mikanID).Find(&bangumis)]. *)
Definition GetBangumisByMikanID (fault : option string) (db : DB) (mikanID : Z)
  : list Bangumi.t * option error :=
  match fault with
  | Some msg => ([], Some (ErrStorage msg))
  | None =>
      (filter (fun r => column_is (Bangumi.MikanID r) mikanID) (tbl_bangumi db),
       None)
  end.

(** [Model(&model.Bangumi{}).Where("id = ?", bangumiID).Update(column, value)]
    for the column mikan_id.  [bangumiID] is the value the statement is
    bound with, [uint_to_int64] of the caller's [uint]. *)
Definition update_mikan_id (db : DB) (bangumiID : Z) (value : option Z) : DB :=
  mkDB (map (fun r => if Bangumi.ID r =? bangumiID
                      then Bangumi.with_MikanID value r else r)
            (tbl_bangumi db))
       (tbl_mikan db) (tbl_tmdb db) (tbl_meta db) (tbl_torrent db).

Definition UpdateBangumiMikan (fault : option string) (db : DB)
  (bangumiID mikanID : Z) : DB * option error :=
  match fault with
  | Some msg => (db, Some (ErrStorage msg))
  | None => (update_mikan_id db bangumiID (Some mikanID), None)
  end.

Definition RemoveBangumiMikan (fault : option string) (db : DB) (bangumiID : Z)
  : DB * option error :=
  match fault with
  | Some msg => (db, Some (ErrStorage msg))
  | None => (update_mikan_id db bangumiID None, None)
  end.

(** ** The global handle (InitDB, GetDB, CloseDB)

    NewDB opens the file and migrates the schema, and Close closes the
    connection; both belong to the environment.  The state is [globalDB]
    together with the calls of NewDB made so far. *)
Section Singleton.

Variable Handle : Type.
Variable NewDB : option string -> result Handle.
Variable Close : Handle -> option error.

Record singleton : Type := mkSingleton {
  globalDB : option Handle;
  opened : list (option string) }.

Definition InitDB (dsn : option string) (s : singleton)
  : singleton * option error :=
  match globalDB s with
  | Some _ => (s, None)
  | None =>
      match NewDB dsn with
      | Err err => (mkSingleton None (opened s ++ [dsn]), Some err)
      | Ok db => (mkSingleton (Some db) (opened s ++ [dsn]), None)
      end
  end.

Definition GetDB (s : singleton) : singleton * option Handle :=
  match globalDB s with
  | None => let s' := fst (InitDB None s) in (s', globalDB s')
  | Some db => (s, Some db)
  end.

Definition CloseDB (s : singleton) : singleton * option error :=
  match globalDB s with
  | Some db => (mkSingleton None (opened s), Close db)
  | None => (s, None)
  end.

End Singleton.

(* ================================================================== *)
(** * Vocabulary of the further properties *)
(* ================================================================== *)

(** The store marks the release of this URL as downloaded. *)
Definition stored_downloaded (db : DB) (url : string) : bool :=
  match find (fun t => String.eqb (Torrent.URL t) url) (tbl_torrent db) with
  | Some existing => Torrent.Downloaded existing
  | None => false
  end.



(** The frame a new entity is stored with under key [k]: the candidate's
    values, with the column defaults of season and parser for zero values. *)
Definition stored_frame (k : Z) (c : Bangumi.t) :=
  (k, Bangumi.OfficialTitle c, Bangumi.Year c,
   (if Bangumi.Season c =? 0 then 1 else Bangumi.Season c),
   Bangumi.RRSSLink c, Bangumi.EpsCollect c, Bangumi.Offset c,
   Bangumi.IncludeFilter c, Bangumi.ExcludeFilter c,
   (if String.eqb (Bangumi.Parse c) "" then "tmdb" else Bangumi.Parse c),
   Bangumi.PosterLink c, Bangumi.Deleted c).
(* ================================================================== *)
(** * Properties *)
(* ================================================================== *)

(** ** Queries *)

Lemma First_Some {A : Type} (pk : A -> Z) (cond : A -> bool) (rows : list A) (r : A) :
  First pk cond rows = Some r -> In r rows /\ cond r = true.
Proof.
  revert r; induction rows as [|x rest IH]; intros r; simpl; [discriminate|].
  destruct (First pk cond rest) as [r'|] eqn:E.
  - destruct (cond x && (pk x <=? pk r')) eqn:C; intros [= <-].
    + apply andb_true_iff in C; tauto.
    + destruct (IH r' eq_refl); tauto.
  - destruct (cond x) eqn:C; [intros [= <-]; tauto | discriminate].
Qed.

Lemma First_None {A : Type} (pk : A -> Z) (cond : A -> bool) (rows : list A) :
  First pk cond rows = None <-> (forall r, In r rows -> cond r = false).
Proof.
  induction rows as [|x rest IH]; simpl.
  - split; [intros _ r [] | reflexivity].
  - destruct (First pk cond rest) as [r'|] eqn:E.
    + split.
      * destruct (cond x && (pk x <=? pk r')); discriminate.
      * intros H. destruct (First_Some _ _ _ _ E) as [Hin Hc].
        rewrite (H r' (or_intror Hin)) in Hc; discriminate.
    + destruct (cond x) eqn:C; split; try discriminate.
      * intros H; rewrite (H x (or_introl eq_refl)) in C; discriminate.
      * intros _ r [<-|Hin]; [assumption | now apply IH].
      * reflexivity.
Qed.

Lemma First_least {A : Type} (pk : A -> Z) (cond : A -> bool) (rows : list A) (r : A) :
  First pk cond rows = Some r ->
  forall r', In r' rows -> cond r' = true -> pk r <= pk r'.
Proof.
  revert r; induction rows as [|x rest IH]; intros r; simpl; [discriminate|].
  destruct (First pk cond rest) as [r0|] eqn:E.
  - destruct (cond x && (pk x <=? pk r0)) eqn:C; intros [= <-] r' [<-|Hin] Hc.
    + lia.
    + apply andb_true_iff in C; destruct C as [_ C]; apply Z.leb_le in C.
      specialize (IH r0 eq_refl r' Hin Hc); lia.
    + rewrite Hc in C; simpl in C; apply Z.leb_gt in C; lia.
    + exact (IH r0 eq_refl r' Hin Hc).
  - destruct (cond x) eqn:C; [|discriminate].
    intros [= <-] r' [<-|Hin] Hc; [lia|].
    rewrite (proj1 (First_None pk cond rest) E r' Hin) in Hc; discriminate.
Qed.

Lemma First_exists {A : Type} (pk : A -> Z) (cond : A -> bool) (rows : list A) :
  (exists r, First pk cond rows = Some r) <->
  (exists r, In r rows /\ cond r = true).
Proof.
  split.
  - intros [r H]; exists r; now apply First_Some in H.
  - intros [r [Hin Hc]]. destruct (First pk cond rows) as [r0|] eqn:E; [now exists r0|].
    rewrite (proj1 (First_None pk cond rows) E r Hin) in Hc; discriminate.
Qed.

(** ** Substrings *)

Lemma has_prefix_true (p s : string) :
  has_prefix p s = true <-> exists rest, s = (p ++ rest)%string.
Proof.
  revert s; induction p as [|a p IH]; intros s; simpl.
  - split; [intros _; now exists s | reflexivity].
  - destruct s as [|b s].
    + split; [discriminate | intros [rest H]; discriminate].
    + rewrite andb_true_iff, Ascii.eqb_eq, IH. split.
      * intros [-> [rest ->]]; now exists rest.
      * intros [rest [= -> ->]]; split; [reflexivity | now exists rest].
Qed.

Lemma is_substring_cons (Y : string) (a : ascii) (X : string) :
  is_substring Y (String a X) <->
  has_prefix Y (String a X) = true \/ is_substring Y X.
Proof.
  split.
  - intros [[|b before] [after H]]; simpl in H.
    + left; apply has_prefix_true; now exists after.
    + right; injection H as _ H; now exists before, after.
  - intros [H|[before [after ->]]].
    + apply has_prefix_true in H; destruct H as [rest H].
      exists "", rest; exact H.
    + now exists (String a before), after.
Qed.

Lemma instr_from_positive (X Y : string) (pos : nat) :
  (0 < pos)%nat -> ((0 < instr_from pos X Y)%nat <-> is_substring Y X).
Proof.
  revert pos; induction X as [|a X IH]; intros pos Hpos; simpl.
  - destruct Y as [|b Y]; simpl.
    + split; [intros _; now exists "", "" | intros _; exact Hpos].
    + split; [lia|]. intros [[|c before] [after H]]; discriminate.
  - destruct (has_prefix Y (String a X)) eqn:P.
    + split; [intros _|intros _; exact Hpos].
      apply is_substring_cons; now left.
    + rewrite (IH (S pos)) by lia. rewrite is_substring_cons, P.
      split; [now right | intros [H|H]; [discriminate | exact H]].
Qed.

Lemma instr_positive (X Y : string) :
  (0 <? instr X Y) = true <-> is_substring Y X.
Proof.
  unfold instr. rewrite Z.ltb_lt, <- (instr_from_positive X Y 1) by lia. lia.
Qed.

Lemma title_and_group_in_true (torrentName : string) (m : EpisodeMetadata.t) :
  title_and_group_in torrentName m = true <->
  is_substring (EpisodeMetadata.Title m) torrentName
  /\ is_substring (EpisodeMetadata.Group m) torrentName.
Proof.
  unfold title_and_group_in. now rewrite andb_true_iff, !instr_positive.
Qed.

(** ** The title match index *)

(** C6. With no fault of the storage layer on the query,
    GetBangumiParseByTitle returns a record exactly when some stored record
    has its title and its subtitle group both contained in the release name;
    the record it returns is stored and is such a record (the one with the
    least key); otherwise it reports gorm.ErrRecordNotFound.  With
    {title "Frieren", group "ABC"} stored, "[ABC] Frieren - 05 [1080p]" is
    matched and "[XYZ] Frieren - 05 [1080p]" is not. *)
Theorem GetBangumiParseByTitle_containment :
  forall (fx : Faults) (db : DB) (torrentName : string),
    fault_parse_by_title fx torrentName = None ->
    let stored_match m :=
      In m (tbl_meta db)
      /\ is_substring (EpisodeMetadata.Title m) torrentName
      /\ is_substring (EpisodeMetadata.Group m) torrentName in
    ((exists parser, GetBangumiParseByTitle fx db torrentName = Ok parser)
     <-> (exists m, stored_match m))
    /\ (forall parser,
          GetBangumiParseByTitle fx db torrentName = Ok parser ->
          stored_match parser)
    /\ ((forall m, ~ stored_match m) <->
        GetBangumiParseByTitle fx db torrentName = Err ErrRecordNotFound)
    /\ GetBangumiParseByTitle no_faults frieren_store "[ABC] Frieren - 05 [1080p]"
       = Ok frieren_ABC
    /\ GetBangumiParseByTitle no_faults frieren_store "[XYZ] Frieren - 05 [1080p]"
       = Err ErrRecordNotFound.
Proof.
  intros fx db torrentName Hfx stored_match.
  assert (Hsound : forall parser,
             GetBangumiParseByTitle fx db torrentName = Ok parser ->
             stored_match parser).
  { intros parser. unfold GetBangumiParseByTitle. rewrite Hfx.
    destruct (First _ _ _) as [m|] eqn:E; [|discriminate].
    intros [= <-]. apply First_Some in E. destruct E as [Hin Hc].
    apply title_and_group_in_true in Hc. split; [exact Hin | exact Hc]. }
  assert (Hcomplete : forall m, stored_match m ->
             exists parser, GetBangumiParseByTitle fx db torrentName = Ok parser).
  { intros m [Hin Hc]. apply title_and_group_in_true in Hc.
    unfold GetBangumiParseByTitle. rewrite Hfx.
    destruct (First EpisodeMetadata.ID (title_and_group_in torrentName) (tbl_meta db))
      as [p|] eqn:E; [now exists p|].
    rewrite (proj1 (First_None _ _ _) E m Hin) in Hc; discriminate. }
  repeat split.
  - intros [parser H]; exists parser; now apply Hsound.
  - intros [m H]; now apply (Hcomplete m).
  - now apply Hsound.
  - now apply Hsound.
  - now apply Hsound.
  - intros Hnone. unfold GetBangumiParseByTitle. rewrite Hfx.
    destruct (First _ _ _) as [m|] eqn:E; [|reflexivity].
    exfalso. apply (Hnone m). apply Hsound.
    unfold GetBangumiParseByTitle. now rewrite Hfx, E.
  - intros Hnf m Hm. destruct (Hcomplete m Hm) as [p Hp].
    rewrite Hp in Hnf; discriminate.
Qed.

Lemma GetBangumiParseByTitle_containment_witness :
  fault_parse_by_title no_faults "[ABC] Frieren - 05 [1080p]" = None
  /\ exists parser,
       GetBangumiParseByTitle no_faults frieren_store "[ABC] Frieren - 05 [1080p]"
       = Ok parser.
Proof.
  split; [reflexivity|].
  apply (proj1 (GetBangumiParseByTitle_containment no_faults frieren_store
                  "[ABC] Frieren - 05 [1080p]" eq_refl)).
  exists frieren_ABC. split; [left; reflexivity|].
  split; [now exists "[ABC] ", " - 05 [1080p]" | now exists "[", "] Frieren - 05 [1080p]"].
Defined.

(** ** Lookup faults of CreateBangumi *)

(** C7. Whatever the candidate, when the query of CreateBangumi fails with
    an error other than gorm.ErrRecordNotFound, CreateBangumi returns that
    error and the store is the one it started from; a fault of the storage
    layer on the query is such an error.  gorm.ErrRecordNotFound is not
    returned: the call goes on to [db.Save(bangumi)], the create path. *)
Theorem CreateBangumi_lookup_fault :
  forall (fx : Faults) (db : DB) (bangumi oldBangumi : Bangumi.t)
         (err : option error),
    First_Bangumi fx db (extract_mikanID bangumi) (extract_tmdbID bangumi)
    = (oldBangumi, err) ->
    (forall msg, err = Some (ErrStorage msg) ->
                 CreateBangumi fx db bangumi = (db, Some (ErrStorage msg)))
    /\ (forall msg, fault_first_bangumi fx = Some msg ->
                    err = Some (ErrStorage msg))
    /\ (err = Some ErrRecordNotFound ->
        CreateBangumi fx db bangumi = Save_Bangumi fx db bangumi).
Proof.
  intros fx db bangumi oldBangumi err Hq. repeat split.
  - intros msg ->. unfold CreateBangumi. now rewrite Hq.
  - intros msg Hf. unfold First_Bangumi in Hq. rewrite Hf in Hq. now inversion Hq.
  - intros ->. unfold CreateBangumi. rewrite Hq.
    unfold First_Bangumi in Hq.
    destruct (fault_first_bangumi fx); [discriminate|].
    destruct (First _ _ _); [discriminate|].
    injection Hq as <-. reflexivity.
Qed.

Lemma CreateBangumi_lookup_fault_witness :
  let fx := mkFaults (Some "disk I/O error") None (fun _ => None) (fun _ => None)
                     (fun _ => None) in
  let db := mkDB [one_entity] [] [] [] [] in
  CreateBangumi fx db one_entity = (db, Some (ErrStorage "disk I/O error")).
Proof.
  intros fx db.
  apply (proj1 (CreateBangumi_lookup_fault fx db one_entity Bangumi.zero
                  (Some (ErrStorage "disk I/O error")) eq_refl)).
  reflexivity.
Defined.

(** ** The frame of the merge path *)

Lemma NoDup_map_eq {A B : Type} (f : A -> B) (l : list A) (x y : A) :
  NoDup (map f l) -> In x l -> In y l -> f x = f y -> x = y.
Proof.
  induction l as [|a l IH]; simpl; [intros _ []|].
  intros Hnd Hx Hy Hf. inversion Hnd as [|? ? Hnotin Hnd']; subst.
  destruct Hx as [->|Hx], Hy as [->|Hy]; auto.
  - exfalso; apply Hnotin. rewrite Hf. now apply in_map.
  - exfalso; apply Hnotin. rewrite <- Hf. now apply in_map.
Qed.

Lemma replace_row_same (tbl : list Bangumi.t) (r : Bangumi.t) :
  NoDup (map Bangumi.ID tbl) -> In r tbl ->
  map (fun x => if Bangumi.ID x =? Bangumi.ID r then r else x) tbl = tbl.
Proof.
  intros Hnd Hin. rewrite <- (map_id tbl) at 2. apply map_ext_in.
  intros x Hx. destruct (Bangumi.ID x =? Bangumi.ID r) eqn:E; [|reflexivity].
  apply Z.eqb_eq in E. symmetry. exact (NoDup_map_eq _ _ _ _ Hnd Hx Hin E).
Qed.

Lemma save_belongs_to_MikanItem_frame tbl b tbl' b' :
  save_belongs_to_MikanItem tbl b = (tbl', b') ->
  frame b' = frame b
  /\ Bangumi.EpisodeMetadata b' = Bangumi.EpisodeMetadata b
  /\ Bangumi.TmdbItem b' = Bangumi.TmdbItem b
  /\ Bangumi.TmdbID b' = Bangumi.TmdbID b.
Proof.
  unfold save_belongs_to_MikanItem. destruct (Bangumi.MikanItem b).
  - destruct (create_MikanItem tbl t). intros [= <- <-]. now repeat split.
  - intros [= <- <-]. now repeat split.
Qed.

Lemma save_belongs_to_TmdbItem_frame tbl b tbl' b' :
  save_belongs_to_TmdbItem tbl b = (tbl', b') ->
  frame b' = frame b
  /\ Bangumi.EpisodeMetadata b' = Bangumi.EpisodeMetadata b
  /\ Bangumi.MikanItem b' = Bangumi.MikanItem b
  /\ Bangumi.MikanID b' = Bangumi.MikanID b.
Proof.
  unfold save_belongs_to_TmdbItem. destruct (Bangumi.TmdbItem b).
  - destruct (create_TmdbItem tbl t). intros [= <- <-]. now repeat split.
  - intros [= <- <-]. now repeat split.
Qed.

Lemma merge_into_frame (oldBangumi bangumi : Bangumi.t) :
  frame (merge_into oldBangumi bangumi) = frame oldBangumi.
Proof.
  unfold merge_into.
  destruct (is_none (Bangumi.MikanID oldBangumi) && is_some (Bangumi.MikanItem bangumi));
    simpl;
    destruct (is_none (Bangumi.TmdbID oldBangumi) && is_some (Bangumi.TmdbItem bangumi));
    reflexivity.
Qed.

Lemma In_existsb_ID (tbl : list Bangumi.t) (r : Bangumi.t) (i : Z) :
  In r tbl -> Bangumi.ID r = i ->
  existsb (fun x => Bangumi.ID x =? i) tbl = true.
Proof.
  intros Hin <-. apply existsb_exists. exists r. split; [exact Hin | apply Z.eqb_refl].
Qed.

(** In the merge path the row of the entity is rewritten in place, with the
    frame of the value written. *)
Lemma save_row_Bangumi_update tbl b r :
  In r tbl -> Bangumi.ID r = Bangumi.ID b -> Bangumi.ID b <> 0 ->
  save_row_Bangumi tbl b
  = (map (fun x => if Bangumi.ID x =? Bangumi.ID b then Bangumi.columns b else x) tbl,
     b).
Proof.
  intros Hin Hid Hnz. unfold save_row_Bangumi.
  destruct (Bangumi.ID b =? 0) eqn:E; [apply Z.eqb_eq in E; contradiction|].
  now rewrite (In_existsb_ID tbl r _ Hin Hid).
Qed.

(** C10. When the query of CreateBangumi finds a stored entity, the table of
    entities afterwards is the one before with that entity's row replaced by
    a row of the same internal ID, display title, year, season, RSS link,
    collected flag, offset, include and exclude filters, parser choice,
    poster link and soft-delete flag; no value of the candidate for these
    fields is written, and no other row changes. *)
Theorem CreateBangumi_merge_frame :
  forall (fx : Faults) (db db' : DB) (bangumi r : Bangumi.t) (ret : option error),
    NoDup (map Bangumi.ID (tbl_bangumi db)) ->
    fault_first_bangumi fx = None ->
    First Bangumi.ID
      (mikan_or_tmdb (extract_mikanID bangumi) (extract_tmdbID bangumi))
      (tbl_bangumi db) = Some r ->
    Bangumi.ID r <> 0 ->
    CreateBangumi fx db bangumi = (db', ret) ->
    exists r',
      frame r' = frame r
      /\ In r' (tbl_bangumi db')
      /\ tbl_bangumi db'
         = map (fun x => if Bangumi.ID x =? Bangumi.ID r then r' else x)
               (tbl_bangumi db).
Proof.
  intros fx db db' bangumi r ret Hnd Hfx Hq Hnz.
  destruct (First_Some _ _ _ _ Hq) as [Hin _].
  assert (Hsame : exists r', frame r' = frame r /\ In r' (tbl_bangumi db)
            /\ tbl_bangumi db
               = map (fun x => if Bangumi.ID x =? Bangumi.ID r then r' else x)
                     (tbl_bangumi db)).
  { exists r. split; [reflexivity|]. split; [exact Hin|].
    symmetry. now apply replace_row_same. }
  unfold CreateBangumi, First_Bangumi. rewrite Hfx, Hq.
  unfold CreateBangumi_after_query.
  replace (Bangumi.ID (Preload db r)) with (Bangumi.ID r) by reflexivity.
  destruct (Bangumi.ID r =? 0) eqn:E; [apply Z.eqb_eq in E; contradiction|].
  simpl negb. cbv iota.
  unfold Save_Bangumi.
  destruct (fault_save_bangumi fx); [intros [= <- <-]; exact Hsame|].
  destruct (save_belongs_to_MikanItem _ _) as [mikan b1] eqn:E1.
  destruct (save_belongs_to_TmdbItem _ _) as [tmdb b2] eqn:E2.
  apply save_belongs_to_MikanItem_frame in E1. destruct E1 as [F1 _].
  apply save_belongs_to_TmdbItem_frame in E2. destruct E2 as [F2 _].
  assert (F : frame b2 = frame r).
  { rewrite F2, F1, merge_into_frame. reflexivity. }
  assert (Hid : Bangumi.ID r = Bangumi.ID b2).
  { unfold frame in F. now inversion F. }
  rewrite (save_row_Bangumi_update _ b2 r Hin Hid) by congruence.
  destruct (unique_index_ok _); intros [= <- <-]; [|exact Hsame].
  exists (Bangumi.columns b2). simpl tbl_bangumi. rewrite <- Hid.
  split; [exact F|]. split; [|reflexivity].
  apply in_map_iff. exists r. split; [|exact Hin].
  now rewrite Z.eqb_refl.
Qed.

(** ** Lists without two rows of the same key *)

Lemma pairwise_distinct_app {A : Type} (same : A -> A -> bool) (a b : list A) :
  pairwise_distinct same (a ++ b) = true <->
  pairwise_distinct same a = true /\ pairwise_distinct same b = true
  /\ (forall x y, In x a -> In y b -> same x y = false).
Proof.
  induction a as [|x a IH]; simpl.
  - split; [intros H; repeat split; auto; intros ? ? [] | tauto].
  - rewrite !andb_true_iff, !negb_true_iff, existsb_app, orb_false_iff, IH.
    split.
    + intros [[Ha Hb] [Hpa [Hpb Hab]]]. repeat split; auto.
      intros x' y [<-|Hx] Hy; [|now apply Hab].
      destruct (same x y) eqn:E; [|reflexivity].
      assert (existsb (same x) b = true) by (apply existsb_exists; eauto).
      congruence.
    + intros [[Ha Hpa] [Hpb Hab]]. repeat split; auto.
      destruct (existsb (same x) b) eqn:E; [|reflexivity].
      apply existsb_exists in E. destruct E as [y [Hy E]].
      rewrite (Hab x y (or_introl eq_refl) Hy) in E; discriminate.
Qed.

Lemma pairwise_distinct_Forall2 {A B : Type} (sa : A -> A -> bool)
  (sb : B -> B -> bool) (R : A -> B -> Prop) :
  (forall a a' b b', R a b -> R a' b' -> sb b b' = sa a a') ->
  forall la lb, Forall2 R la lb ->
                pairwise_distinct sb lb = pairwise_distinct sa la.
Proof.
  intros HR la lb H. induction H as [|a b la lb Hab Hl IH]; simpl; [reflexivity|].
  rewrite IH. f_equal. f_equal.
  clear IH. induction Hl as [|a' b' la lb Hab' Hl IH']; simpl; [reflexivity|].
  now rewrite IH', (HR a a' b b').
Qed.

Lemma existsb_false_forall {A : Type} (f : A -> bool) (l : list A) :
  existsb f l = false <-> (forall x, In x l -> f x = false).
Proof.
  induction l as [|a l IH]; simpl.
  - split; [intros _ x [] | reflexivity].
  - rewrite orb_false_iff, IH. split.
    + intros [Ha Hl] x [<-|Hx]; auto.
    + intros H; split; [apply H; now left | intros x Hx; apply H; now right].
Qed.

(** ** AUTOINCREMENT *)

Lemma next_id_above (ids : list Z) :
  0 < next_id ids /\ forall i, In i ids -> i < next_id ids.
Proof.
  unfold next_id. induction ids as [|a ids [IH0 IH]]; simpl.
  - split; [lia | intros i []].
  - split; [lia|]. intros i [<-|Hi]; [lia|]. specialize (IH i Hi). lia.
Qed.

Lemma next_id_fresh (ids : list Z) : ~ In (next_id ids) ids.
Proof.
  intros H. apply (proj2 (next_id_above ids)) in H. lia.
Qed.

(** ** Writing has-many records *)

Lemma persist_fields (i : Z) (m : EpisodeMetadata.t) :
  EpisodeMetadata.Season m <> 0 ->
  EpisodeMetadata.ID (persist i m) = i
  /\ EpisodeMetadata.Title (persist i m) = EpisodeMetadata.Title m
  /\ EpisodeMetadata.Season (persist i m) = EpisodeMetadata.Season m
  /\ EpisodeMetadata.SubType (persist i m) = EpisodeMetadata.SubType m
  /\ EpisodeMetadata.Group (persist i m) = EpisodeMetadata.Group m
  /\ EpisodeMetadata.Resolution (persist i m) = EpisodeMetadata.Resolution m
  /\ EpisodeMetadata.BangumiID (persist i m) = EpisodeMetadata.BangumiID m.
Proof.
  intros Hs. unfold persist, create_defaults_EpisodeMetadata.
  destruct (EpisodeMetadata.Season m =? 0) eqn:E; [apply Z.eqb_eq in E; contradiction|].
  now repeat split.
Qed.

Lemma persist_ID (i : Z) (m : EpisodeMetadata.t) :
  EpisodeMetadata.ID (persist i m) = i.
Proof.
  unfold persist, create_defaults_EpisodeMetadata.
  now destruct (EpisodeMetadata.Season m =? 0).
Qed.

Lemma persist_BangumiID (i : Z) (m : EpisodeMetadata.t) :
  EpisodeMetadata.BangumiID (persist i m) = EpisodeMetadata.BangumiID m.
Proof.
  unfold persist, create_defaults_EpisodeMetadata.
  now destruct (EpisodeMetadata.Season m =? 0).
Qed.

(** Records that were never stored are appended under fresh keys. *)
Lemma save_has_many_fresh (ms : list EpisodeMetadata.t) :
  forall tbl,
    Forall (fun m => EpisodeMetadata.ID m = 0) ms ->
    exists news,
      fold_left save_has_many_EpisodeMetadata ms tbl = tbl ++ news
      /\ Forall2 (fun m n => exists i, n = persist i m) ms news
      /\ (NoDup (map EpisodeMetadata.ID tbl) ->
          NoDup (map EpisodeMetadata.ID (tbl ++ news)))
      /\ (forall n, In n news -> EpisodeMetadata.ID n <> 0).
Proof.
  induction ms as [|m ms IH]; intros tbl Hz; simpl.
  - exists []. rewrite app_nil_r. repeat split; auto.
  - inversion Hz as [|? ? Hm Hms]; subst.
    unfold save_has_many_EpisodeMetadata at 2. rewrite Hm. simpl Z.eqb. cbv iota.
    fold (persist (next_id (map EpisodeMetadata.ID tbl)) m).
    set (n0 := persist (next_id (map EpisodeMetadata.ID tbl)) m).
    destruct (IH (tbl ++ [n0]) Hms) as [news [Hfold [Hrel [Hnd Hnz]]]].
    exists (n0 :: news). rewrite Hfold, <- app_assoc. simpl.
    repeat split.
    + constructor; [now exists (next_id (map EpisodeMetadata.ID tbl)) | exact Hrel].
    + intros Ht. replace (tbl ++ n0 :: news) with ((tbl ++ [n0]) ++ news)
        by now rewrite <- app_assoc.
      apply Hnd. rewrite map_app. simpl.
      apply NoDup_app; [exact Ht | repeat constructor; intros [] |].
      intros a Ha [<-|[]]. revert Ha. unfold n0. rewrite ?persist_ID.
      apply next_id_fresh.
    + intros n [<-|Hn]; [|now apply Hnz].
      unfold n0. rewrite persist_ID.
      pose proof (proj1 (next_id_above (map EpisodeMetadata.ID tbl))). lia.
Qed.

Lemma with_BangumiID_same (b : Z) (m : EpisodeMetadata.t) :
  EpisodeMetadata.BangumiID m = b -> EpisodeMetadata.with_BangumiID b m = m.
Proof. destruct m; simpl; intros <-; reflexivity. Qed.

(** A record that is stored with this owner is left as it is. *)
Lemma save_has_many_stored (tbl : list EpisodeMetadata.t) (m : EpisodeMetadata.t) :
  NoDup (map EpisodeMetadata.ID tbl) -> In m tbl -> EpisodeMetadata.ID m <> 0 ->
  save_has_many_EpisodeMetadata tbl m = tbl.
Proof.
  intros Hnd Hin Hnz. unfold save_has_many_EpisodeMetadata.
  destruct (EpisodeMetadata.ID m =? 0) eqn:E; [apply Z.eqb_eq in E; contradiction|].
  assert (Hex : existsb (fun r => EpisodeMetadata.ID r =? EpisodeMetadata.ID m) tbl = true).
  { apply existsb_exists. exists m. split; [exact Hin | apply Z.eqb_refl]. }
  rewrite Hex. rewrite <- (map_id tbl) at 2. apply map_ext_in.
  intros x Hx. destruct (EpisodeMetadata.ID x =? EpisodeMetadata.ID m) eqn:Ex; [|reflexivity].
  apply Z.eqb_eq in Ex.
  rewrite (NoDup_map_eq _ _ _ _ Hnd Hx Hin Ex).
  now apply with_BangumiID_same.
Qed.

Lemma save_has_many_stored_all (ms tbl : list EpisodeMetadata.t) :
  NoDup (map EpisodeMetadata.ID tbl) ->
  (forall m, In m ms -> In m tbl /\ EpisodeMetadata.ID m <> 0) ->
  fold_left save_has_many_EpisodeMetadata ms tbl = tbl.
Proof.
  intros Hnd. induction ms as [|m ms IH]; simpl; [reflexivity|].
  intros H. destruct (H m (or_introl eq_refl)) as [Hin Hnz].
  rewrite (save_has_many_stored tbl m Hnd Hin Hnz).
  apply IH. intros m' Hm'. apply H. now right.
Qed.

(** ** The dedup key *)

Lemma same_dedup_key_agree (a b : EpisodeMetadata.t) :
  same_dedup_key a b = true <-> agree_on_key a b.
Proof.
  unfold same_dedup_key, agree_on_key.
  rewrite !andb_true_iff, !String.eqb_eq, Z.eqb_eq. tauto.
Qed.

Lemma same_dedup_key_sym (a b : EpisodeMetadata.t) :
  same_dedup_key a b = same_dedup_key b a.
Proof.
  unfold same_dedup_key.
  now rewrite (String.eqb_sym (EpisodeMetadata.Title a)),
    (Z.eqb_sym (EpisodeMetadata.Season a)),
    (String.eqb_sym (EpisodeMetadata.Group a)),
    (String.eqb_sym (EpisodeMetadata.Resolution a)),
    (String.eqb_sym (EpisodeMetadata.SubType a)).
Qed.

Lemma same_dedup_key_with_BangumiID_r (i : Z) (a b : EpisodeMetadata.t) :
  same_dedup_key a (EpisodeMetadata.with_BangumiID i b) = same_dedup_key a b.
Proof. reflexivity. Qed.

Lemma same_dedup_key_with_BangumiID_l (i : Z) (a b : EpisodeMetadata.t) :
  same_dedup_key (EpisodeMetadata.with_BangumiID i a) b = same_dedup_key a b.
Proof. reflexivity. Qed.

Lemma same_unique_key_split (a b : EpisodeMetadata.t) :
  same_unique_key a b
  = same_dedup_key a b
    && (EpisodeMetadata.BangumiID a =? EpisodeMetadata.BangumiID b).
Proof.
  unfold same_unique_key, same_dedup_key.
  destruct (String.eqb (EpisodeMetadata.Title a) (EpisodeMetadata.Title b)),
    (EpisodeMetadata.Season a =? EpisodeMetadata.Season b),
    (String.eqb (EpisodeMetadata.SubType a) (EpisodeMetadata.SubType b)),
    (String.eqb (EpisodeMetadata.Group a) (EpisodeMetadata.Group b)),
    (String.eqb (EpisodeMetadata.Resolution a) (EpisodeMetadata.Resolution b));
    reflexivity.
Qed.

(** ** The loop over the candidate's episode metadata *)

Lemma merge_EpisodeMetadata_snoc oldID attached news newMeta :
  merge_EpisodeMetadata oldID attached (news ++ [newMeta])
  = merge_one oldID (merge_EpisodeMetadata oldID attached news) newMeta.
Proof. unfold merge_EpisodeMetadata. now rewrite fold_left_app. Qed.

Lemma merge_EpisodeMetadata_cons oldID attached news newMeta :
  merge_EpisodeMetadata oldID attached (newMeta :: news)
  = merge_EpisodeMetadata oldID (merge_one oldID attached newMeta) news.
Proof. reflexivity. Qed.

(** Nothing attached is ever removed, and what is appended are candidates
    stamped with the entity's key, in the candidate's order. *)
Lemma merge_EpisodeMetadata_appends oldID news :
  forall attached,
    exists appended,
      merge_EpisodeMetadata oldID attached news
      = attached ++ map (EpisodeMetadata.with_BangumiID oldID) appended
      /\ (forall a, In a appended -> In a news).
Proof.
  induction news as [|n news IH]; intros attached.
  - exists []. simpl. now rewrite app_nil_r.
  - rewrite merge_EpisodeMetadata_cons. unfold merge_one.
    destruct (existsb _ attached).
    + destruct (IH attached) as [appended [H1 H2]].
      exists appended. split; [exact H1 | intros a Ha; right; auto].
    + destruct (IH (attached ++ [EpisodeMetadata.with_BangumiID oldID n]))
        as [appended [H1 H2]].
      exists (n :: appended). rewrite H1, <- app_assoc. simpl.
      split; [reflexivity | intros a [<-|Ha]; [now left | right; auto]].
Qed.

Lemma merge_one_distinct oldID attached newMeta :
  pairwise_distinct same_dedup_key attached = true ->
  pairwise_distinct same_dedup_key (merge_one oldID attached newMeta) = true.
Proof.
  intros Hpd. unfold merge_one.
  destruct (existsb _ attached) eqn:E; [exact Hpd|].
  apply pairwise_distinct_app. repeat split; auto.
  intros x y Hx [<-|[]]. rewrite same_dedup_key_with_BangumiID_r.
  exact (proj1 (existsb_false_forall _ _) E x Hx).
Qed.

Lemma merge_EpisodeMetadata_distinct oldID news :
  forall attached,
    pairwise_distinct same_dedup_key attached = true ->
    pairwise_distinct same_dedup_key (merge_EpisodeMetadata oldID attached news)
    = true.
Proof.
  induction news as [|n news IH]; intros attached Hpd; [exact Hpd|].
  rewrite merge_EpisodeMetadata_cons. apply IH. now apply merge_one_distinct.
Qed.

Lemma merge_one_keeps oldID attached newMeta e :
  In e attached -> In e (merge_one oldID attached newMeta).
Proof.
  intros H. unfold merge_one. destruct (existsb _ attached); [exact H|].
  apply in_or_app; now left.
Qed.

Lemma merge_EpisodeMetadata_keeps oldID news :
  forall attached e,
    In e attached -> In e (merge_EpisodeMetadata oldID attached news).
Proof.
  induction news as [|n news IH]; intros attached e H; [exact H|].
  rewrite merge_EpisodeMetadata_cons. apply IH. now apply merge_one_keeps.
Qed.

(** Every candidate has an attached entry of its key after the loop. *)
Lemma merge_EpisodeMetadata_covers oldID news :
  forall attached n,
    In n news ->
    exists e, In e (merge_EpisodeMetadata oldID attached news) /\ agree_on_key e n.
Proof.
  induction news as [|n0 news IH]; intros attached n; [intros []|].
  intros [<-|Hn].
  - rewrite merge_EpisodeMetadata_cons.
    assert (H : exists e, In e (merge_one oldID attached n0) /\ agree_on_key e n0).
    { unfold merge_one. destruct (existsb _ attached) eqn:E.
      - apply existsb_exists in E. destruct E as [e [He Hk]].
        exists e. split; [exact He | now apply same_dedup_key_agree].
      - exists (EpisodeMetadata.with_BangumiID oldID n0).
        split; [apply in_or_app; right; now left | now repeat split]. }
    destruct H as [e [He Hk]]. exists e. split; [|exact Hk].
    now apply merge_EpisodeMetadata_keeps.
  - rewrite merge_EpisodeMetadata_cons. now apply IH.
Qed.

Lemma pairwise_distinct_filter {A : Type} (same : A -> A -> bool) (f : A -> bool)
  (l : list A) :
  pairwise_distinct same l = true -> pairwise_distinct same (filter f l) = true.
Proof.
  induction l as [|x l IH]; simpl; [reflexivity|].
  rewrite andb_true_iff, negb_true_iff. intros [Hx Hl].
  destruct (f x); simpl; [|now apply IH].
  rewrite IH by exact Hl. rewrite andb_true_r, negb_true_iff.
  apply existsb_false_forall. intros y Hy. apply filter_In in Hy.
  exact (proj1 (existsb_false_forall _ _) Hx y (proj1 Hy)).
Qed.

Lemma existsb_agree_in {A : Type} (f g : A -> bool) (l : list A) :
  (forall x, In x l -> f x = g x) -> existsb f l = existsb g l.
Proof.
  induction l as [|a l IH]; simpl; [reflexivity|]. intros H.
  rewrite (H a (or_introl eq_refl)), IH; [reflexivity|].
  intros x Hx; apply H; now right.
Qed.

Lemma pairwise_distinct_ext_in {A : Type} (s1 s2 : A -> A -> bool) (l : list A) :
  (forall x y, In x l -> In y l -> s1 x y = s2 x y) ->
  pairwise_distinct s1 l = pairwise_distinct s2 l.
Proof.
  induction l as [|x l IH]; simpl; [reflexivity|]. intros H.
  rewrite IH by (intros a b Ha Hb; apply H; now right).
  f_equal. f_equal. apply existsb_agree_in.
  intros y Hy. apply H; [now left | now right].
Qed.

Lemma Forall2_In_r {A B : Type} (R : A -> B -> Prop) (la : list A) (lb : list B) (b : B) :
  Forall2 R la lb -> In b lb -> exists a, In a la /\ R a b.
Proof.
  induction 1 as [|a b0 la lb Hab Hl IH]; simpl; [intros []|].
  intros [<-|Hb]; [exists a; auto|].
  destruct (IH Hb) as [a' [Ha' HR]]. exists a'; auto.
Qed.

Lemma Forall2_with_Forall {A B : Type} (R : A -> B -> Prop) (P : A -> Prop)
  (la : list A) (lb : list B) :
  Forall2 R la lb -> Forall P la -> Forall2 (fun a b => P a /\ R a b) la lb.
Proof.
  induction 1 as [|a b la lb Hab Hl IH]; intros HP; [constructor|].
  inversion HP; subst. constructor; auto.
Qed.

Lemma same_unique_key_persist i i' m m' :
  EpisodeMetadata.Season m <> 0 -> EpisodeMetadata.Season m' <> 0 ->
  same_unique_key (persist i m) (persist i' m') = same_unique_key m m'.
Proof.
  intros Hm Hm'. unfold same_unique_key.
  destruct (persist_fields i m Hm) as [_ [-> [-> [-> [-> [-> ->]]]]]].
  destruct (persist_fields i' m' Hm') as [_ [-> [-> [-> [-> [-> ->]]]]]].
  reflexivity.
Qed.

Lemma same_unique_key_persist_r i x m :
  EpisodeMetadata.Season m <> 0 ->
  same_unique_key x (persist i m) = same_unique_key x m.
Proof.
  intros Hm. unfold same_unique_key.
  destruct (persist_fields i m Hm) as [_ [-> [-> [-> [-> [-> ->]]]]]].
  reflexivity.
Qed.

Lemma Forall2_map_left {A A' B : Type} (f : A -> A') (R : A' -> B -> Prop)
  (la : list A) (lb : list B) :
  Forall2 R (map f la) lb -> Forall2 (fun a b => R (f a) b) la lb.
Proof.
  revert lb; induction la as [|a la IH]; intros lb H; inversion H; subst;
    constructor; auto.
Qed.

(** The has-many write of the merge path: the rows of the entity stay, one
    row is appended for each entry the loop appended, and the unique index
    is respected. *)
Lemma has_many_merge (tbl news : list EpisodeMetadata.t) (rid : Z) :
  NoDup (map EpisodeMetadata.ID tbl) ->
  (forall m, In m tbl -> EpisodeMetadata.ID m <> 0) ->
  unique_index_ok tbl = true ->
  Forall fresh_meta news ->
  let preloaded := filter (fun m => EpisodeMetadata.BangumiID m =? rid) tbl in
  exists appended srows,
    merge_EpisodeMetadata rid preloaded news
    = preloaded ++ map (EpisodeMetadata.with_BangumiID rid) appended
    /\ (forall a, In a appended -> In a news)
    /\ fold_left save_has_many_EpisodeMetadata
         (map (EpisodeMetadata.with_BangumiID rid)
              (merge_EpisodeMetadata rid preloaded news)) tbl
       = tbl ++ srows
    /\ Forall2 (fun a n => exists i,
                    n = persist i (EpisodeMetadata.with_BangumiID rid a))
               appended srows
    /\ unique_index_ok (tbl ++ srows) = true
    /\ NoDup (map EpisodeMetadata.ID (tbl ++ srows))
    /\ (forall n, In n srows -> EpisodeMetadata.ID n <> 0).
Proof.
  intros Hnd Hnz Huniq Hfresh preloaded.
  destruct (merge_EpisodeMetadata_appends rid news preloaded)
    as [appended [Hmerge Hsub]].
  set (stamped := map (EpisodeMetadata.with_BangumiID rid) appended) in *.
  assert (Hpre : forall m, In m preloaded ->
            In m tbl /\ EpisodeMetadata.BangumiID m = rid).
  { intros m Hm. apply filter_In in Hm. destruct Hm as [Hin Hb].
    apply Z.eqb_eq in Hb. auto. }
  assert (Hstamp : forall m, In m stamped ->
            EpisodeMetadata.ID m = 0 /\ EpisodeMetadata.Season m <> 0
            /\ EpisodeMetadata.BangumiID m = rid).
  { intros m Hm. apply in_map_iff in Hm. destruct Hm as [a [<- Ha]].
    pose proof (proj1 (Forall_forall _ _) Hfresh a (Hsub a Ha)) as [Hi Hs].
    now repeat split. }
  assert (Hmap : map (EpisodeMetadata.with_BangumiID rid) (preloaded ++ stamped)
                 = preloaded ++ stamped).
  { rewrite <- (map_id (preloaded ++ stamped)) at 2. apply map_ext_in.
    intros m Hm. apply with_BangumiID_same. apply in_app_or in Hm.
    destruct Hm as [Hm|Hm]; [apply (Hpre m Hm) | apply (Hstamp m Hm)]. }
  assert (Hz : Forall (fun m => EpisodeMetadata.ID m = 0) stamped).
  { apply Forall_forall. intros m Hm. apply (Hstamp m Hm). }
  destruct (save_has_many_fresh stamped tbl Hz) as [srows [Hfold [Hrel [Hndk Hnzk]]]].
  exists appended, srows.
  assert (Hdist : pairwise_distinct same_dedup_key (preloaded ++ stamped) = true).
  { rewrite <- Hmerge. apply merge_EpisodeMetadata_distinct.
    rewrite (pairwise_distinct_ext_in same_dedup_key same_unique_key).
    - apply pairwise_distinct_filter. exact Huniq.
    - intros x y Hx Hy. rewrite same_unique_key_split.
      rewrite (proj2 (Hpre x Hx)), (proj2 (Hpre y Hy)), Z.eqb_refl.
      now rewrite andb_true_r. }
  apply pairwise_distinct_app in Hdist. destruct Hdist as [_ [Hds Hcross]].
  assert (Hrel' : Forall2 (fun m n => (EpisodeMetadata.Season m <> 0
                              /\ EpisodeMetadata.BangumiID m = rid)
                             /\ exists i, n = persist i m) stamped srows).
  { apply Forall2_with_Forall; [exact Hrel|].
    apply Forall_forall. intros m Hm. split; apply (Hstamp m Hm). }
  repeat split.
  - exact Hmerge.
  - exact Hsub.
  - rewrite Hmerge, Hmap, fold_left_app.
    rewrite (save_has_many_stored_all preloaded tbl Hnd); [exact Hfold|].
    intros m Hm. split; [apply (Hpre m Hm) | apply Hnz; apply (Hpre m Hm)].
  - exact (Forall2_map_left (EpisodeMetadata.with_BangumiID rid)
             (fun m n => exists i, n = persist i m) appended srows Hrel).
  - unfold unique_index_ok. apply pairwise_distinct_app.
    split; [exact Huniq|]. split.
    + rewrite <- Hds.
      apply (pairwise_distinct_Forall2 same_dedup_key same_unique_key _)
        with (2 := Hrel').
      intros a a' b b' [[Hs Hb] [i ->]] [[Hs' Hb'] [i' ->]].
      rewrite same_unique_key_persist by assumption.
      rewrite same_unique_key_split, Hb, Hb', Z.eqb_refl. apply andb_true_r.
    + intros x n Hx Hn.
      destruct (Forall2_In_r _ _ _ _ Hrel' Hn) as [m [Hm [[Hs Hb] [i ->]]]].
      rewrite same_unique_key_persist_r by assumption.
      rewrite same_unique_key_split, Hb.
      destruct (EpisodeMetadata.BangumiID x =? rid) eqn:E;
        [|now rewrite andb_false_r].
      rewrite andb_true_r. apply Hcross; [|exact Hm].
      apply filter_In. split; [exact Hx | exact E].
  - apply Hndk. exact Hnd.
  - exact Hnzk.
Qed.

(** ** Writing belongs-to records *)

Lemma create_MikanItem_ID tbl it tbl' it' :
  create_MikanItem tbl it = (tbl', it') ->
  MikanItem.ID it'
  = if MikanItem.ID it =? 0 then next_id (map MikanItem.ID tbl) else MikanItem.ID it.
Proof.
  unfold create_MikanItem.
  replace (MikanItem.ID (if MikanItem.Season it =? 0
                         then MikanItem.with_Season 1 it else it))
    with (MikanItem.ID it) by now destruct (MikanItem.Season it =? 0).
  destruct (MikanItem.ID it =? 0); [intros [= <- <-]; reflexivity|].
  destruct (existsb _ tbl); intros [= <- <-];
    now destruct (MikanItem.Season it =? 0).
Qed.

Lemma create_TmdbItem_ID tbl it tbl' it' :
  create_TmdbItem tbl it = (tbl', it') ->
  TmdbItem.ID it'
  = if TmdbItem.ID it =? 0 then next_id (map TmdbItem.ID tbl) else TmdbItem.ID it.
Proof.
  unfold create_TmdbItem.
  replace (TmdbItem.ID (if TmdbItem.Season it =? 0
                        then TmdbItem.with_Season 1 it else it))
    with (TmdbItem.ID it) by now destruct (TmdbItem.Season it =? 0).
  destruct (TmdbItem.ID it =? 0); [intros [= <- <-]; reflexivity|].
  destruct (existsb _ tbl); intros [= <- <-];
    now destruct (TmdbItem.Season it =? 0).
Qed.

Lemma save_belongs_to_MikanItem_link tbl b tbl' b' :
  save_belongs_to_MikanItem tbl b = (tbl', b') ->
  Bangumi.MikanID b'
  = written_key (Bangumi.MikanID b)
      (option_map MikanItem.ID (Bangumi.MikanItem b))
      (next_id (map MikanItem.ID tbl)).
Proof.
  unfold save_belongs_to_MikanItem. destruct (Bangumi.MikanItem b) as [it|].
  - destruct (create_MikanItem tbl it) as [t it'] eqn:E. intros [= <- <-].
    simpl. now rewrite (create_MikanItem_ID _ _ _ _ E).
  - now intros [= <- <-].
Qed.

Lemma save_belongs_to_TmdbItem_link tbl b tbl' b' :
  save_belongs_to_TmdbItem tbl b = (tbl', b') ->
  Bangumi.TmdbID b'
  = written_key (Bangumi.TmdbID b)
      (option_map TmdbItem.ID (Bangumi.TmdbItem b))
      (next_id (map TmdbItem.ID tbl)).
Proof.
  unfold save_belongs_to_TmdbItem. destruct (Bangumi.TmdbItem b) as [it|].
  - destruct (create_TmdbItem tbl it) as [t it'] eqn:E. intros [= <- <-].
    simpl. now rewrite (create_TmdbItem_ID _ _ _ _ E).
  - now intros [= <- <-].
Qed.

(** What Save is handed on the two paths, after the belongs-to writes. *)
Lemma save_belongs_to_both tblm tblt b mikan b1 tmdb b2 :
  save_belongs_to_MikanItem tblm b = (mikan, b1) ->
  save_belongs_to_TmdbItem tblt b1 = (tmdb, b2) ->
  frame b2 = frame b
  /\ Bangumi.EpisodeMetadata b2 = Bangumi.EpisodeMetadata b
  /\ Bangumi.MikanID b2
     = written_key (Bangumi.MikanID b)
         (option_map MikanItem.ID (Bangumi.MikanItem b))
         (next_id (map MikanItem.ID tblm))
  /\ Bangumi.TmdbID b2
     = written_key (Bangumi.TmdbID b)
         (option_map TmdbItem.ID (Bangumi.TmdbItem b))
         (next_id (map TmdbItem.ID tblt)).
Proof.
  intros E1 E2.
  pose proof (save_belongs_to_MikanItem_link _ _ _ _ E1) as L1.
  pose proof (save_belongs_to_TmdbItem_link _ _ _ _ E2) as L2.
  apply save_belongs_to_MikanItem_frame in E1. destruct E1 as [F1 [M1 [T1 I1]]].
  apply save_belongs_to_TmdbItem_frame in E2. destruct E2 as [F2 [M2 [T2 I2]]].
  repeat split; try congruence.
Qed.

Lemma map_ID_replace (tbl : list Bangumi.t) (i : Z) (row : Bangumi.t) :
  Bangumi.ID row = i ->
  map Bangumi.ID (map (fun x => if Bangumi.ID x =? i then row else x) tbl)
  = map Bangumi.ID tbl.
Proof.
  intros Hrow. rewrite map_map. apply map_ext. intros x.
  destruct (Bangumi.ID x =? i) eqn:E; [|reflexivity].
  apply Z.eqb_eq in E. congruence.
Qed.

Lemma merge_into_EpisodeMetadata (oldBangumi bangumi : Bangumi.t) :
  Bangumi.EpisodeMetadata (merge_into oldBangumi bangumi)
  = merge_EpisodeMetadata (Bangumi.ID oldBangumi)
      (Bangumi.EpisodeMetadata oldBangumi) (Bangumi.EpisodeMetadata bangumi).
Proof.
  unfold merge_into.
  destruct (is_none (Bangumi.MikanID oldBangumi) && is_some (Bangumi.MikanItem bangumi));
    simpl;
    destruct (is_none (Bangumi.TmdbID oldBangumi) && is_some (Bangumi.TmdbItem bangumi));
    reflexivity.
Qed.

Lemma merge_into_links (oldBangumi bangumi : Bangumi.t) :
  Bangumi.MikanID (merge_into oldBangumi bangumi) = Bangumi.MikanID oldBangumi
  /\ Bangumi.TmdbID (merge_into oldBangumi bangumi) = Bangumi.TmdbID oldBangumi
  /\ Bangumi.MikanItem (merge_into oldBangumi bangumi)
     = (if is_none (Bangumi.MikanID oldBangumi) && is_some (Bangumi.MikanItem bangumi)
        then Bangumi.MikanItem bangumi else Bangumi.MikanItem oldBangumi)
  /\ Bangumi.TmdbItem (merge_into oldBangumi bangumi)
     = (if is_none (Bangumi.TmdbID oldBangumi) && is_some (Bangumi.TmdbItem bangumi)
        then Bangumi.TmdbItem bangumi else Bangumi.TmdbItem oldBangumi).
Proof.
  unfold merge_into.
  destruct (is_none (Bangumi.MikanID oldBangumi) && is_some (Bangumi.MikanItem bangumi));
    simpl;
    destruct (is_none (Bangumi.TmdbID oldBangumi) && is_some (Bangumi.TmdbItem bangumi));
    now repeat split.
Qed.

(** ** The write of the merge path *)

Lemma Save_merge_path (fx : Faults) (db : DB) (r cand : Bangumi.t) :
  wf_db db -> fault_save_bangumi fx = None -> In r (tbl_bangumi db) ->
  Forall fresh_meta (Bangumi.EpisodeMetadata cand) ->
  let merged := merge_into (Preload db r) cand in
  let preloaded :=
    filter (fun m => EpisodeMetadata.BangumiID m =? Bangumi.ID r) (tbl_meta db) in
  exists row mikan tmdb appended srows,
    Save_Bangumi fx db merged
    = (mkDB (map (fun x => if Bangumi.ID x =? Bangumi.ID r then row else x)
                 (tbl_bangumi db))
            mikan tmdb (tbl_meta db ++ srows) (tbl_torrent db), None)
    /\ frame row = frame r
    /\ Bangumi.MikanID row
       = written_key (Bangumi.MikanID r)
           (option_map MikanItem.ID (Bangumi.MikanItem merged))
           (next_id (map MikanItem.ID (tbl_mikan db)))
    /\ Bangumi.TmdbID row
       = written_key (Bangumi.TmdbID r)
           (option_map TmdbItem.ID (Bangumi.TmdbItem merged))
           (next_id (map TmdbItem.ID (tbl_tmdb db)))
    /\ merge_EpisodeMetadata (Bangumi.ID r) preloaded (Bangumi.EpisodeMetadata cand)
       = preloaded ++ map (EpisodeMetadata.with_BangumiID (Bangumi.ID r)) appended
    /\ (forall a, In a appended -> In a (Bangumi.EpisodeMetadata cand))
    /\ Forall2 (fun a n => exists i,
                    n = persist i (EpisodeMetadata.with_BangumiID (Bangumi.ID r) a))
               appended srows
    /\ wf_db (mkDB (map (fun x => if Bangumi.ID x =? Bangumi.ID r then row else x)
                        (tbl_bangumi db))
                   mikan tmdb (tbl_meta db ++ srows) (tbl_torrent db)).
Proof.
  intros Hwf Hfx Hin Hfresh merged preloaded.
  destruct Hwf as [Hbk Hbnz Hmk Hmnz Hmu Hmo].
  unfold Save_Bangumi. rewrite Hfx.
  destruct (save_belongs_to_MikanItem (tbl_mikan db) merged) as [mikan b1] eqn:E1.
  destruct (save_belongs_to_TmdbItem (tbl_tmdb db) b1) as [tmdb b2] eqn:E2.
  destruct (save_belongs_to_both _ _ _ _ _ _ _ E1 E2) as [F [EM [LM LT]]].
  assert (Fr : frame b2 = frame r).
  { rewrite F. unfold merged. now rewrite merge_into_frame. }
  assert (Hid : Bangumi.ID b2 = Bangumi.ID r).
  { unfold frame in Fr. now inversion Fr. }
  rewrite (save_row_Bangumi_update _ b2 r Hin (eq_sym Hid))
    by (rewrite Hid; now apply Hbnz).
  rewrite EM. unfold merged. rewrite merge_into_EpisodeMetadata.
  replace (Bangumi.ID (Preload db r)) with (Bangumi.ID r) by reflexivity.
  replace (Bangumi.EpisodeMetadata (Preload db r)) with preloaded by reflexivity.
  rewrite Hid.
  destruct (has_many_merge (tbl_meta db) (Bangumi.EpisodeMetadata cand)
              (Bangumi.ID r) Hmk Hmnz Hmu Hfresh)
    as [appended [srows [Hmerge [Hsub [Hfold [Hrel [Hu [Hk Hnz]]]]]]]].
  fold preloaded in Hmerge, Hfold. rewrite Hfold, Hu.
  destruct (merge_into_links (Preload db r) cand) as [MI [TI _]].
  exists (Bangumi.columns b2), mikan, tmdb, appended, srows.
  repeat split; auto.
  - transitivity (Bangumi.MikanID b2); [reflexivity|].
    rewrite LM. unfold merged. now rewrite MI.
  - transitivity (Bangumi.TmdbID b2); [reflexivity|].
    rewrite LT. unfold merged. now rewrite TI.
  - simpl. rewrite map_ID_replace; [exact Hbk | exact Hid].
  - simpl. intros x Hx. apply in_map_iff in Hx. destruct Hx as [y [<- Hy]].
    destruct (Bangumi.ID y =? Bangumi.ID r); [|now apply Hbnz].
    simpl. rewrite Hid. now apply Hbnz.
  - simpl. intros m Hm. apply in_app_or in Hm. destruct Hm; auto.
  - simpl. intros m Hm. rewrite map_ID_replace by exact Hid.
    apply in_app_or in Hm. destruct Hm as [Hm|Hm]; [now apply Hmo|].
    destruct (Forall2_In_r _ _ _ _ Hrel Hm) as [a [_ [i ->]]].
    rewrite persist_BangumiID. simpl. now apply in_map.
Qed.

Lemma CreateBangumi_merge_frame_witness :
  let db := mkDB [one_entity] [] [] [] [] in
  let bangumi :=
    Bangumi.mk 0 "Sousou no Frieren" "2024" 2 (Some 3141) None None None
      "https://mikanani.me/RSS" [] true 3 "1080" "720" "mikan" "poster" true in
  exists r',
    frame r' = frame one_entity
    /\ In r' (tbl_bangumi (fst (CreateBangumi no_faults db bangumi)))
    /\ tbl_bangumi (fst (CreateBangumi no_faults db bangumi))
       = map (fun x => if Bangumi.ID x =? Bangumi.ID one_entity then r' else x)
             (tbl_bangumi db).
Proof.
  intros db bangumi.
  apply (CreateBangumi_merge_frame no_faults db _ bangumi one_entity
           (snd (CreateBangumi no_faults db bangumi))).
  - simpl. constructor; [intros [] | constructor].
  - reflexivity.
  - reflexivity.
  - discriminate.
  - apply surjective_pairing.
Defined.

(** ** The write of the create path *)

Lemma create_defaults_Bangumi_fields (b : Bangumi.t) :
  Bangumi.ID (create_defaults_Bangumi b) = Bangumi.ID b
  /\ Bangumi.MikanID (create_defaults_Bangumi b) = Bangumi.MikanID b
  /\ Bangumi.TmdbID (create_defaults_Bangumi b) = Bangumi.TmdbID b
  /\ Bangumi.EpisodeMetadata (create_defaults_Bangumi b) = Bangumi.EpisodeMetadata b.
Proof.
  unfold create_defaults_Bangumi.
  destruct (Bangumi.Season b =? 0); simpl;
    destruct (String.eqb (Bangumi.Parse b) ""); now repeat split.
Qed.

(** Inserting entries that were never stored, all owned by [rid]. *)
Lemma has_many_insert (tbl stamped : list EpisodeMetadata.t) (rid : Z) :
  NoDup (map EpisodeMetadata.ID tbl) ->
  unique_index_ok tbl = true ->
  (forall m, In m stamped ->
             EpisodeMetadata.ID m = 0 /\ EpisodeMetadata.Season m <> 0
             /\ EpisodeMetadata.BangumiID m = rid) ->
  pairwise_distinct same_dedup_key stamped = true ->
  (forall x m, In x tbl -> In m stamped -> EpisodeMetadata.BangumiID x = rid ->
               same_dedup_key x m = false) ->
  exists srows,
    fold_left save_has_many_EpisodeMetadata stamped tbl = tbl ++ srows
    /\ Forall2 (fun m n => exists i, n = persist i m) stamped srows
    /\ unique_index_ok (tbl ++ srows) = true
    /\ NoDup (map EpisodeMetadata.ID (tbl ++ srows))
    /\ (forall n, In n srows -> EpisodeMetadata.ID n <> 0).
Proof.
  intros Hnd Huniq Hstamp Hds Hcross.
  assert (Hz : Forall (fun m => EpisodeMetadata.ID m = 0) stamped).
  { apply Forall_forall. intros m Hm. apply (Hstamp m Hm). }
  destruct (save_has_many_fresh stamped tbl Hz) as [srows [Hfold [Hrel [Hndk Hnzk]]]].
  assert (Hrel' : Forall2 (fun m n => (EpisodeMetadata.Season m <> 0
                              /\ EpisodeMetadata.BangumiID m = rid)
                             /\ exists i, n = persist i m) stamped srows).
  { apply Forall2_with_Forall; [exact Hrel|].
    apply Forall_forall. intros m Hm. split; apply (Hstamp m Hm). }
  exists srows. repeat split; auto.
  unfold unique_index_ok. apply pairwise_distinct_app.
  split; [exact Huniq|]. split.
  - rewrite <- Hds.
    apply (pairwise_distinct_Forall2 same_dedup_key same_unique_key _)
      with (2 := Hrel').
    intros a a' b b' [[Hs Hb] [i ->]] [[Hs' Hb'] [i' ->]].
    rewrite same_unique_key_persist by assumption.
    rewrite same_unique_key_split, Hb, Hb', Z.eqb_refl. apply andb_true_r.
  - intros x n Hx Hn.
    destruct (Forall2_In_r _ _ _ _ Hrel' Hn) as [m [Hm [[Hs Hb] [i ->]]]].
    rewrite same_unique_key_persist_r by assumption.
    rewrite same_unique_key_split, Hb.
    destruct (EpisodeMetadata.BangumiID x =? rid) eqn:E;
      [|now rewrite andb_false_r].
    rewrite andb_true_r. apply Z.eqb_eq in E. now apply Hcross.
Qed.

Lemma Save_create_path (fx : Faults) (db : DB) (cand : Bangumi.t) :
  wf_db db -> fault_save_bangumi fx = None -> Bangumi.ID cand = 0 ->
  Forall fresh_meta (Bangumi.EpisodeMetadata cand) ->
  pairwise_distinct same_dedup_key (Bangumi.EpisodeMetadata cand) = true ->
  let k := next_id (map Bangumi.ID (tbl_bangumi db)) in
  exists row mikan tmdb srows,
    Save_Bangumi fx db cand
    = (mkDB (tbl_bangumi db ++ [row]) mikan tmdb (tbl_meta db ++ srows)
            (tbl_torrent db), None)
    /\ Bangumi.ID row = k
    /\ Bangumi.MikanID row
       = written_key (Bangumi.MikanID cand)
           (option_map MikanItem.ID (Bangumi.MikanItem cand))
           (next_id (map MikanItem.ID (tbl_mikan db)))
    /\ Bangumi.TmdbID row
       = written_key (Bangumi.TmdbID cand)
           (option_map TmdbItem.ID (Bangumi.TmdbItem cand))
           (next_id (map TmdbItem.ID (tbl_tmdb db)))
    /\ Forall2 (fun a n => exists i,
                    n = persist i (EpisodeMetadata.with_BangumiID k a))
               (Bangumi.EpisodeMetadata cand) srows
    /\ wf_db (mkDB (tbl_bangumi db ++ [row]) mikan tmdb (tbl_meta db ++ srows)
                   (tbl_torrent db)).
Proof.
  intros Hwf Hfx Hzero Hfresh Hdist k.
  destruct Hwf as [Hbk Hbnz Hmk Hmnz Hmu Hmo].
  unfold Save_Bangumi. rewrite Hfx.
  destruct (save_belongs_to_MikanItem (tbl_mikan db) cand) as [mikan b1] eqn:E1.
  destruct (save_belongs_to_TmdbItem (tbl_tmdb db) b1) as [tmdb b2] eqn:E2.
  destruct (save_belongs_to_both _ _ _ _ _ _ _ E1 E2) as [F [EM [LM LT]]].
  assert (Hid : Bangumi.ID b2 = 0).
  { unfold frame in F. inversion F. congruence. }
  unfold save_row_Bangumi. rewrite Hid. simpl Z.eqb. cbv iota. fold k.
  destruct (create_defaults_Bangumi_fields b2) as [_ [DM [DT DE]]].
  set (b3 := Bangumi.with_ID k (create_defaults_Bangumi b2)).
  replace (Bangumi.ID b3) with k by reflexivity.
  replace (Bangumi.EpisodeMetadata b3) with (Bangumi.EpisodeMetadata cand)
    by (unfold b3; simpl; congruence).
  set (stamped := map (EpisodeMetadata.with_BangumiID k) (Bangumi.EpisodeMetadata cand)).
  assert (Hk : ~ In k (map Bangumi.ID (tbl_bangumi db))) by apply next_id_fresh.
  assert (Hstamp : forall m, In m stamped ->
            EpisodeMetadata.ID m = 0 /\ EpisodeMetadata.Season m <> 0
            /\ EpisodeMetadata.BangumiID m = k).
  { intros m Hm. apply in_map_iff in Hm. destruct Hm as [a [<- Ha]].
    pose proof (proj1 (Forall_forall _ _) Hfresh a Ha) as [Hi Hs].
    now repeat split. }
  assert (Hds : pairwise_distinct same_dedup_key stamped = true).
  { rewrite <- Hdist. unfold stamped.
    apply (pairwise_distinct_Forall2 same_dedup_key same_dedup_key
             (fun a b => b = EpisodeMetadata.with_BangumiID k a)).
    - intros a a' b b' -> ->. reflexivity.
    - clear. induction (Bangumi.EpisodeMetadata cand); simpl; constructor; auto. }
  destruct (has_many_insert (tbl_meta db) stamped k Hmk Hmu Hstamp Hds)
    as [srows [Hfold [Hrel [Hu [Hnd Hnz]]]]].
  { intros x m Hx _ Hb. exfalso. apply Hk. rewrite <- Hb. now apply Hmo. }
  rewrite Hfold, Hu.
  exists (Bangumi.columns b3), mikan, tmdb, srows.
  repeat split; auto.
  - transitivity (Bangumi.MikanID (create_defaults_Bangumi b2)); [reflexivity|].
    congruence.
  - transitivity (Bangumi.TmdbID (create_defaults_Bangumi b2)); [reflexivity|].
    congruence.
  - exact (Forall2_map_left (EpisodeMetadata.with_BangumiID k)
             (fun m n => exists i, n = persist i m) _ srows Hrel).
  - simpl. rewrite map_app. simpl.
    apply NoDup_app; [exact Hbk | repeat constructor; intros [] |].
    intros a Ha [<-|[]]. exact (Hk Ha).
  - simpl. intros x Hx. apply in_app_or in Hx. destruct Hx as [Hx|[<-|[]]]; auto.
    simpl. pose proof (proj1 (next_id_above (map Bangumi.ID (tbl_bangumi db)))).
    fold k in H. lia.
  - simpl. intros m Hm. apply in_app_or in Hm. destruct Hm; auto.
  - simpl. intros m Hm. rewrite map_app. apply in_or_app.
    apply in_app_or in Hm. destruct Hm as [Hm|Hm]; [left; now apply Hmo|].
    right. destruct (Forall2_In_r _ _ _ _ Hrel Hm) as [a [Ha [i ->]]].
    rewrite persist_BangumiID, (proj2 (proj2 (Hstamp a Ha))). now left.
Qed.

(** ** The two paths of CreateBangumi *)

Lemma CreateBangumi_found (fx : Faults) (db : DB) (bangumi r : Bangumi.t) :
  fault_first_bangumi fx = None ->
  First Bangumi.ID
    (mikan_or_tmdb (extract_mikanID bangumi) (extract_tmdbID bangumi))
    (tbl_bangumi db) = Some r ->
  Bangumi.ID r <> 0 ->
  CreateBangumi fx db bangumi
  = Save_Bangumi fx db (merge_into (Preload db r) bangumi).
Proof.
  intros Hfx Hq Hnz. unfold CreateBangumi, First_Bangumi. rewrite Hfx, Hq.
  unfold CreateBangumi_after_query.
  replace (Bangumi.ID (Preload db r)) with (Bangumi.ID r) by reflexivity.
  destruct (Bangumi.ID r =? 0) eqn:E; [apply Z.eqb_eq in E; contradiction|].
  reflexivity.
Qed.

Lemma CreateBangumi_not_found (fx : Faults) (db : DB) (bangumi : Bangumi.t) :
  fault_first_bangumi fx = None ->
  First Bangumi.ID
    (mikan_or_tmdb (extract_mikanID bangumi) (extract_tmdbID bangumi))
    (tbl_bangumi db) = None ->
  CreateBangumi fx db bangumi = Save_Bangumi fx db bangumi.
Proof.
  intros Hfx Hq. unfold CreateBangumi, First_Bangumi. now rewrite Hfx, Hq.
Qed.

Lemma filter_owner_app (tbl srows : list EpisodeMetadata.t) (rid : Z) :
  (forall n, In n srows -> EpisodeMetadata.BangumiID n = rid) ->
  filter (fun m => EpisodeMetadata.BangumiID m =? rid) (tbl ++ srows)
  = filter (fun m => EpisodeMetadata.BangumiID m =? rid) tbl ++ srows.
Proof.
  intros H. rewrite filter_app. f_equal.
  induction srows as [|n srows IH]; simpl; [reflexivity|].
  rewrite (H n (or_introl eq_refl)), Z.eqb_refl. f_equal.
  apply IH. intros n' Hn'. apply H. now right.
Qed.

Lemma merge_one_iff oldID attached newMeta :
  ((forall e, In e attached -> ~ agree_on_key e newMeta) ->
   merge_one oldID attached newMeta
   = attached ++ [EpisodeMetadata.with_BangumiID oldID newMeta])
  /\ ((exists e, In e attached /\ agree_on_key e newMeta) ->
      merge_one oldID attached newMeta = attached).
Proof.
  unfold merge_one. split.
  - intros H. destruct (existsb _ attached) eqn:E; [|reflexivity].
    apply existsb_exists in E. destruct E as [e [He Hk]].
    apply same_dedup_key_agree in Hk. now destruct (H e He).
  - intros [e [He Hk]]. apply same_dedup_key_agree in Hk.
    assert (E : existsb (fun x => same_dedup_key x newMeta) attached = true)
      by (apply existsb_exists; eauto).
    now rewrite E.
Qed.

(** The claim C4 as it is worded fails on entries without a season.  The
    stored entity has a record (Frieren, season 1, ABC, 1080p); the candidate
    brings two entries of season 0 that differ in resolution only.  Neither
    agrees with the stored record on the five fields, so the loop appends
    both; on INSERT the zero season takes the column default 1, the first
    entry violates idx_episode_metadata_unique, and neither is stored. *)
Lemma CreateBangumi_zero_season_not_stored :
  let e1080 := EpisodeMetadata.with_Season 0 (entry "ABC" "1080p") in
  let e720 := EpisodeMetadata.with_Season 0 (entry "ABC" "720p") in
  let bangumi := candidate (Some 3141) None None None [e1080; e720] in
  (EpisodeMetadata.Title e1080 = EpisodeMetadata.Title e720
   /\ EpisodeMetadata.Season e1080 = EpisodeMetadata.Season e720
   /\ EpisodeMetadata.Group e1080 = EpisodeMetadata.Group e720
   /\ EpisodeMetadata.SubType e1080 = EpisodeMetadata.SubType e720
   /\ EpisodeMetadata.Resolution e1080 <> EpisodeMetadata.Resolution e720)
  /\ ~ agree_on_key stored_1080 e1080
  /\ First Bangumi.ID
       (mikan_or_tmdb (extract_mikanID bangumi) (extract_tmdbID bangumi))
       (tbl_bangumi one_entity_store) = Some one_entity
  /\ merge_EpisodeMetadata 1 [stored_1080] [e1080; e720]
     = [stored_1080; EpisodeMetadata.with_BangumiID 1 e1080;
        EpisodeMetadata.with_BangumiID 1 e720]
  /\ CreateBangumi no_faults one_entity_store bangumi
     = (one_entity_store,
        Some (ErrStorage "UNIQUE constraint failed: episode_metadata"))
  /\ tbl_meta (fst (CreateBangumi no_faults one_entity_store bangumi))
     = [stored_1080].
Proof.
  intros e1080 e720 bangumi.
  split; [repeat (split; [reflexivity|]); discriminate|].
  split; [intros [_ [H _]]; discriminate H|].
  split; [reflexivity|]. split; [reflexivity|]. split; reflexivity.
Qed.

(** C4, amended.  In the merge path, with [sofar] the entries attached when
    the loop reaches a candidate entry (those loaded with the entity and
    those the loop appended before), the entry is appended, stamped with the
    entity's ID, when no entry of [sofar] agrees with it on title, season,
    subtitle group, resolution and subtitle type, and it is dropped when one
    does; the result of the loop is what CreateBangumi writes.  This holds
    for every candidate.  When the store is well formed, no statement fails
    with a storage fault and every candidate entry is unsaved (ID 0) and has
    a non-zero season, the write stores one new record for each appended
    entry and leaves the entity's records as they were, so that its records
    afterwards are those before followed by the new ones, no two of them
    with the same key.  Two such entries that differ in resolution only are
    stored as two records, two entries of the same five fields as one. *)
Theorem CreateBangumi_dedup_key :
  forall (fx : Faults) (db : DB) (bangumi r : Bangumi.t),
    let rid := Bangumi.ID r in
    let attached :=
      filter (fun m => EpisodeMetadata.BangumiID m =? rid) (tbl_meta db) in
    (forall before newMeta after,
        Bangumi.EpisodeMetadata bangumi = before ++ newMeta :: after ->
        let sofar := merge_EpisodeMetadata rid attached before in
        ((forall e, In e sofar -> ~ agree_on_key e newMeta) ->
         merge_EpisodeMetadata rid attached (before ++ [newMeta])
         = sofar ++ [EpisodeMetadata.with_BangumiID rid newMeta])
        /\ ((exists e, In e sofar /\ agree_on_key e newMeta) ->
            merge_EpisodeMetadata rid attached (before ++ [newMeta]) = sofar))
    /\ (fault_first_bangumi fx = None ->
        First Bangumi.ID
          (mikan_or_tmdb (extract_mikanID bangumi) (extract_tmdbID bangumi))
          (tbl_bangumi db) = Some r ->
        rid <> 0 ->
        exists merged,
          CreateBangumi fx db bangumi = Save_Bangumi fx db merged
          /\ Bangumi.ID merged = rid
          /\ Bangumi.EpisodeMetadata merged
             = merge_EpisodeMetadata rid attached (Bangumi.EpisodeMetadata bangumi))
    /\ (wf_db db ->
        fault_first_bangumi fx = None -> fault_save_bangumi fx = None ->
        First Bangumi.ID
          (mikan_or_tmdb (extract_mikanID bangumi) (extract_tmdbID bangumi))
          (tbl_bangumi db) = Some r ->
        Forall fresh_meta (Bangumi.EpisodeMetadata bangumi) ->
        exists db' appended srows,
          CreateBangumi fx db bangumi = (db', None)
          /\ merge_EpisodeMetadata rid attached (Bangumi.EpisodeMetadata bangumi)
             = attached ++ map (EpisodeMetadata.with_BangumiID rid) appended
          /\ Forall2 (fun a n => exists i,
                          n = persist i (EpisodeMetadata.with_BangumiID rid a))
                     appended srows
          /\ tbl_meta db' = tbl_meta db ++ srows
          /\ filter (fun m => EpisodeMetadata.BangumiID m =? rid) (tbl_meta db')
             = attached ++ srows
          /\ unique_index_ok (tbl_meta db') = true)
    /\ map EpisodeMetadata.Resolution
         (tbl_meta (fst (CreateBangumi no_faults one_entity_store
                           (candidate (Some 3141) None None None
                              [entry "XYZ" "1080p"; entry "XYZ" "720p"]))))
       = ["1080p"; "1080p"; "720p"]
    /\ map EpisodeMetadata.Resolution
         (tbl_meta (fst (CreateBangumi no_faults one_entity_store
                           (candidate (Some 3141) None None None
                              [entry "XYZ" "1080p"; entry "XYZ" "1080p"]))))
       = ["1080p"; "1080p"].
Proof.
  intros fx db bangumi r rid attached.
  split; [|split; [|split; [|split; reflexivity]]].
  - intros before newMeta after _ sofar.
    rewrite merge_EpisodeMetadata_snoc. fold sofar. apply merge_one_iff.
  - intros Hq1 Hq Hnz. exists (merge_into (Preload db r) bangumi).
    split; [exact (CreateBangumi_found fx db bangumi r Hq1 Hq Hnz)|].
    rewrite merge_into_EpisodeMetadata. split; [|reflexivity].
    unfold merge_into.
    destruct (is_none (Bangumi.MikanID (Preload db r))
              && is_some (Bangumi.MikanItem bangumi));
      simpl;
      destruct (is_none (Bangumi.TmdbID r) && is_some (Bangumi.TmdbItem bangumi));
      reflexivity.
  - intros Hwf Hq1 Hs Hq Hfresh.
    destruct (First_Some _ _ _ _ Hq) as [Hin _].
    destruct (Save_merge_path fx db r bangumi Hwf Hs Hin Hfresh)
      as [row [mikan [tmdb [appended [srows [HS [_ [_ [_ [Hm [_ [Hrel Hwf']]]]]]]]]]]].
    rewrite (CreateBangumi_found fx db bangumi r Hq1 Hq)
      by (apply (wf_bangumi_nonzero db Hwf); exact Hin).
    rewrite HS. eexists; exists appended, srows.
    split; [reflexivity|]. split; [exact Hm|]. split; [exact Hrel|].
    split; [reflexivity|]. split.
    + simpl. apply filter_owner_app. intros n Hn.
      destruct (Forall2_In_r _ _ _ _ Hrel Hn) as [a [_ [i ->]]].
      now rewrite persist_BangumiID.
    + exact (wf_meta_unique _ Hwf').
Qed.

Lemma one_entity_store_wf : wf_db one_entity_store.
Proof.
  constructor; simpl.
  - constructor; [intros [] | constructor].
  - intros r [<-|[]]; discriminate.
  - constructor; [intros [] | constructor].
  - intros m [<-|[]]; discriminate.
  - reflexivity.
  - intros m [<-|[]]; now left.
Qed.

Lemma CreateBangumi_dedup_key_witness :
  exists db' appended srows,
    CreateBangumi no_faults one_entity_store
      (candidate (Some 3141) None None None
         [entry "ABC" "1080p"; entry "ABC" "720p"]) = (db', None)
    /\ merge_EpisodeMetadata 1 [stored_1080] [entry "ABC" "1080p"; entry "ABC" "720p"]
       = [stored_1080] ++ map (EpisodeMetadata.with_BangumiID 1) appended
    /\ Forall2 (fun a n => exists i,
                    n = persist i (EpisodeMetadata.with_BangumiID 1 a))
               appended srows
    /\ tbl_meta db' = [stored_1080] ++ srows
    /\ filter (fun m => EpisodeMetadata.BangumiID m =? 1) (tbl_meta db')
       = [stored_1080] ++ srows
    /\ unique_index_ok (tbl_meta db') = true.
Proof.
  refine (proj1 (proj2 (proj2 (CreateBangumi_dedup_key no_faults one_entity_store
                          (candidate (Some 3141) None None None
                             [entry "ABC" "1080p"; entry "ABC" "720p"])
                          one_entity)))
            one_entity_store_wf eq_refl eq_refl eq_refl _).
  repeat constructor; discriminate.
Defined.

(** ** Links filled in by the merge path *)

Lemma First_only {A : Type} (pk : A -> Z) (cond : A -> bool) (rows : list A) (r : A) :
  In r rows -> cond r = true ->
  (forall x, In x rows -> cond x = true -> x = r) ->
  First pk cond rows = Some r.
Proof.
  intros Hin Hc Honly.
  destruct (proj2 (First_exists pk cond rows)) as [r0 H0]; [now exists r|].
  destruct (First_Some _ _ _ _ H0) as [Hin0 Hc0].
  now rewrite <- (Honly r0 Hin0 Hc0).
Qed.

Lemma find_MikanItem_ID (tbl : list MikanItem.t) (i : Z) (it : MikanItem.t) :
  find (fun x => MikanItem.ID x =? i) tbl = Some it -> MikanItem.ID it = i.
Proof. intros H. apply find_some in H. now apply Z.eqb_eq. Qed.

Lemma find_TmdbItem_ID (tbl : list TmdbItem.t) (i : Z) (it : TmdbItem.t) :
  find (fun x => TmdbItem.ID x =? i) tbl = Some it -> TmdbItem.ID it = i.
Proof. intros H. apply find_some in H. now apply Z.eqb_eq. Qed.

(** The key written for a link of the stored entity in the merge path. *)
Lemma merged_MikanID (db : DB) (r cand : Bangumi.t) (fresh : Z) :
  let key := written_key (Bangumi.MikanID r)
               (option_map MikanItem.ID
                  (Bangumi.MikanItem (merge_into (Preload db r) cand))) fresh in
  (forall M, Bangumi.MikanID r = Some M -> M <> 0 -> key = Some M)
  /\ (Bangumi.MikanID r = None ->
      forall it, Bangumi.MikanItem cand = Some it ->
                 key = Some (if MikanItem.ID it =? 0 then fresh else MikanItem.ID it))
  /\ (Bangumi.MikanID r = None -> Bangumi.MikanItem cand = None -> key = None).
Proof.
  intros key. unfold key.
  destruct (merge_into_links (Preload db r) cand) as [_ [_ [-> _]]].
  replace (Bangumi.MikanID (Preload db r)) with (Bangumi.MikanID r) by reflexivity.
  replace (Bangumi.MikanItem (Preload db r))
    with (match Bangumi.MikanID r with
          | Some i => find (fun it => MikanItem.ID it =? i) (tbl_mikan db)
          | None => None
          end) by reflexivity.
  repeat split.
  - intros M HM Hnz. rewrite HM. simpl.
    destruct (find _ (tbl_mikan db)) as [it|] eqn:E; simpl; [|reflexivity].
    rewrite (find_MikanItem_ID _ _ _ E).
    destruct (M =? 0) eqn:E0; [apply Z.eqb_eq in E0; contradiction | reflexivity].
  - intros HN it Hit. rewrite HN, Hit. reflexivity.
  - intros HN Hit. rewrite HN, Hit. reflexivity.
Qed.

Lemma merged_TmdbID (db : DB) (r cand : Bangumi.t) (fresh : Z) :
  let key := written_key (Bangumi.TmdbID r)
               (option_map TmdbItem.ID
                  (Bangumi.TmdbItem (merge_into (Preload db r) cand))) fresh in
  (forall T, Bangumi.TmdbID r = Some T -> T <> 0 -> key = Some T)
  /\ (Bangumi.TmdbID r = None ->
      forall it, Bangumi.TmdbItem cand = Some it ->
                 key = Some (if TmdbItem.ID it =? 0 then fresh else TmdbItem.ID it))
  /\ (Bangumi.TmdbID r = None -> Bangumi.TmdbItem cand = None -> key = None).
Proof.
  intros key. unfold key.
  destruct (merge_into_links (Preload db r) cand) as [_ [_ [_ ->]]].
  replace (Bangumi.TmdbID (Preload db r)) with (Bangumi.TmdbID r) by reflexivity.
  replace (Bangumi.TmdbItem (Preload db r))
    with (match Bangumi.TmdbID r with
          | Some i => find (fun it => TmdbItem.ID it =? i) (tbl_tmdb db)
          | None => None
          end) by reflexivity.
  repeat split.
  - intros T HT Hnz. rewrite HT. simpl.
    destruct (find _ (tbl_tmdb db)) as [it|] eqn:E; simpl; [|reflexivity].
    rewrite (find_TmdbItem_ID _ _ _ E).
    destruct (T =? 0) eqn:E0; [apply Z.eqb_eq in E0; contradiction | reflexivity].
  - intros HN it Hit. rewrite HN, Hit. reflexivity.
  - intros HN Hit. rewrite HN, Hit. reflexivity.
Qed.

(** The claim C3 as it is worded fails for a candidate that supplies the
    release-tracker ID as the scalar field only: the entity is found through
    its metadata-catalog link, and its release-tracker link stays null. *)
Lemma CreateBangumi_scalar_link_not_attached :
  let bangumi := candidate (Some 3141) (Some 209867) None None [] in
  First Bangumi.ID
    (mikan_or_tmdb (extract_mikanID bangumi) (extract_tmdbID bangumi))
    (tbl_bangumi tmdb_entity_store) = Some tmdb_entity
  /\ Bangumi.MikanID tmdb_entity = None
  /\ Bangumi.MikanID bangumi = Some 3141
  /\ CreateBangumi no_faults tmdb_entity_store bangumi = (tmdb_entity_store, None)
  /\ map Bangumi.MikanID (tbl_bangumi tmdb_entity_store) = [None].
Proof. repeat split. Qed.

(** C3, amended.  When CreateBangumi finds an existing entity and writes it,
    a null release-tracker link is set to the key of the release-tracker
    record embedded in the candidate, and a null metadata-catalog link to
    the key of the embedded metadata-catalog record (the key the store
    assigns when the record has none); a link that is null stays null when
    the candidate embeds no record for it. *)
Theorem CreateBangumi_link_fill_in :
  forall (fx : Faults) (db : DB) (bangumi r : Bangumi.t),
    wf_db db ->
    fault_first_bangumi fx = None -> fault_save_bangumi fx = None ->
    First Bangumi.ID
      (mikan_or_tmdb (extract_mikanID bangumi) (extract_tmdbID bangumi))
      (tbl_bangumi db) = Some r ->
    Forall fresh_meta (Bangumi.EpisodeMetadata bangumi) ->
    exists db' row,
      CreateBangumi fx db bangumi = (db', None)
      /\ tbl_bangumi db'
         = map (fun x => if Bangumi.ID x =? Bangumi.ID r then row else x)
               (tbl_bangumi db)
      /\ In row (tbl_bangumi db')
      /\ Bangumi.ID row = Bangumi.ID r
      /\ (Bangumi.MikanID r = None ->
          forall it, Bangumi.MikanItem bangumi = Some it ->
            Bangumi.MikanID row
            = Some (if MikanItem.ID it =? 0
                    then next_id (map MikanItem.ID (tbl_mikan db))
                    else MikanItem.ID it))
      /\ (Bangumi.TmdbID r = None ->
          forall it, Bangumi.TmdbItem bangumi = Some it ->
            Bangumi.TmdbID row
            = Some (if TmdbItem.ID it =? 0
                    then next_id (map TmdbItem.ID (tbl_tmdb db))
                    else TmdbItem.ID it))
      /\ (Bangumi.MikanID r = None -> Bangumi.MikanItem bangumi = None ->
          Bangumi.MikanID row = None)
      /\ (Bangumi.TmdbID r = None -> Bangumi.TmdbItem bangumi = None ->
          Bangumi.TmdbID row = None).
Proof.
  intros fx db bangumi r Hwf Hq1 Hs Hq Hfresh.
  destruct (First_Some _ _ _ _ Hq) as [Hin _].
  destruct (Save_merge_path fx db r bangumi Hwf Hs Hin Hfresh)
    as [row [mikan [tmdb [appended [srows [HS [HF [HM [HT _]]]]]]]]].
  rewrite (CreateBangumi_found fx db bangumi r Hq1 Hq)
    by (apply (wf_bangumi_nonzero db Hwf); exact Hin).
  rewrite HS. eexists; exists row. split; [reflexivity|].
  assert (Hid : Bangumi.ID row = Bangumi.ID r)
    by (unfold frame in HF; now inversion HF).
  destruct (merged_MikanID db r bangumi (next_id (map MikanItem.ID (tbl_mikan db))))
    as [_ [M1 M2]].
  destruct (merged_TmdbID db r bangumi (next_id (map TmdbItem.ID (tbl_tmdb db))))
    as [_ [T1 T2]].
  simpl tbl_bangumi. repeat split; auto.
  - apply in_map_iff. exists r. split; [now rewrite Z.eqb_refl | exact Hin].
  - intros HN it Hit. rewrite HM. now apply M1.
  - intros HN it Hit. rewrite HT. now apply T1.
  - intros HN Hit. rewrite HM. now apply M2.
  - intros HN Hit. rewrite HT. now apply T2.
Qed.

Lemma tmdb_entity_store_wf : wf_db tmdb_entity_store.
Proof.
  constructor; simpl.
  - constructor; [intros [] | constructor].
  - intros r [<-|[]]; discriminate.
  - constructor.
  - intros m [].
  - reflexivity.
  - intros m [].
Qed.

Lemma CreateBangumi_link_fill_in_witness :
  exists db' row,
    CreateBangumi no_faults tmdb_entity_store
      (candidate None (Some 209867) (Some mikan_3141) None []) = (db', None)
    /\ In row (tbl_bangumi db')
    /\ Bangumi.ID row = 1
    /\ Bangumi.MikanID row = Some 3141.
Proof.
  destruct (CreateBangumi_link_fill_in no_faults tmdb_entity_store
              (candidate None (Some 209867) (Some mikan_3141) None [])
              tmdb_entity tmdb_entity_store_wf eq_refl eq_refl eq_refl
              (Forall_nil _))
    as [db' [row [H1 [_ [H3 [H4 [H5 _]]]]]]].
  exists db', row. repeat split; auto.
  exact (H5 eq_refl mikan_3141 eq_refl).
Defined.

(** ** Matching by either ID *)

(** The claim C2 as it is worded fails: an entity created with a
    release-tracker link only is not found by a candidate for the same title
    that carries a metadata-catalog ID only, and a second row is created. *)
Lemma CreateBangumi_tmdb_only_not_matched :
  let c1 := candidate None None (Some mikan_3141) None [entry "ABC" "1080p"] in
  let c2 := candidate None None None (Some tmdb_209867) [entry "ABC" "720p"] in
  let db1 := fst (CreateBangumi no_faults emptyDB c1) in
  let db2 := fst (CreateBangumi no_faults db1 c2) in
  map (fun r => (Bangumi.OfficialTitle r, Bangumi.MikanID r, Bangumi.TmdbID r))
      (tbl_bangumi db1)
  = [("Frieren", Some 3141, None)]
  /\ map (fun r => (Bangumi.OfficialTitle r, Bangumi.MikanID r, Bangumi.TmdbID r))
         (tbl_bangumi db2)
     = [("Frieren", Some 3141, None); ("Frieren", None, Some 209867)].
Proof. split; reflexivity. Qed.

Lemma First_least_key {A : Type} (pk : A -> Z) (cond : A -> bool) (rows : list A)
  (r : A) :
  NoDup (map pk rows) ->
  In r rows -> cond r = true ->
  (forall x, In x rows -> cond x = true -> pk r <= pk x) ->
  First pk cond rows = Some r.
Proof.
  intros Hnd Hin Hc Hleast.
  destruct (proj2 (First_exists pk cond rows)) as [r0 H0]; [now exists r|].
  destruct (First_Some _ _ _ _ H0) as [Hin0 Hc0].
  assert (Hle : pk r0 <= pk r) by exact (First_least _ _ _ _ H0 r Hin Hc).
  assert (Hge : pk r <= pk r0) by exact (Hleast r0 Hin0 Hc0).
  rewrite H0. f_equal. apply (NoDup_map_eq pk rows r0 r Hnd Hin0 Hin). lia.
Qed.

(** C2, amended.  Let the store be well formed and no statement fail with a
    storage fault.  Let an entity be stored with the release-tracker link
    [M], not 0, and no metadata-catalog link, and let a candidate carry
    [M], embed a metadata-catalog record, and have entries that are unsaved
    (ID 0) with a non-zero season.  When no stored row with a smaller key is
    linked to either ID the lookup extracts from the candidate (first match
    wins), the OR lookup returns that entity, both links are populated
    afterwards, the metadata-catalog link with the key of the embedded
    record (the key that record receives when its own is 0), and the entity
    still has one row, rewritten in place.  A candidate from which the
    lookup extracts another release-tracker ID, 0 for a candidate that
    carries a metadata-catalog ID only, does not match the entity, whatever
    its title. *)
Theorem CreateBangumi_or_matching :
  forall (fx : Faults) (db : DB) (bangumi r : Bangumi.t) (M : Z) (it : TmdbItem.t),
    wf_db db ->
    fault_first_bangumi fx = None -> fault_save_bangumi fx = None ->
    In r (tbl_bangumi db) ->
    Bangumi.MikanID r = Some M -> M <> 0 -> Bangumi.TmdbID r = None ->
    extract_mikanID bangumi = M ->
    Bangumi.TmdbItem bangumi = Some it ->
    Forall fresh_meta (Bangumi.EpisodeMetadata bangumi) ->
    (forall x, In x (tbl_bangumi db) ->
               mikan_or_tmdb M (extract_tmdbID bangumi) x = true ->
               Bangumi.ID r <= Bangumi.ID x) ->
    (First Bangumi.ID
       (mikan_or_tmdb (extract_mikanID bangumi) (extract_tmdbID bangumi))
       (tbl_bangumi db) = Some r
     /\ exists db' row k,
          CreateBangumi fx db bangumi = (db', None)
          /\ tbl_bangumi db'
             = map (fun x => if Bangumi.ID x =? Bangumi.ID r then row else x)
                   (tbl_bangumi db)
          /\ List.length (tbl_bangumi db') = List.length (tbl_bangumi db)
          /\ Bangumi.ID row = Bangumi.ID r
          /\ Bangumi.MikanID row = Some M
          /\ Bangumi.TmdbID row = Some k
          /\ (TmdbItem.ID it <> 0 -> k = TmdbItem.ID it))
    /\ (forall other,
           extract_mikanID other <> M ->
           mikan_or_tmdb (extract_mikanID other) (extract_tmdbID other) r = false)
    /\ (forall other,
           extract_mikanID other = 0 ->
           mikan_or_tmdb (extract_mikanID other) (extract_tmdbID other) r = false).
Proof.
  intros fx db bangumi r M it Hwf Hq1 Hs Hin HM HMnz HT HeM Hit Hfresh Hleast.
  assert (Hother : forall other,
             extract_mikanID other <> M ->
             mikan_or_tmdb (extract_mikanID other) (extract_tmdbID other) r = false).
  { intros other Hne. unfold mikan_or_tmdb. rewrite HM, HT. simpl.
    destruct (M =? extract_mikanID other) eqn:E; [|reflexivity].
    apply Z.eqb_eq in E. congruence. }
  split; [|split; [exact Hother|]].
  - assert (Hq : First Bangumi.ID
                   (mikan_or_tmdb (extract_mikanID bangumi) (extract_tmdbID bangumi))
                   (tbl_bangumi db) = Some r).
    { rewrite HeM.
      apply First_least_key;
        [exact (wf_bangumi_keys db Hwf) | exact Hin | | exact Hleast].
      unfold mikan_or_tmdb. rewrite HM. simpl. now rewrite Z.eqb_refl. }
    split; [exact Hq|].
    destruct (Save_merge_path fx db r bangumi Hwf Hs Hin Hfresh)
      as [row [mikan [tmdb [appended [srows [HS [HF [HMr [HTr _]]]]]]]]].
    rewrite (CreateBangumi_found fx db bangumi r Hq1 Hq)
      by (apply (wf_bangumi_nonzero db Hwf); exact Hin).
    rewrite HS. eexists; exists row.
    exists (if TmdbItem.ID it =? 0
            then next_id (map TmdbItem.ID (tbl_tmdb db)) else TmdbItem.ID it).
    simpl tbl_bangumi.
    split; [reflexivity|]. split; [reflexivity|]. split; [apply length_map|].
    split; [unfold frame in HF; now inversion HF|]. split; [|split].
    + rewrite HMr.
      now apply (proj1 (merged_MikanID db r bangumi
                          (next_id (map MikanItem.ID (tbl_mikan db))))).
    + rewrite HTr.
      destruct (merged_TmdbID db r bangumi (next_id (map TmdbItem.ID (tbl_tmdb db))))
        as [_ [T1 _]].
      exact (T1 HT it Hit).
    + intros Hnz.
      destruct (TmdbItem.ID it =? 0) eqn:E; [apply Z.eqb_eq in E; contradiction|].
      reflexivity.
  - intros other H0. apply Hother. congruence.
Qed.

Lemma CreateBangumi_or_matching_witness :
  exists db' row,
    CreateBangumi no_faults one_entity_store
      (candidate (Some 3141) None None (Some tmdb_209867) [entry "ABC" "720p"])
    = (db', None)
    /\ List.length (tbl_bangumi db') = 1%nat
    /\ Bangumi.ID row = 1
    /\ Bangumi.MikanID row = Some 3141
    /\ Bangumi.TmdbID row = Some 209867.
Proof.
  destruct (CreateBangumi_or_matching no_faults one_entity_store
              (candidate (Some 3141) None None (Some tmdb_209867)
                 [entry "ABC" "720p"])
              one_entity 3141 tmdb_209867 one_entity_store_wf eq_refl eq_refl)
    as [[_ [db' [row [k [H1 [_ [H3 [H4 [H5 [H6 H7]]]]]]]]]] _].
  - now left.
  - reflexivity.
  - discriminate.
  - reflexivity.
  - reflexivity.
  - reflexivity.
  - repeat constructor; discriminate.
  - intros x [<-|[]] _. apply Z.le_refl.
  - exists db', row. rewrite H6, (H7 ltac:(discriminate)).
    repeat split; auto.
Defined.

(** ** Two calls for the same release-tracker ID *)

Lemma Forall2_In_l {A B : Type} (R : A -> B -> Prop) (la : list A) (lb : list B) (a : A) :
  Forall2 R la lb -> In a la -> exists b, In b lb /\ R a b.
Proof.
  induction 1 as [|a0 b la lb Hab Hl IH]; simpl; [intros []|].
  intros [<-|Ha]; [exists b; auto|].
  destruct (IH Ha) as [b' [Hb' HR]]. exists b'; auto.
Qed.

Lemma agree_on_key_persist (i k : Z) (a : EpisodeMetadata.t) :
  EpisodeMetadata.Season a <> 0 ->
  agree_on_key (persist i (EpisodeMetadata.with_BangumiID k a)) a.
Proof.
  intros Hs.
  destruct (persist_fields i (EpisodeMetadata.with_BangumiID k a) Hs)
    as [_ [H1 [H2 [H3 [H4 [H5 _]]]]]].
  unfold agree_on_key. now rewrite H1, H2, H3, H4, H5.
Qed.

Lemma agree_on_key_sym (a b : EpisodeMetadata.t) :
  agree_on_key a b -> agree_on_key b a.
Proof. unfold agree_on_key. intuition congruence. Qed.

Lemma agree_on_key_trans (a b c : EpisodeMetadata.t) :
  agree_on_key a b -> agree_on_key b c -> agree_on_key a c.
Proof. unfold agree_on_key. intuition congruence. Qed.

Lemma replace_last_row (tbl : list Bangumi.t) (row1 row : Bangumi.t) (k : Z) :
  (forall x, In x tbl -> Bangumi.ID x <> k) -> Bangumi.ID row1 = k ->
  map (fun x => if Bangumi.ID x =? k then row else x) (tbl ++ [row1])
  = tbl ++ [row].
Proof.
  intros Hne Hk. rewrite map_app. simpl. rewrite Hk, Z.eqb_refl. f_equal.
  rewrite <- (map_id tbl) at 2. apply map_ext_in. intros x Hx.
  destruct (Bangumi.ID x =? k) eqn:E; [|reflexivity].
  apply Z.eqb_eq in E. now destruct (Hne x Hx).
Qed.

Lemma filter_owner_none (tbl : list EpisodeMetadata.t) (k : Z) :
  (forall m, In m tbl -> EpisodeMetadata.BangumiID m <> k) ->
  filter (fun m => EpisodeMetadata.BangumiID m =? k) tbl = [].
Proof.
  induction tbl as [|m tbl IH]; simpl; [reflexivity|]. intros H.
  destruct (EpisodeMetadata.BangumiID m =? k) eqn:E.
  - apply Z.eqb_eq in E. now destruct (H m (or_introl eq_refl)).
  - apply IH. intros m' Hm'. apply H. now right.
Qed.

Lemma carries_mikan_written (M : Z) (c : Bangumi.t) (fresh : Z) :
  carries_mikan M c ->
  written_key (Bangumi.MikanID c)
    (option_map MikanItem.ID (Bangumi.MikanItem c)) fresh = Some M.
Proof.
  intros [Hnz [Hex Hit]]. unfold written_key.
  destruct (Bangumi.MikanItem c) as [it|] eqn:E; simpl.
  - rewrite (Hit it eq_refl).
    destruct (M =? 0) eqn:E0; [apply Z.eqb_eq in E0; contradiction | reflexivity].
  - unfold extract_mikanID in Hex. rewrite E in Hex.
    destruct (Bangumi.MikanID c); congruence.
Qed.

Lemma owned_distinct (tbl : list EpisodeMetadata.t) (k : Z) :
  unique_index_ok tbl = true ->
  pairwise_distinct same_dedup_key
    (filter (fun m => EpisodeMetadata.BangumiID m =? k) tbl) = true.
Proof.
  intros Hu.
  rewrite (pairwise_distinct_ext_in same_dedup_key same_unique_key).
  - apply pairwise_distinct_filter. exact Hu.
  - intros x y Hx Hy. apply filter_In in Hx, Hy.
    destruct Hx as [_ Hx], Hy as [_ Hy]. apply Z.eqb_eq in Hx, Hy.
    rewrite same_unique_key_split, Hx, Hy, Z.eqb_refl. now rewrite andb_true_r.
Qed.

(** The claim C1 as it is worded fails in two ways.  The create path does
    not remove duplicates: a first candidate with two entries of the same
    key violates idx_episode_metadata_unique, the write is rolled back, and
    after both calls the store holds no row at all.  And an entry without a
    season differs from a stored entry of season 1 in the loop, but takes
    the column default 1 on INSERT: the second call then fails, and its
    other entry, of a key not stored so far, is not retained. *)
Lemma CreateBangumi_twice_not_single_row :
  (let c := candidate None None (Some mikan_3141) None
              [entry "ABC" "1080p"; entry "ABC" "1080p"] in
   let db1 := fst (CreateBangumi no_faults emptyDB c) in
   let db2 := fst (CreateBangumi no_faults db1 c) in
   snd (CreateBangumi no_faults emptyDB c)
   = Some (ErrStorage "UNIQUE constraint failed: episode_metadata")
   /\ snd (CreateBangumi no_faults db1 c)
      = Some (ErrStorage "UNIQUE constraint failed: episode_metadata")
   /\ tbl_bangumi db2 = [] /\ tbl_meta db2 = [])
  /\ (let c1 := candidate None None (Some mikan_3141) None [entry "ABC" "1080p"] in
      let c2 := candidate None None (Some mikan_3141) None
                  [EpisodeMetadata.with_Season 0 (entry "ABC" "1080p");
                   entry "ABC" "720p"] in
      let db1 := fst (CreateBangumi no_faults emptyDB c1) in
      let db2 := fst (CreateBangumi no_faults db1 c2) in
      snd (CreateBangumi no_faults emptyDB c1) = None
      /\ snd (CreateBangumi no_faults db1 c2)
         = Some (ErrStorage "UNIQUE constraint failed: episode_metadata")
      /\ map EpisodeMetadata.Resolution (tbl_meta db2) = ["1080p"]).
Proof.
  split; [repeat (split; [reflexivity|]); reflexivity|].
  repeat (split; [reflexivity|]); reflexivity.
Qed.

(** C1, amended.  Let the store be well formed and hold no entity linked
    to either ID the lookup extracts from two candidates; let both carry
    the same release-tracker ID, not 0, the first being a new value (ID 0);
    let every entry of either candidate be unsaved (ID 0) and have a
    non-zero season, and let the first candidate have no two entries of the
    same key; let no statement fail with a storage fault.  CreateBangumi on
    the first and then on the second succeeds twice and adds exactly one
    row, linked to that ID (on an empty store: exactly one row).  The
    episode metadata stored for that entity has no two records of the same
    dedup key, has a record for every entry of either candidate, and
    nothing else. *)
Theorem CreateBangumi_idempotent_merge :
  forall (fx : Faults) (db : DB) (c1 c2 : Bangumi.t) (M : Z),
    wf_db db ->
    fault_first_bangumi fx = None -> fault_save_bangumi fx = None ->
    carries_mikan M c1 -> extract_mikanID c2 = M ->
    Bangumi.ID c1 = 0 ->
    unseen db c1 -> unseen db c2 ->
    Forall fresh_meta (Bangumi.EpisodeMetadata c1) ->
    Forall fresh_meta (Bangumi.EpisodeMetadata c2) ->
    pairwise_distinct same_dedup_key (Bangumi.EpisodeMetadata c1) = true ->
    exists db1 db2 row,
      CreateBangumi fx db c1 = (db1, None)
      /\ CreateBangumi fx db1 c2 = (db2, None)
      /\ tbl_bangumi db2 = tbl_bangumi db ++ [row]
      /\ (db = emptyDB -> tbl_bangumi db2 = [row])
      /\ Bangumi.MikanID row = Some M
      /\ let stored :=
           filter (fun m => EpisodeMetadata.BangumiID m =? Bangumi.ID row)
                  (tbl_meta db2) in
         pairwise_distinct same_dedup_key stored = true
         /\ (forall m, In m (Bangumi.EpisodeMetadata c1 ++ Bangumi.EpisodeMetadata c2) ->
                       exists s, In s stored /\ agree_on_key s m)
         /\ (forall s, In s stored ->
                       exists m, In m (Bangumi.EpisodeMetadata c1
                                       ++ Bangumi.EpisodeMetadata c2)
                                 /\ agree_on_key s m).
Proof.
  intros fx db c1 c2 M Hwf Hq Hs Hc1 Hc2 Hid U1 U2 F1 F2 D1.
  set (k := next_id (map Bangumi.ID (tbl_bangumi db))).
  (* the first call creates *)
  destruct (Save_create_path fx db c1 Hwf Hs Hid F1 D1)
    as [row1 [mikan1 [tmdb1 [srows1 [HS1 [Hk1 [HM1 [_ [R1 Hwf1]]]]]]]]].
  fold k in Hk1, R1.
  rewrite (carries_mikan_written M c1 _ Hc1) in HM1.
  assert (Hq1 : First Bangumi.ID
                  (mikan_or_tmdb (extract_mikanID c1) (extract_tmdbID c1))
                  (tbl_bangumi db) = None) by (apply First_None; exact U1).
  set (db1 := mkDB (tbl_bangumi db ++ [row1]) mikan1 tmdb1
                   (tbl_meta db ++ srows1) (tbl_torrent db)) in *.
  (* the second call finds the row of the first *)
  assert (Hin1 : In row1 (tbl_bangumi db1)) by (apply in_or_app; right; now left).
  assert (Hq2 : First Bangumi.ID
                  (mikan_or_tmdb (extract_mikanID c2) (extract_tmdbID c2))
                  (tbl_bangumi db1) = Some row1).
  { apply First_only; [exact Hin1 | |].
    - unfold mikan_or_tmdb. rewrite HM1, Hc2. simpl. now rewrite Z.eqb_refl.
    - intros x Hx Hc. apply in_app_or in Hx. destruct Hx as [Hx|[<-|[]]]; auto.
      rewrite (U2 x Hx) in Hc. discriminate. }
  destruct (Save_merge_path fx db1 row1 c2 Hwf1 Hs Hin1 F2)
    as [row [mikan2 [tmdb2 [appended [srows2 [HS2 [HF [HM2 [_ [Hm [Hsub [R2 Hwf2]]]]]]]]]]]].
  assert (Hrow : Bangumi.ID row = k)
    by (unfold frame in HF; inversion HF; congruence).
  assert (Hfreshk : forall x, In x (tbl_bangumi db) -> Bangumi.ID x <> k).
  { intros x Hx E. apply (next_id_fresh (map Bangumi.ID (tbl_bangumi db))).
    fold k. rewrite <- E. now apply in_map. }
  assert (Hrows : map (fun x => if Bangumi.ID x =? Bangumi.ID row1 then row else x)
                      (tbl_bangumi db1) = tbl_bangumi db ++ [row]).
  { rewrite Hk1. now apply replace_last_row. }
  assert (Hpre : filter (fun m => EpisodeMetadata.BangumiID m =? k) (tbl_meta db1)
                 = srows1).
  { simpl. rewrite filter_owner_app.
    - rewrite filter_owner_none; [reflexivity|].
      intros m Hm' E.
      destruct (proj1 (in_map_iff _ _ _) (wf_meta_owner db Hwf m Hm'))
        as [x [Hx Hxin]].
      apply (Hfreshk x Hxin). congruence.
    - intros n Hn. destruct (Forall2_In_r _ _ _ _ R1 Hn) as [a [_ [i ->]]].
      now rewrite persist_BangumiID. }
  exists db1, (mkDB (tbl_bangumi db ++ [row]) mikan2 tmdb2
                    ((tbl_meta db ++ srows1) ++ srows2) (tbl_torrent db)), row.
  split; [rewrite (CreateBangumi_not_found fx db c1 Hq Hq1); exact HS1|].
  split.
  { rewrite (CreateBangumi_found fx db1 c2 row1 Hq Hq2)
      by (apply (wf_bangumi_nonzero db1 Hwf1); exact Hin1).
    rewrite HS2, Hrows. reflexivity. }
  split; [reflexivity|]. split; [intros ->; reflexivity|].
  split.
  { rewrite HM2.
    apply (proj1 (merged_MikanID db1 row1 c2 _)); [exact HM1 | apply Hc1]. }
  rewrite Hrows in Hwf2, HS2. rewrite Hk1 in Hm, R2.
  assert (Hstored :
            filter (fun m => EpisodeMetadata.BangumiID m =? Bangumi.ID row)
                   ((tbl_meta db ++ srows1) ++ srows2)
            = srows1 ++ srows2).
  { rewrite Hrow, filter_owner_app.
    - f_equal. exact Hpre.
    - intros n Hn. destruct (Forall2_In_r _ _ _ _ R2 Hn) as [a [_ [i ->]]].
      now rewrite persist_BangumiID. }
  simpl tbl_meta. rewrite Hstored.
  assert (Hseason : forall a, In a (Bangumi.EpisodeMetadata c1
                                    ++ Bangumi.EpisodeMetadata c2) ->
                              EpisodeMetadata.Season a <> 0).
  { intros a Ha. apply in_app_or in Ha.
    destruct Ha as [Ha|Ha];
      [apply (proj1 (Forall_forall _ _) F1 a Ha)
      | apply (proj1 (Forall_forall _ _) F2 a Ha)]. }
  split; [|split].
  - rewrite <- Hstored, Hrow. apply owned_distinct.
    exact (wf_meta_unique _ Hwf2).
  - intros m Hm'. pose proof (Hseason m Hm') as Hsm.
    apply in_app_or in Hm'. destruct Hm' as [Hm1|Hm2].
    + destruct (Forall2_In_l _ _ _ _ R1 Hm1) as [n [Hn [i ->]]].
      exists (persist i (EpisodeMetadata.with_BangumiID k m)).
      split; [apply in_or_app; now left | now apply agree_on_key_persist].
    + destruct (merge_EpisodeMetadata_covers k (Bangumi.EpisodeMetadata c2)
                  (filter (fun m => EpisodeMetadata.BangumiID m =? k) (tbl_meta db1))
                  m Hm2) as [e [He Hag]].
      rewrite Hm, Hpre in He. apply in_app_or in He. destruct He as [He|He].
      * exists e. split; [apply in_or_app; now left | exact Hag].
      * apply in_map_iff in He. destruct He as [a [<- Ha]].
        destruct (Forall2_In_l _ _ _ _ R2 Ha) as [n [Hn [i ->]]].
        exists (persist i (EpisodeMetadata.with_BangumiID k a)).
        split; [apply in_or_app; now right|].
        apply agree_on_key_trans with (EpisodeMetadata.with_BangumiID k a);
          [|exact Hag].
        apply (agree_on_key_persist i k (EpisodeMetadata.with_BangumiID k a)).
        change (EpisodeMetadata.Season a <> 0).
        apply Hseason. apply in_or_app. right. now apply Hsub.
  - intros s Hs'. apply in_app_or in Hs'. destruct Hs' as [Hs1|Hs2].
    + destruct (Forall2_In_r _ _ _ _ R1 Hs1) as [a [Ha [i ->]]].
      exists a. split; [apply in_or_app; now left|].
      apply agree_on_key_persist. apply Hseason. apply in_or_app; now left.
    + destruct (Forall2_In_r _ _ _ _ R2 Hs2) as [a [Ha [i ->]]].
      exists a. split; [apply in_or_app; right; now apply Hsub|].
      apply agree_on_key_persist. apply Hseason. apply in_or_app; right.
      now apply Hsub.
Qed.

Lemma emptyDB_wf : wf_db emptyDB.
Proof.
  constructor; simpl; try constructor; try (intros ? []); reflexivity.
Qed.

Lemma CreateBangumi_idempotent_merge_witness :
  let c1 := candidate None None (Some mikan_3141) None
              [entry "ABC" "1080p"; entry "ABC" "720p"] in
  let c2 := candidate (Some 3141) None None None
              [entry "ABC" "720p"; entry "XYZ" "1080p"] in
  exists db1 db2 row,
    CreateBangumi no_faults emptyDB c1 = (db1, None)
    /\ CreateBangumi no_faults db1 c2 = (db2, None)
    /\ tbl_bangumi db2 = [row]
    /\ Bangumi.MikanID row = Some 3141.
Proof.
  intros c1 c2.
  destruct (CreateBangumi_idempotent_merge no_faults emptyDB c1 c2 3141
              emptyDB_wf eq_refl eq_refl)
    as [db1 [db2 [row [H1 [H2 [_ [H4 [H5 _]]]]]]]].
  - split; [discriminate|]. split; [reflexivity|].
    intros it [= <-]. reflexivity.
  - reflexivity.
  - reflexivity.
  - intros x [].
  - intros x [].
  - repeat constructor; discriminate.
  - repeat constructor; discriminate.
  - reflexivity.
  - exists db1, db2, row. repeat split; auto.
Defined.

(** ** The discovery flow *)

Lemma fold_left_invariant {A B : Type} (f : B -> A -> B) (P : B -> Prop) (l : list A) :
  (forall st a, In a l -> P st -> P (f st a)) ->
  forall init, P init -> P (fold_left f l init).
Proof.
  induction l as [|a l IH]; intros Hstep init Hinit; simpl; [exact Hinit|].
  apply IH.
  - intros st b Hb. apply Hstep. now right.
  - apply Hstep; [now left | exact Hinit].
Qed.

Lemma map_set_In (m : list (string * Torrent.t)) (key : string) (t : Torrent.t)
  (kv : string * Torrent.t) :
  In kv (map_set m key t) -> kv = (key, t) \/ In kv m.
Proof.
  induction m as [|[k v] m IH]; simpl.
  - intros [<-|[]]. now left.
  - destruct (String.eqb k key).
    + intros [<-|H]; [now left | right; now right].
    + intros [<-|H]; [right; now left|].
      destruct (IH H); [now left | right; now right].
Qed.

Lemma GetBangumiParseByTitle_Err_no_match (fx : Faults) (db : DB)
  (torrentName : string) (e : error) :
  GetBangumiParseByTitle fx db torrentName = Err e ->
  fault_parse_by_title fx torrentName = None ->
  forall m, In m (tbl_meta db) ->
            ~ (is_substring (EpisodeMetadata.Title m) torrentName
               /\ is_substring (EpisodeMetadata.Group m) torrentName).
Proof.
  unfold GetBangumiParseByTitle. intros H Hfx. rewrite Hfx in H.
  destruct (First _ _ _) eqn:E; [discriminate|].
  intros m Hm Hsub. apply title_and_group_in_true in Hsub.
  rewrite (proj1 (First_None _ _ _) E m Hm) in Hsub. discriminate.
Qed.

Lemma GetBangumiParseByTitle_Err_iff (fx : Faults) (db : DB) (torrentName : string) :
  (exists e, GetBangumiParseByTitle fx db torrentName = Err e)
  <-> fault_parse_by_title fx torrentName <> None
      \/ (forall m, In m (tbl_meta db) ->
                    ~ (is_substring (EpisodeMetadata.Title m) torrentName
                       /\ is_substring (EpisodeMetadata.Group m) torrentName)).
Proof.
  split.
  - intros [e He]. destruct (fault_parse_by_title fx torrentName) as [msg|] eqn:Hfx.
    + left. discriminate.
    + right. exact (GetBangumiParseByTitle_Err_no_match fx db torrentName e He Hfx).
  - unfold GetBangumiParseByTitle.
    destruct (fault_parse_by_title fx torrentName) as [msg|];
      [intros _; now exists (ErrStorage msg)|].
    intros [H|H]; [now destruct H|].
    assert (E : First EpisodeMetadata.ID (title_and_group_in torrentName)
                  (tbl_meta db) = None).
    { apply First_None. intros m Hm.
      destruct (title_and_group_in torrentName m) eqn:C; [|reflexivity].
      apply title_and_group_in_true in C. now destruct (H m Hm). }
    rewrite E. now exists ErrRecordNotFound.
Qed.

(** The parser calls of the first loop of FindNewBangumi. *)
Lemma FindNewBangumi_loop_parses
  (FilterTorrent : Torrent.t -> option Bangumi.t -> bool)
  (ParsedTitle : Type) (ParsedTitle_Title : ParsedTitle -> string)
  (Parse : string -> option ParsedTitle) (fx : Faults) (db : DB)
  (torrentName : string) (torrents : list Torrent.t) :
  forall st,
    In (CallParse torrentName)
       (snd (fold_left
               (FindNewBangumi_step FilterTorrent ParsedTitle ParsedTitle_Title
                  Parse fx db) torrents st))
    <-> In (CallParse torrentName) (snd st)
        \/ exists t, In t torrents /\ Torrent.Name t = torrentName
                     /\ (exists e, GetBangumiParseByTitle fx db (Torrent.Name t) = Err e)
                     /\ FilterTorrent t None = true.
Proof.
  induction torrents as [|x torrents IH]; intros st; simpl fold_left.
  - split; [now left | intros [H|[t [[] _]]]; exact H].
  - rewrite IH. clear IH.
    assert (Hstep :
      In (CallParse torrentName)
         (snd (FindNewBangumi_step FilterTorrent ParsedTitle ParsedTitle_Title
                 Parse fx db st x))
      <-> In (CallParse torrentName) (snd st)
          \/ (Torrent.Name x = torrentName
              /\ (exists e, GetBangumiParseByTitle fx db (Torrent.Name x) = Err e)
              /\ FilterTorrent x None = true)).
    { destruct st as [m cs]. unfold FindNewBangumi_step.
      destruct (GetBangumiParseByTitle fx db (Torrent.Name x)) as [parser|e].
      - simpl. split; [now left | intros [H|[_ [[e He] _]]]; [exact H | discriminate]].
      - destruct (FilterTorrent x None).
        + assert (Hin : In (CallParse torrentName) (cs ++ [CallParse (Torrent.Name x)])
                        <-> In (CallParse torrentName) cs
                            \/ Torrent.Name x = torrentName).
          { rewrite in_app_iff. simpl. split.
            - intros [H|[[= H]|[]]]; auto.
            - intros [H| ->]; auto. }
          destruct (Parse (Torrent.Name x)); simpl; rewrite Hin; split.
          * intros [H|H]; [now left | right; split; [exact H | split; [now exists e | reflexivity]]].
          * intros [H|[H _]]; auto.
          * intros [H|H]; [now left | right; split; [exact H | split; [now exists e | reflexivity]]].
          * intros [H|[H _]]; auto.
        + simpl. split; [now left | intros [H|[_ [_ H]]]; [exact H | discriminate]]. }
    rewrite Hstep. split.
    + intros [[H|[Hn [He Hf]]]|[t [Hin H]]].
      * now left.
      * right. exists x. split; [now left | now split].
      * right. exists t. split; [now right | exact H].
    + intros [H|[t [[<-|Hin] H]]].
      * left. now left.
      * left. right. exact H.
      * right. exists t. now split.
Qed.

(** The claim C9 as it is worded fails when the lookup itself fails.  Line
    47 tests [err != nil]: a storage fault of GetBangumiParseByTitle is
    taken for not-found.  The store holds metadata {Frieren, ABC}, which
    both pulled releases match; with the lookup failing, both are handed to
    the title parser and a resolution task is started. *)
Lemma FindNewBangumi_parses_on_lookup_fault :
  let fx := mkFaults None None (fun _ => Some "database is locked")
              (fun _ => None) (fun _ => None) in
  let url := "https://mikanani.me/RSS" in
  let calls :=
    FindNewBangumi feed_of_two (fun _ _ => true) string (fun s => s)
      (fun _ => Some "Frieren") fx frieren_store url in
  GetBangumiParseByTitle no_faults frieren_store (Torrent.Name release_05)
  = Ok frieren_ABC
  /\ GetBangumiParseByTitle no_faults frieren_store (Torrent.Name release_06)
     = Ok frieren_ABC
  /\ calls = [CallParse (Torrent.Name release_05);
              CallParse (Torrent.Name release_06);
              CallCreateBangumi release_06 url].
Proof. split; [|split]; reflexivity. Qed.

(** C9, amended.  FindNewBangumi calls the title parser for a pulled release
    if and only if GetBangumiParseByTitle returned an error for its raw name
    and FilterTorrent accepted it.  The lookup returns an error exactly when
    it fails with a storage fault or no stored record has its title and
    group in the name: line 47 does not tell the two apart, so only when
    the lookup does not fail is the parser reserved to names that match no
    stored metadata.  Every resolution task is started for a pulled release
    whose lookup returned an error, which FilterTorrent accepted and which
    the parser was called on and could parse. *)
Theorem FindNewBangumi_fast_slow_split :
  forall (GetTorrents : string -> list Torrent.t * option error)
         (FilterTorrent : Torrent.t -> option Bangumi.t -> bool)
         (ParsedTitle : Type) (ParsedTitle_Title : ParsedTitle -> string)
         (Parse : string -> option ParsedTitle)
         (fx : Faults) (db : DB) (url : string),
    let calls :=
      FindNewBangumi GetTorrents FilterTorrent ParsedTitle ParsedTitle_Title
        Parse fx db url in
    let lookup_failed t :=
      exists e, GetBangumiParseByTitle fx db (Torrent.Name t) = Err e in
    let no_stored_match t :=
      forall m, In m (tbl_meta db) ->
                ~ (is_substring (EpisodeMetadata.Title m) (Torrent.Name t)
                   /\ is_substring (EpisodeMetadata.Group m) (Torrent.Name t)) in
    (forall torrentName,
        In (CallParse torrentName) calls
        <-> exists t, In t (fst (GetTorrents url))
                      /\ Torrent.Name t = torrentName
                      /\ lookup_failed t /\ FilterTorrent t None = true)
    /\ (forall t,
           lookup_failed t
           <-> fault_parse_by_title fx (Torrent.Name t) <> None
               \/ no_stored_match t)
    /\ (forall t,
           fault_parse_by_title fx (Torrent.Name t) = None ->
           In (CallParse (Torrent.Name t)) calls -> no_stored_match t)
    /\ (forall t u,
           In (CallCreateBangumi t u) calls ->
           u = url /\ In t (fst (GetTorrents url))
           /\ lookup_failed t /\ FilterTorrent t None = true
           /\ Parse (Torrent.Name t) <> None
           /\ In (CallParse (Torrent.Name t)) calls).
Proof.
  intros GetTorrents FilterTorrent ParsedTitle ParsedTitle_Title Parse fx db url
         calls lookup_failed no_stored_match.
  assert (Hparse : forall torrentName,
             In (CallParse torrentName) calls
             <-> exists t, In t (fst (GetTorrents url))
                           /\ Torrent.Name t = torrentName
                           /\ lookup_failed t /\ FilterTorrent t None = true).
  { intros torrentName. unfold calls, FindNewBangumi.
    destruct (GetTorrents url) as [torrents gerr]. simpl fst.
    pose proof (FindNewBangumi_loop_parses FilterTorrent ParsedTitle
                  ParsedTitle_Title Parse fx db torrentName torrents ([], []))
      as H.
    destruct (fold_left _ torrents ([], [])) as [newTorrents cs].
    simpl snd in H. rewrite in_app_iff. split.
    - intros [Hc|Hc].
      + apply H in Hc. destruct Hc as [[]|Hc]. exact Hc.
      + apply in_map_iff in Hc. destruct Hc as [kv [Hkv _]]. discriminate.
    - intros Ht. left. apply H. now right. }
  split; [exact Hparse|]. split; [|split].
  - intros t. apply GetBangumiParseByTitle_Err_iff.
  - intros t Hfx Hc. apply Hparse in Hc.
    destruct Hc as [t' [_ [Hn [[e He] _]]]]. rewrite Hn in He.
    exact (GetBangumiParseByTitle_Err_no_match fx db _ e He Hfx).
  - intros t u Hin.
    assert (Hdispatch :
              u = url /\ In t (fst (GetTorrents url))
              /\ lookup_failed t /\ FilterTorrent t None = true
              /\ Parse (Torrent.Name t) <> None).
    { revert Hin. unfold calls, FindNewBangumi.
      destruct (GetTorrents url) as [torrents gerr]. simpl fst.
      set (step := FindNewBangumi_step FilterTorrent ParsedTitle ParsedTitle_Title
                     Parse fx db).
      set (Inv := fun st : list (string * Torrent.t) * list call =>
                    (forall c, In c (snd st) -> exists n, c = CallParse n)
                    /\ (forall kv, In kv (fst st) ->
                                   In (snd kv) torrents /\ lookup_failed (snd kv)
                                   /\ FilterTorrent (snd kv) None = true
                                   /\ Parse (Torrent.Name (snd kv)) <> None)).
      assert (HInv : Inv (fold_left step torrents ([], []))).
      { apply fold_left_invariant.
        - intros [m cs] x Hx [Hc Hn]. unfold step, FindNewBangumi_step.
          destruct (GetBangumiParseByTitle fx db (Torrent.Name x)) as [p|e] eqn:EQ;
            [split; assumption|].
          destruct (FilterTorrent x None) eqn:EF; [|split; assumption].
          assert (Hcs : forall c, In c (cs ++ [CallParse (Torrent.Name x)]) ->
                                  exists n, c = CallParse n).
          { intros c Hc'. apply in_app_or in Hc'.
            destruct Hc' as [Hc'|[<-|[]]]; [now apply Hc | now eexists]. }
          destruct (Parse (Torrent.Name x)) as [raw|] eqn:EP; simpl.
          + split; [exact Hcs|]. intros kv Hkv. apply map_set_In in Hkv.
            destruct Hkv as [->|Hkv]; simpl.
            * split; [exact Hx|]. split; [exists e; exact EQ|].
              split; [exact EF | congruence].
            * exact (Hn kv Hkv).
          + split; [exact Hcs | exact Hn].
        - split; intros ? []. }
      destruct (fold_left step torrents ([], [])) as [newTorrents cs].
      destruct HInv as [Hc Hn]. simpl in Hc, Hn.
      intros Hin. apply in_app_or in Hin. destruct Hin as [Hin|Hin].
      - destruct (Hc _ Hin) as [n Hn']. discriminate.
      - apply in_map_iff in Hin. destruct Hin as [kv [[= <- <-] Hkv]].
        split; [reflexivity | exact (Hn kv Hkv)]. }
    destruct Hdispatch as [Hu [Ht [Hl [Hf Hp]]]].
    split; [exact Hu|]. split; [exact Ht|]. split; [exact Hl|].
    split; [exact Hf|]. split; [exact Hp|].
    apply Hparse. exists t. split; [exact Ht|]. split; [reflexivity|].
    split; [exact Hl | exact Hf].
Qed.

Lemma FindNewBangumi_fast_slow_split_witness :
  let calls :=
    FindNewBangumi feed_of_two (fun _ _ => true) string (fun s => s)
      (fun _ => Some "Frieren") no_faults emptyDB "https://mikanani.me/RSS" in
  In (CallCreateBangumi release_06 "https://mikanani.me/RSS") calls
  /\ In (CallParse (Torrent.Name release_06)) calls
  /\ forall m, In m (tbl_meta emptyDB) ->
               ~ (is_substring (EpisodeMetadata.Title m) (Torrent.Name release_06)
                  /\ is_substring (EpisodeMetadata.Group m) (Torrent.Name release_06)).
Proof.
  intros calls.
  assert (H : In (CallCreateBangumi release_06 "https://mikanani.me/RSS") calls)
    by (right; right; left; reflexivity).
  destruct (FindNewBangumi_fast_slow_split feed_of_two (fun _ _ => true) string
              (fun s => s) (fun _ => Some "Frieren") no_faults emptyDB
              "https://mikanani.me/RSS") as [_ [_ [Hno Hd]]].
  destruct (Hd release_06 "https://mikanani.me/RSS" H) as [_ [_ [_ [_ [_ Hc]]]]].
  split; [exact H|]. split; [exact Hc|].
  exact (Hno release_06 eq_refl Hc).
Defined.

(** ** The fast-attach flow *)

Lemma RefreshRSS_step_meta (fx : Faults) (st : DB * list Torrent.t) (t : Torrent.t) :
  tbl_meta (fst (RefreshRSS_step fx st t)) = tbl_meta (fst st).
Proof.
  destruct st as [db q]. unfold RefreshRSS_step.
  destruct (GetBangumiParseByTitle fx db (Torrent.Name t)); [|reflexivity].
  assert (H : forall x, tbl_meta (fst (CreateTorrent fx db x)) = tbl_meta db).
  { intros x. unfold CreateTorrent. now destruct (fault_save_torrent fx _). }
  destruct (GetTorrentByURL fx db _) as [existing|e]; [|apply H].
  destruct (Torrent.Downloaded existing); [reflexivity | apply H].
Qed.

Lemma GetBangumiParseByTitle_meta (fx : Faults) (db db' : DB) (torrentName : string) :
  tbl_meta db' = tbl_meta db ->
  GetBangumiParseByTitle fx db' torrentName = GetBangumiParseByTitle fx db torrentName.
Proof. intros H. unfold GetBangumiParseByTitle. now rewrite H. Qed.

Lemma RefreshRSS_step_queue (fx : Faults) (st : DB * list Torrent.t) (t x : Torrent.t) :
  In x (snd st) -> In x (snd (RefreshRSS_step fx st t)).
Proof.
  destruct st as [db q]. unfold RefreshRSS_step. simpl. intros Hx.
  destruct (GetBangumiParseByTitle fx db (Torrent.Name t)); [|exact Hx].
  destruct (GetTorrentByURL fx db _) as [existing|e];
    [destruct (Torrent.Downloaded existing); [exact Hx|]|];
    simpl; apply in_or_app; now left.
Qed.

Lemma RefreshRSS_loop_queue (fx : Faults) (torrents : list Torrent.t) :
  forall st x, In x (snd st) -> In x (snd (RefreshRSS_loop fx torrents st)).
Proof.
  induction torrents as [|t torrents IH]; intros st x Hx; [exact Hx|].
  apply IH. now apply RefreshRSS_step_queue.
Qed.

Lemma save_row_Torrent_In (tbl : list Torrent.t) (torrent x : Torrent.t) :
  In x (save_row_Torrent tbl torrent) -> x = torrent \/ In x tbl.
Proof.
  unfold save_row_Torrent. destruct (existsb _ tbl).
  - intros H. apply in_map_iff in H. destruct H as [y [Hy Hin]].
    destruct (String.eqb (Torrent.URL y) (Torrent.URL torrent));
      [left; congruence | right; congruence].
  - intros H. apply in_app_or in H. destruct H as [H|[<-|[]]]; auto.
Qed.

Lemma RefreshRSS_step_torrents (fx : Faults) (st : DB * list Torrent.t)
  (t x : Torrent.t) :
  In x (tbl_torrent (fst (RefreshRSS_step fx st t))) ->
  In x (tbl_torrent (fst st))
  \/ (Torrent.URL x = Torrent.URL t /\ Torrent.Downloaded x = Torrent.Downloaded t).
Proof.
  destruct st as [db q]. unfold RefreshRSS_step. simpl.
  destruct (GetBangumiParseByTitle fx db (Torrent.Name t)) as [m|]; [|now left].
  assert (H : forall s, Torrent.URL s = Torrent.URL t ->
                        Torrent.Downloaded s = Torrent.Downloaded t ->
                        In x (tbl_torrent (fst (CreateTorrent fx db s))) ->
                        In x (tbl_torrent db)
                        \/ (Torrent.URL x = Torrent.URL t
                            /\ Torrent.Downloaded x = Torrent.Downloaded t)).
  { intros s Hu Hd. unfold CreateTorrent.
    destruct (fault_save_torrent fx _); simpl; [now left|].
    intros Hx. apply save_row_Torrent_In in Hx.
    destruct Hx as [->|Hx]; [right; now split | now left]. }
  destruct (GetTorrentByURL fx db _) as [existing|e];
    [destruct (Torrent.Downloaded existing); [now left|]|];
    simpl; now apply H.
Qed.

(** A release whose metadata is found and whose URL is not stored as
    downloaded is written and enqueued by its iteration. *)
Lemma RefreshRSS_step_enqueues (fx : Faults) (db : DB) (q : list Torrent.t)
  (t : Torrent.t) (metaData : EpisodeMetadata.t) :
  GetBangumiParseByTitle fx db (Torrent.Name t) = Ok metaData ->
  (forall x, In x (tbl_torrent db) -> Torrent.URL x = Torrent.URL t ->
             Torrent.Downloaded x = false) ->
  In (Torrent.with_BangumiID (EpisodeMetadata.BangumiID metaData) t)
     (snd (RefreshRSS_step fx (db, q) t)).
Proof.
  intros Hm Hnd. unfold RefreshRSS_step. rewrite Hm.
  destruct (GetTorrentByURL fx db _) as [existing|e] eqn:EG.
  - unfold GetTorrentByURL in EG.
    destruct (fault_torrent_by_url fx _); [discriminate|].
    destruct (find _ (tbl_torrent db)) as [x|] eqn:EF; [|discriminate].
    injection EG as <-. apply find_some in EF. destruct EF as [Hin Hu].
    apply String.eqb_eq in Hu. rewrite (Hnd x Hin Hu).
    simpl. apply in_or_app. right. now left.
  - simpl. apply in_or_app. right. now left.
Qed.

Lemma RefreshRSS_loop_enqueues (fx : Faults) (torrents : list Torrent.t) :
  forall (st : DB * list Torrent.t) (t : Torrent.t) (metaData : EpisodeMetadata.t),
    In t torrents ->
    GetBangumiParseByTitle fx (fst st) (Torrent.Name t) = Ok metaData ->
    (forall x, In x (tbl_torrent (fst st)) \/ In x torrents ->
               Torrent.URL x = Torrent.URL t -> Torrent.Downloaded x = false) ->
    In (Torrent.with_BangumiID (EpisodeMetadata.BangumiID metaData) t)
       (snd (RefreshRSS_loop fx torrents st)).
Proof.
  induction torrents as [|s torrents IH]; intros st t metaData Hin Hm Hnd;
    [destruct Hin|].
  simpl. destruct Hin as [->|Hin].
  - apply RefreshRSS_loop_queue. destruct st as [db q].
    apply RefreshRSS_step_enqueues; [exact Hm|].
    intros x Hx. apply Hnd. now left.
  - apply IH; [exact Hin | |].
    + rewrite <- Hm. apply GetBangumiParseByTitle_meta. apply RefreshRSS_step_meta.
    + intros x [Hx|Hx] Hu; [|apply Hnd; [right; now right | exact Hu]].
      apply RefreshRSS_step_torrents in Hx. destruct Hx as [Hx|[Hus Hds]].
      * apply Hnd; [now left | exact Hu].
      * rewrite Hds. apply Hnd; [right; now left | congruence].
Qed.

(** The claim C8 as it is worded fails: a fault of the existence check for
    one release while the pull is filtered (CheckNewTorrents) discards the
    whole pull, and the other release, whose own queries succeed, is neither
    written nor enqueued; without the fault both are. *)
Lemma RefreshRSS_pull_aborted_by_one_fault :
  let url := "https://mikanani.me/RSS" in
  let fx := fault_on_url (Torrent.URL release_05) in
  RefreshRSS feed_of_two fx frieren_store [] url = (frieren_store, [])
  /\ GetBangumiParseByTitle fx frieren_store (Torrent.Name release_06)
     = Ok frieren_ABC
  /\ GetTorrentByURL fx frieren_store (Torrent.URL release_06)
     = Err ErrRecordNotFound
  /\ map Torrent.Name (snd (RefreshRSS feed_of_two no_faults frieren_store [] url))
     = [Torrent.Name release_05; Torrent.Name release_06].
Proof. repeat split. Qed.

(** C8, amended.  In the loop of RefreshRSS no failure on one release stops
    the loop: whatever the faults of the storage layer and whatever happens
    to the other releases of the list, the iteration of each release is run
    on the state its predecessors left, and a release whose metadata is
    found and whose URL no stored or pulled release marks as downloaded is
    enqueued with the entity's ID.  A storage fault while the pull is being
    filtered is outside this guarantee. *)
Theorem RefreshRSS_loop_isolation :
  forall (fx : Faults) (torrents : list Torrent.t) (db : DB)
         (DQueue : list Torrent.t) (t : Torrent.t) (metaData : EpisodeMetadata.t),
    In t torrents ->
    GetBangumiParseByTitle fx db (Torrent.Name t) = Ok metaData ->
    (forall x, In x (tbl_torrent db) \/ In x torrents ->
               Torrent.URL x = Torrent.URL t -> Torrent.Downloaded x = false) ->
    In (Torrent.with_BangumiID (EpisodeMetadata.BangumiID metaData) t)
       (snd (RefreshRSS_loop fx torrents (db, DQueue)))
    /\ (forall before after,
           torrents = before ++ t :: after ->
           RefreshRSS_loop fx torrents (db, DQueue)
           = RefreshRSS_loop fx after
               (RefreshRSS_step fx (RefreshRSS_loop fx before (db, DQueue)) t)).
Proof.
  intros fx torrents db DQueue t metaData Hin Hm Hnd. split.
  - now apply (RefreshRSS_loop_enqueues fx torrents (db, DQueue) t metaData).
  - intros before after ->. unfold RefreshRSS_loop.
    now rewrite fold_left_app.
Qed.

Lemma RefreshRSS_loop_isolation_witness :
  let fx := mkFaults None None
              (fun n => if String.eqb n (Torrent.Name release_05)
                        then Some "disk I/O error" else None)
              (fun _ => Some "database is locked") (fun _ => Some "disk full") in
  In (Torrent.with_BangumiID 1 release_06)
     (snd (RefreshRSS_loop fx [release_05; release_06] (frieren_store, []))).
Proof.
  intros fx.
  apply (RefreshRSS_loop_isolation fx [release_05; release_06] frieren_store []
           release_06 frieren_ABC).
  - right; now left.
  - reflexivity.
  - intros x [[]|[<-|[<-|[]]]] _; reflexivity.
Defined.

(** ** Concurrent callers *)























(* ================================================================== *)
(** * Further properties *)
(* ================================================================== *)

(** ** CheckNewTorrents *)

Lemma GetTorrentByURL_no_fault (fx : Faults) (db : DB) (url : string) :
  fault_torrent_by_url fx url = None ->
  GetTorrentByURL fx db url
  = match find (fun t => String.eqb (Torrent.URL t) url) (tbl_torrent db) with
    | Some torrent => Ok torrent
    | None => Err ErrRecordNotFound
    end.
Proof. intros H. unfold GetTorrentByURL. now rewrite H. Qed.

Lemma CheckNewTorrents_from_filter (fx : Faults) (db : DB) (torrents : list Torrent.t) :
  forall newTorrents,
    (forall t, In t torrents -> fault_torrent_by_url fx (Torrent.URL t) = None) ->
    CheckNewTorrents_from fx db newTorrents torrents
    = Ok (newTorrents
          ++ filter (fun t => negb (stored_downloaded db (Torrent.URL t))) torrents).
Proof.
  induction torrents as [|t torrents IH]; intros newTorrents Hfx; simpl.
  - now rewrite app_nil_r.
  - rewrite (GetTorrentByURL_no_fault fx db _ (Hfx t (or_introl eq_refl))).
    unfold stored_downloaded.
    destruct (find _ (tbl_torrent db)) as [existing|].
    + destruct (Torrent.Downloaded existing); simpl.
      * apply IH. intros x Hx. apply Hfx. now right.
      * rewrite IH by (intros x Hx; apply Hfx; now right).
        now rewrite <- app_assoc.
    + simpl. rewrite IH by (intros x Hx; apply Hfx; now right).
      now rewrite <- app_assoc.
Qed.

(** X1. When no existence check fails, CheckNewTorrents returns, in the
    order of its input, exactly the releases whose URL the store does not
    mark as downloaded; the empty list gives the empty list. *)
Theorem CheckNewTorrents_not_downloaded :
  forall (fx : Faults) (db : DB) (torrents : list Torrent.t),
    (forall t, In t torrents -> fault_torrent_by_url fx (Torrent.URL t) = None) ->
    CheckNewTorrents fx db torrents
    = Ok (filter (fun t => negb (stored_downloaded db (Torrent.URL t))) torrents).
Proof.
  intros fx db torrents Hfx. unfold CheckNewTorrents.
  now rewrite CheckNewTorrents_from_filter.
Qed.

Lemma CheckNewTorrents_not_downloaded_witness :
  CheckNewTorrents no_faults
    (mkDB [] [] [] []
       [Torrent.mk "[ABC] Frieren - 05 [1080p]" "https://mikanani.me/t/05" true 1 ""])
    [release_05; release_06]
  = Ok [release_06].
Proof.
  apply (CheckNewTorrents_not_downloaded no_faults). intros t _. reflexivity.
Defined.

Lemma CheckNewTorrents_from_fault (fx : Faults) (db : DB) (before : list Torrent.t) :
  forall newTorrents t after msg,
    (forall x, In x before -> fault_torrent_by_url fx (Torrent.URL x) = None) ->
    fault_torrent_by_url fx (Torrent.URL t) = Some msg ->
    CheckNewTorrents_from fx db newTorrents (before ++ t :: after)
    = Err (ErrStorage msg).
Proof.
  induction before as [|b before IH]; intros newTorrents t after msg Hb Ht; simpl.
  - unfold GetTorrentByURL. now rewrite Ht.
  - rewrite (GetTorrentByURL_no_fault fx db _ (Hb b (or_introl eq_refl))).
    assert (Hb' : forall x, In x before ->
                            fault_torrent_by_url fx (Torrent.URL x) = None)
      by (intros x Hx; apply Hb; now right).
    destruct (find _ (tbl_torrent db)) as [existing|];
      [destruct (Torrent.Downloaded existing)|]; simpl; now apply IH.
Qed.

(** X2. CheckNewTorrents returns the error of the first existence check that
    fails with a storage fault, and no list, whatever the releases before
    and after it are. *)
Theorem CheckNewTorrents_first_fault :
  forall (fx : Faults) (db : DB) (before after : list Torrent.t) (t : Torrent.t)
         (msg : string),
    (forall x, In x before -> fault_torrent_by_url fx (Torrent.URL x) = None) ->
    fault_torrent_by_url fx (Torrent.URL t) = Some msg ->
    CheckNewTorrents fx db (before ++ t :: after) = Err (ErrStorage msg).
Proof.
  intros fx db before after t msg Hb Ht. unfold CheckNewTorrents.
  now apply CheckNewTorrents_from_fault.
Qed.

Lemma CheckNewTorrents_first_fault_witness :
  CheckNewTorrents (fault_on_url (Torrent.URL release_06)) emptyDB
    ([release_05] ++ release_06 :: [release_05])
  = Err (ErrStorage "database is locked").
Proof.
  apply CheckNewTorrents_first_fault.
  - intros x [<-|[]]. reflexivity.
  - reflexivity.
Defined.

(** ** Torrents: write and read back *)

Lemma find_save_row_Torrent_same (tbl : list Torrent.t) (torrent : Torrent.t) :
  find (fun t => String.eqb (Torrent.URL t) (Torrent.URL torrent))
       (save_row_Torrent tbl torrent) = Some torrent.
Proof.
  unfold save_row_Torrent.
  destruct (existsb _ tbl) eqn:E.
  - induction tbl as [|r tbl IH]; simpl in *; [discriminate|].
    destruct (String.eqb (Torrent.URL r) (Torrent.URL torrent)) eqn:Er; simpl.
    + now rewrite String.eqb_refl.
    + rewrite Er. apply IH. exact E.
  - induction tbl as [|r tbl IH]; simpl in *.
    + now rewrite String.eqb_refl.
    + apply orb_false_iff in E. destruct E as [Er E]. rewrite Er. now apply IH.
Qed.

Lemma find_save_row_Torrent_other (tbl : list Torrent.t) (torrent : Torrent.t)
  (url : string) :
  url <> Torrent.URL torrent ->
  find (fun t => String.eqb (Torrent.URL t) url) (save_row_Torrent tbl torrent)
  = find (fun t => String.eqb (Torrent.URL t) url) tbl.
Proof.
  intros Hne. apply not_eq_sym in Hne. apply String.eqb_neq in Hne.
  unfold save_row_Torrent. destruct (existsb _ tbl).
  - induction tbl as [|r tbl IH]; simpl; [reflexivity|].
    destruct (String.eqb (Torrent.URL r) (Torrent.URL torrent)) eqn:Er.
    + apply String.eqb_eq in Er. rewrite Er, Hne. exact IH.
    + destruct (String.eqb (Torrent.URL r) url); [reflexivity | exact IH].
  - induction tbl as [|r tbl IH]; simpl.
    + now rewrite Hne.
    + destruct (String.eqb (Torrent.URL r) url); [reflexivity | exact IH].
Qed.

(** X3. A release written by CreateTorrent is what GetTorrentByURL returns
    for its URL, and the answer for every other URL is the one before the
    write. *)
Theorem CreateTorrent_GetTorrentByURL :
  forall (fx : Faults) (db : DB) (torrent : Torrent.t),
    fault_save_torrent fx (Torrent.URL torrent) = None ->
    fault_torrent_by_url fx (Torrent.URL torrent) = None ->
    GetTorrentByURL fx (fst (CreateTorrent fx db torrent)) (Torrent.URL torrent)
    = Ok torrent
    /\ (forall url, url <> Torrent.URL torrent ->
          GetTorrentByURL fx (fst (CreateTorrent fx db torrent)) url
          = GetTorrentByURL fx db url).
Proof.
  intros fx db torrent Hs Hg. unfold CreateTorrent. rewrite Hs. simpl. split.
  - rewrite GetTorrentByURL_no_fault by exact Hg. simpl.
    now rewrite find_save_row_Torrent_same.
  - intros url Hne. unfold GetTorrentByURL. simpl.
    now rewrite find_save_row_Torrent_other.
Qed.

Lemma CreateTorrent_GetTorrentByURL_witness :
  GetTorrentByURL no_faults
    (fst (CreateTorrent no_faults
            (fst (CreateTorrent no_faults emptyDB release_05))
            (Torrent.with_BangumiID 7 release_05)))
    (Torrent.URL release_05)
  = Ok (Torrent.with_BangumiID 7 release_05).
Proof.
  exact (proj1 (CreateTorrent_GetTorrentByURL no_faults
                  (fst (CreateTorrent no_faults emptyDB release_05))
                  (Torrent.with_BangumiID 7 release_05) eq_refl eq_refl)).
Defined.

(** X4. Once a release is written as downloaded, CheckNewTorrents no longer
    returns any release of that URL; written as not downloaded, a pulled
    release of that URL is returned. *)
Theorem CheckNewTorrents_after_CreateTorrent :
  forall (fx : Faults) (db : DB) (torrent : Torrent.t) (torrents news : list Torrent.t),
    fault_save_torrent fx (Torrent.URL torrent) = None ->
    (forall t, In t torrents -> fault_torrent_by_url fx (Torrent.URL t) = None) ->
    CheckNewTorrents fx (fst (CreateTorrent fx db torrent)) torrents = Ok news ->
    forall t, Torrent.URL t = Torrent.URL torrent ->
              (In t news <-> In t torrents /\ Torrent.Downloaded torrent = false).
Proof.
  intros fx db torrent torrents news Hs Hfx Hcheck t Hu.
  unfold CheckNewTorrents in Hcheck.
  rewrite (CheckNewTorrents_from_filter fx _ torrents [] Hfx) in Hcheck.
  cbn [app] in Hcheck.
  injection Hcheck as <-. rewrite filter_In.
  unfold stored_downloaded, CreateTorrent. rewrite Hs. simpl.
  rewrite Hu, find_save_row_Torrent_same.
  destruct (Torrent.Downloaded torrent); simpl; intuition congruence.
Qed.

Lemma CheckNewTorrents_after_CreateTorrent_witness :
  let done := Torrent.mk (Torrent.Name release_05) (Torrent.URL release_05)
                true 1 "" in
  let db := fst (CreateTorrent no_faults emptyDB done) in
  CheckNewTorrents no_faults db [release_05; release_06] = Ok [release_06]
  /\ (In release_05 [release_06]
      <-> In release_05 [release_05; release_06]
          /\ Torrent.Downloaded done = false).
Proof.
  intros done db. split; [reflexivity|].
  exact (CheckNewTorrents_after_CreateTorrent no_faults emptyDB done
           [release_05; release_06] [release_06] eq_refl
           (fun _ _ => eq_refl) eq_refl release_05 eq_refl).
Defined.

(** ** The tie-break of the title match index *)

(** X5. When several stored records have their title and group in the
    release name, GetBangumiParseByTitle returns the one with the least
    primary key. *)
Theorem GetBangumiParseByTitle_least_key :
  forall (fx : Faults) (db : DB) (torrentName : string)
         (parser m : EpisodeMetadata.t),
    GetBangumiParseByTitle fx db torrentName = Ok parser ->
    In m (tbl_meta db) ->
    is_substring (EpisodeMetadata.Title m) torrentName ->
    is_substring (EpisodeMetadata.Group m) torrentName ->
    EpisodeMetadata.ID parser <= EpisodeMetadata.ID m.
Proof.
  intros fx db torrentName parser m H Hin Ht Hg.
  unfold GetBangumiParseByTitle in H.
  destruct (fault_parse_by_title fx torrentName); [discriminate|].
  destruct (First _ _ _) as [p|] eqn:E; [|discriminate].
  injection H as <-.
  apply (First_least _ _ _ _ E m Hin).
  apply title_and_group_in_true. now split.
Qed.

Lemma GetBangumiParseByTitle_least_key_witness :
  let other := EpisodeMetadata.mk 9 "Frieren" 1 "" 0 "" "" "" "" "" "" "" "" 2 in
  let db := mkDB [] [] [] [other; frieren_ABC] [] in
  GetBangumiParseByTitle no_faults db "[ABC] Frieren - 05 [1080p]" = Ok frieren_ABC
  /\ EpisodeMetadata.ID frieren_ABC <= EpisodeMetadata.ID other.
Proof.
  intros other db. split; [reflexivity|].
  apply (GetBangumiParseByTitle_least_key no_faults db
           "[ABC] Frieren - 05 [1080p]" frieren_ABC other eq_refl).
  - now left.
  - now exists "[ABC] ", " - 05 [1080p]".
  - now exists "", "[ABC] Frieren - 05 [1080p]".
Defined.

(** ** CreateBangumi keeps the store well formed *)

Lemma save_row_Bangumi_keys (tbl : list Bangumi.t) (b : Bangumi.t) :
  NoDup (map Bangumi.ID tbl) ->
  (forall r, In r tbl -> Bangumi.ID r <> 0) ->
  let rows := fst (save_row_Bangumi tbl b) in
  NoDup (map Bangumi.ID rows)
  /\ (forall r, In r rows -> Bangumi.ID r <> 0)
  /\ (forall i, In i (map Bangumi.ID tbl) -> In i (map Bangumi.ID rows))
  /\ In (Bangumi.ID (snd (save_row_Bangumi tbl b))) (map Bangumi.ID rows)
  /\ Bangumi.EpisodeMetadata (snd (save_row_Bangumi tbl b))
     = Bangumi.EpisodeMetadata b.
Proof.
  intros Hnd Hnz. unfold save_row_Bangumi.
  destruct (create_defaults_Bangumi_fields b) as [DI [_ [_ DE]]].
  destruct (Bangumi.ID b =? 0) eqn:E0; simpl.
  - pose proof (next_id_above (map Bangumi.ID tbl)) as [Hpos _].
    pose proof (next_id_fresh (map Bangumi.ID tbl)) as Hfresh.
    rewrite map_app. simpl. repeat split.
    + apply NoDup_app; [exact Hnd | repeat constructor; intros [] |].
      intros a Ha [<-|[]]. exact (Hfresh Ha).
    + intros r Hr. apply in_app_or in Hr. destruct Hr as [Hr|[<-|[]]]; auto.
      simpl. lia.
    + intros i Hi. apply in_or_app. now left.
    + apply in_or_app. right. now left.
    + exact DE.
  - apply Z.eqb_neq in E0.
    destruct (existsb _ tbl) eqn:Ex; simpl.
    + rewrite map_ID_replace by reflexivity. repeat split; auto.
      * intros r Hr. apply in_map_iff in Hr. destruct Hr as [y [<- Hy]].
        destruct (Bangumi.ID y =? Bangumi.ID b); [exact E0 | now apply Hnz].
      * apply existsb_exists in Ex. destruct Ex as [r [Hr Er]].
        apply Z.eqb_eq in Er. rewrite <- Er. now apply in_map.
    + rewrite map_app. simpl. rewrite DI. repeat split.
      * apply NoDup_app; [exact Hnd | repeat constructor; intros [] |].
        intros a Ha [<-|[]]. apply in_map_iff in Ha. destruct Ha as [r [Hr Hin]].
        assert (existsb (fun x => Bangumi.ID x =? Bangumi.ID b) tbl = true)
          by (apply existsb_exists; exists r; split; [exact Hin | now apply Z.eqb_eq]).
        congruence.
      * intros r Hr. apply in_app_or in Hr. destruct Hr as [Hr|[<-|[]]]; auto.
        simpl. now rewrite DI.
      * intros i Hi. apply in_or_app. now left.
      * apply in_or_app. right. now left.
      * exact DE.
Qed.

(** One has-many write keeps the keys unique and non-zero and the owners
    among [owners], for a record owned by one of them. *)
Lemma save_has_many_keys (owners : list Z) (tbl : list EpisodeMetadata.t)
  (m : EpisodeMetadata.t) :
  In (EpisodeMetadata.BangumiID m) owners ->
  NoDup (map EpisodeMetadata.ID tbl)
  /\ (forall x, In x tbl -> EpisodeMetadata.ID x <> 0)
  /\ (forall x, In x tbl -> In (EpisodeMetadata.BangumiID x) owners) ->
  let tbl' := save_has_many_EpisodeMetadata tbl m in
  NoDup (map EpisodeMetadata.ID tbl')
  /\ (forall x, In x tbl' -> EpisodeMetadata.ID x <> 0)
  /\ (forall x, In x tbl' -> In (EpisodeMetadata.BangumiID x) owners).
Proof.
  intros Hown [Hnd [Hnz Ho]]. unfold save_has_many_EpisodeMetadata.
  destruct (EpisodeMetadata.ID m =? 0) eqn:E0.
  - fold (persist (next_id (map EpisodeMetadata.ID tbl)) m).
    pose proof (next_id_above (map EpisodeMetadata.ID tbl)) as [Hpos _].
    pose proof (next_id_fresh (map EpisodeMetadata.ID tbl)) as Hfresh.
    rewrite map_app. cbn [map]. rewrite persist_ID. repeat split.
    + apply NoDup_app; [exact Hnd | repeat constructor; intros [] |].
      intros a Ha [<-|[]]. exact (Hfresh Ha).
    + intros x Hx. apply in_app_or in Hx. destruct Hx as [Hx|[<-|[]]]; auto.
      rewrite persist_ID. lia.
    + intros x Hx. apply in_app_or in Hx. destruct Hx as [Hx|[<-|[]]]; auto.
      now rewrite persist_BangumiID.
  - apply Z.eqb_neq in E0.
    destruct (existsb _ tbl) eqn:Ex.
    + repeat split.
      * rewrite map_map.
        replace (map (fun x => EpisodeMetadata.ID
                         (if EpisodeMetadata.ID x =? EpisodeMetadata.ID m
                          then EpisodeMetadata.with_BangumiID
                                 (EpisodeMetadata.BangumiID m) x
                          else x)) tbl)
          with (map EpisodeMetadata.ID tbl); [exact Hnd|].
        apply map_ext. intros x.
        now destruct (EpisodeMetadata.ID x =? EpisodeMetadata.ID m).
      * intros x Hx. apply in_map_iff in Hx. destruct Hx as [y [<- Hy]].
        destruct (EpisodeMetadata.ID y =? EpisodeMetadata.ID m);
          [exact (Hnz y Hy) | exact (Hnz y Hy)].
      * intros x Hx. apply in_map_iff in Hx. destruct Hx as [y [<- Hy]].
        destruct (EpisodeMetadata.ID y =? EpisodeMetadata.ID m);
          [exact Hown | exact (Ho y Hy)].
    + fold (persist (EpisodeMetadata.ID m) m) || idtac.
      assert (Hid : EpisodeMetadata.ID
                      (EpisodeMetadata.columns (create_defaults_EpisodeMetadata m))
                    = EpisodeMetadata.ID m)
        by (unfold create_defaults_EpisodeMetadata;
            now destruct (EpisodeMetadata.Season m =? 0)).
      assert (Hb : EpisodeMetadata.BangumiID
                     (EpisodeMetadata.columns (create_defaults_EpisodeMetadata m))
                   = EpisodeMetadata.BangumiID m)
        by (unfold create_defaults_EpisodeMetadata;
            now destruct (EpisodeMetadata.Season m =? 0)).
      rewrite map_app. cbn [map]. rewrite Hid. repeat split.
      * apply NoDup_app; [exact Hnd | repeat constructor; intros [] |].
        intros a Ha [<-|[]]. apply in_map_iff in Ha. destruct Ha as [r [Hr Hin]].
        assert (existsb (fun x => EpisodeMetadata.ID x =? EpisodeMetadata.ID m) tbl
                = true)
          by (apply existsb_exists; exists r; split; [exact Hin | now apply Z.eqb_eq]).
        congruence.
      * intros x Hx. apply in_app_or in Hx. destruct Hx as [Hx|[<-|[]]]; auto.
        now rewrite Hid.
      * intros x Hx. apply in_app_or in Hx. destruct Hx as [Hx|[<-|[]]]; auto.
        now rewrite Hb.
Qed.

Lemma Save_Bangumi_wf (fx : Faults) (db : DB) (b : Bangumi.t) :
  wf_db db -> wf_db (fst (Save_Bangumi fx db b)).
Proof.
  intros Hwf. pose proof Hwf as [Hbk Hbnz Hmk Hmnz Hmu Hmo].
  unfold Save_Bangumi. destruct (fault_save_bangumi fx); [exact Hwf|].
  destruct (save_belongs_to_MikanItem (tbl_mikan db) b) as [mikan b1].
  destruct (save_belongs_to_TmdbItem (tbl_tmdb db) b1) as [tmdb b2].
  destruct (save_row_Bangumi_keys (tbl_bangumi db) b2 Hbk Hbnz)
    as [K1 [K2 [K3 [K4 _]]]].
  destruct (save_row_Bangumi (tbl_bangumi db) b2) as [rows b3]. simpl in K1, K2, K3, K4.
  set (stamped := map (EpisodeMetadata.with_BangumiID (Bangumi.ID b3))
                      (Bangumi.EpisodeMetadata b3)).
  assert (Hfold : let metas := fold_left save_has_many_EpisodeMetadata stamped
                                 (tbl_meta db) in
                  NoDup (map EpisodeMetadata.ID metas)
                  /\ (forall x, In x metas -> EpisodeMetadata.ID x <> 0)
                  /\ (forall x, In x metas ->
                                In (EpisodeMetadata.BangumiID x) (map Bangumi.ID rows))).
  { apply fold_left_invariant.
    - intros tbl m Hm Hinv.
      apply (save_has_many_keys (map Bangumi.ID rows) tbl m); [|exact Hinv].
      apply in_map_iff in Hm. destruct Hm as [a [<- _]]. exact K4.
    - split; [exact Hmk|]. split; [exact Hmnz|].
      intros x Hx. apply K3. now apply Hmo. }
  destruct Hfold as [F1 [F2 F3]].
  destruct (unique_index_ok (fold_left save_has_many_EpisodeMetadata stamped
                               (tbl_meta db))) eqn:EU; [|exact Hwf].
  constructor; simpl; assumption.
Qed.

(** X6. Whatever the candidate and whatever the faults of the storage
    layer, CreateBangumi takes a well-formed store (unique non-zero primary
    keys, the unique index of episode_metadata, every episode metadata row
    owned by a stored entity) to a well-formed store. *)
Theorem CreateBangumi_keeps_wf :
  forall (fx : Faults) (db : DB) (bangumi : Bangumi.t),
    wf_db db -> wf_db (fst (CreateBangumi fx db bangumi)).
Proof.
  intros fx db bangumi Hwf. unfold CreateBangumi.
  destruct (First_Bangumi fx db _ _) as [oldBangumi err].
  unfold CreateBangumi_after_query.
  destruct err as [[|msg]|]; try exact Hwf;
    destruct (negb (Bangumi.ID oldBangumi =? 0)); now apply Save_Bangumi_wf.
Qed.

Lemma CreateBangumi_keeps_wf_witness :
  wf_db (fst (CreateBangumi no_faults one_entity_store
                (candidate None (Some 209867) None (Some tmdb_209867)
                   [entry "ABC" "1080p"; entry "ABC" "1080p"]))).
Proof.
  apply CreateBangumi_keeps_wf. exact one_entity_store_wf.
Defined.

(** ** Reading back what the create path wrote *)

Lemma create_defaults_Bangumi_frame (k : Z) (b : Bangumi.t) :
  frame (Bangumi.columns (Bangumi.with_ID k (create_defaults_Bangumi b)))
  = stored_frame k b.
Proof.
  unfold create_defaults_Bangumi, stored_frame, frame.
  destruct (Bangumi.Season b =? 0); simpl;
    destruct (String.eqb (Bangumi.Parse b) ""); reflexivity.
Qed.

Lemma stored_frame_ext (k : Z) (b c : Bangumi.t) :
  frame b = frame c -> stored_frame k b = stored_frame k c.
Proof.
  unfold frame, stored_frame. intros H. inversion H. reflexivity.
Qed.

Lemma Save_create_row (fx : Faults) (db db' : DB) (c : Bangumi.t) :
  Save_Bangumi fx db c = (db', None) -> Bangumi.ID c = 0 ->
  exists row,
    tbl_bangumi db' = tbl_bangumi db ++ [row]
    /\ frame row = stored_frame (next_id (map Bangumi.ID (tbl_bangumi db))) c.
Proof.
  unfold Save_Bangumi. intros H Hid.
  destruct (fault_save_bangumi fx); [discriminate|].
  destruct (save_belongs_to_MikanItem (tbl_mikan db) c) as [mikan b1] eqn:E1.
  destruct (save_belongs_to_TmdbItem (tbl_tmdb db) b1) as [tmdb b2] eqn:E2.
  destruct (save_belongs_to_both _ _ _ _ _ _ _ E1 E2) as [F _].
  assert (Hid2 : Bangumi.ID b2 = 0) by (unfold frame in F; inversion F; congruence).
  unfold save_row_Bangumi in H. rewrite Hid2 in H. simpl Z.eqb in H. cbv iota in H.
  destruct (unique_index_ok _); [|discriminate].
  injection H as <-. simpl.
  eexists. split; [reflexivity|].
  rewrite create_defaults_Bangumi_frame. now apply stored_frame_ext.
Qed.

(** X7. After CreateBangumi has created an entity, the store has one more
    row, under a positive key that no row had before, and
    GetBangumiWithDetails on that key returns the candidate's values, a zero
    season and an empty parser being replaced by the column defaults,
    together with one stored record for each of the candidate's entries,
    stamped with that key. *)
Theorem GetBangumiWithDetails_after_create :
  forall (fx : Faults) (db : DB) (c : Bangumi.t),
    wf_db db ->
    fault_first_bangumi fx = None -> fault_save_bangumi fx = None ->
    Bangumi.ID c = 0 -> unseen db c ->
    Forall fresh_meta (Bangumi.EpisodeMetadata c) ->
    pairwise_distinct same_dedup_key (Bangumi.EpisodeMetadata c) = true ->
    exists k row loaded,
      0 < k /\ ~ In k (map Bangumi.ID (tbl_bangumi db))
      /\ tbl_bangumi (fst (CreateBangumi fx db c)) = tbl_bangumi db ++ [row]
      /\ Bangumi.ID row = k
      /\ GetBangumiWithDetails None (fst (CreateBangumi fx db c)) k = Ok loaded
      /\ frame loaded = stored_frame k c
      /\ Forall2 (fun a n => exists i,
                      n = persist i (EpisodeMetadata.with_BangumiID k a))
                 (Bangumi.EpisodeMetadata c) (Bangumi.EpisodeMetadata loaded).
Proof.
  intros fx db c Hwf Hq Hs Hid Hun Hf Hd.
  set (k := next_id (map Bangumi.ID (tbl_bangumi db))).
  destruct (Save_create_path fx db c Hwf Hs Hid Hf Hd)
    as [row [mikan [tmdb [srows [HS [Hk [_ [_ [R1 Hwf1]]]]]]]]].
  fold k in Hk, R1.
  rewrite (CreateBangumi_not_found fx db c Hq)
    by (apply First_None; exact Hun).
  destruct (Save_create_row fx db _ c HS Hid) as [row' [Hrows Hframe]].
  simpl in Hrows. apply app_inj_tail in Hrows. destruct Hrows as [_ <-].
  fold k in Hframe. rewrite HS. simpl fst.
  exists k, row.
  assert (Hfirst : First Bangumi.ID (fun r => Bangumi.ID r =? k)
                     (tbl_bangumi db ++ [row]) = Some row).
  { apply (First_only Bangumi.ID _ _ row).
    - apply in_or_app. right. now left.
    - rewrite Hk. apply Z.eqb_refl.
    - intros x Hx Hc. apply in_app_or in Hx. destruct Hx as [Hx|[<-|[]]]; auto.
      apply Z.eqb_eq in Hc. exfalso.
      apply (next_id_fresh (map Bangumi.ID (tbl_bangumi db))).
      fold k. rewrite <- Hc. now apply in_map. }
  unfold GetBangumiWithDetails. simpl tbl_bangumi. rewrite Hfirst.
  eexists. split; [exact (proj1 (next_id_above _))|].
  split; [apply next_id_fresh|]. split; [reflexivity|]. split; [exact Hk|].
  split; [reflexivity|]. split; [exact Hframe|].
  change (Forall2 (fun a n => exists i,
                       n = persist i (EpisodeMetadata.with_BangumiID k a))
            (Bangumi.EpisodeMetadata c)
            (filter (fun m => EpisodeMetadata.BangumiID m =? Bangumi.ID row)
                    (tbl_meta db ++ srows))).
  rewrite Hk, filter_owner_app.
  - rewrite filter_owner_none; [exact R1|].
    intros m Hm E.
    apply (next_id_fresh (map Bangumi.ID (tbl_bangumi db))).
    fold k. rewrite <- E. exact (wf_meta_owner db Hwf m Hm).
  - intros n Hn. destruct (Forall2_In_r _ _ _ _ R1 Hn) as [a [_ [i ->]]].
    now rewrite persist_BangumiID.
Qed.

Lemma GetBangumiWithDetails_after_create_witness :
  let c := Bangumi.mk 0 "Dungeon Meshi" "2024" 0 None None
             (Some (MikanItem.mk 3200 "Dungeon Meshi" 1 "")) None ""
             [entry "ABC" "1080p"] false 0 "" "" "" "" false in
  exists k row loaded,
    tbl_bangumi (fst (CreateBangumi no_faults one_entity_store c))
    = [one_entity; row]
    /\ Bangumi.ID row = k /\ k <> 1
    /\ GetBangumiWithDetails None (fst (CreateBangumi no_faults one_entity_store c)) k
       = Ok loaded
    /\ Bangumi.Season loaded = 1 /\ Bangumi.Parse loaded = "tmdb"
    /\ List.length (Bangumi.EpisodeMetadata loaded) = 1%nat.
Proof.
  intros c.
  destruct (GetBangumiWithDetails_after_create no_faults one_entity_store c
              one_entity_store_wf eq_refl eq_refl eq_refl)
    as [k [row [loaded [_ [Hk [Ht [Hr [H1 [H2 H3]]]]]]]]].
  - intros x [<-|[]]. reflexivity.
  - repeat constructor; discriminate.
  - reflexivity.
  - exists k, row, loaded. split; [exact Ht|]. split; [exact Hr|].
    split; [intros E; apply Hk; rewrite E; now left|].
    split; [exact H1|].
    unfold frame, stored_frame in H2. inversion H2.
    split; [reflexivity|]. split; [reflexivity|].
    now rewrite <- (Forall2_length H3).
Defined.

(** ** Changing the release-tracker link by hand *)

Lemma uint_to_int64_small (u : Z) : 0 <= u < 2 ^ 63 -> uint_to_int64 u = u.
Proof.
  intros H. unfold uint_to_int64.
  rewrite Z.mod_small by (change (2 ^ 64) with (2 * 2 ^ 63); lia).
  destruct (Z.ltb_spec u (2 ^ 63)); [reflexivity | lia].
Qed.

Lemma uint_to_int64_wrap (u : Z) :
  2 ^ 63 <= u < 2 ^ 64 -> uint_to_int64 u = u - 2 ^ 64.
Proof.
  intros H. unfold uint_to_int64.
  assert (H63 : 0 < 2 ^ 63) by reflexivity.
  rewrite Z.mod_small by lia.
  destruct (Z.ltb_spec u (2 ^ 63)); [lia | reflexivity].
Qed.

Lemma uint_to_int64_key (k : Z) :
  - 2 ^ 63 <= k < 2 ^ 63 -> uint_to_int64 k = k.
Proof.
  intros H. destruct (Z.lt_ge_cases k 0) as [Hneg|Hpos].
  - unfold uint_to_int64.
    assert (E : k mod 2 ^ 64 = k + 2 ^ 64).
    { symmetry. apply (Z.mod_unique_pos _ _ (-1)).
      - change (2 ^ 64) with (2 * 2 ^ 63). lia.
      - lia. }
    rewrite E. assert (H63 : 0 < 2 ^ 63) by reflexivity.
    destruct (Z.ltb_spec (k + 2 ^ 64) (2 ^ 63)).
    + change (2 ^ 64) with (2 * 2 ^ 63) in *. lia.
    + lia.
  - apply uint_to_int64_small. lia.
Qed.

(** X8. UpdateBangumiMikan takes the entity as a [uint], which reaches the
    statement as [uint_to_int64] gives it: itself below 2^63, wrapped to a
    negative key from there on.  After the call has set the release-tracker
    link of the entity of that key to [mikanID], GetBangumisByMikanID for
    that ID returns exactly the row of that entity, now carrying the link,
    and the other rows that carried it before, unchanged. *)
Theorem UpdateBangumiMikan_GetBangumisByMikanID :
  forall (db : DB) (bangumiID mikanID : Z) (found : Bangumi.t),
    let key := uint_to_int64 bangumiID in
    let db' := fst (UpdateBangumiMikan None db key mikanID) in
    (In found (fst (GetBangumisByMikanID None db' mikanID))
     <-> exists r,
           In r (tbl_bangumi db)
           /\ ((Bangumi.ID r = key
                /\ found = Bangumi.with_MikanID (Some mikanID) r)
               \/ (Bangumi.ID r <> key
                   /\ Bangumi.MikanID r = Some mikanID /\ found = r)))
    /\ (0 <= bangumiID < 2 ^ 63 -> key = bangumiID)
    /\ (2 ^ 63 <= bangumiID < 2 ^ 64 -> key = bangumiID - 2 ^ 64).
Proof.
  intros db bangumiID mikanID found key db'.
  split; [|split; [apply uint_to_int64_small | apply uint_to_int64_wrap]].
  unfold db'. simpl.
  rewrite filter_In, in_map_iff. split.
  - intros [[r [Hr Hin]] Hc]. exists r. split; [exact Hin|].
    destruct (Bangumi.ID r =? key) eqn:E.
    + apply Z.eqb_eq in E. left. now split.
    + apply Z.eqb_neq in E. right. subst found. split; [exact E|].
      split; [|reflexivity]. unfold column_is in Hc.
      destruct (Bangumi.MikanID r) as [x|]; [|discriminate].
      apply Z.eqb_eq in Hc. now subst x.
  - intros [r [Hin [[Hid ->]|[Hid [HM ->]]]]].
    + split; [|simpl; apply Z.eqb_refl].
      exists r. split; [|exact Hin]. rewrite Hid. now rewrite Z.eqb_refl.
    + split; [|unfold column_is; rewrite HM; apply Z.eqb_refl].
      exists r. split; [|exact Hin].
      apply Z.eqb_neq in Hid. now rewrite Hid.
Qed.

(** The last [uint] reaches the row of key -1. *)
Lemma UpdateBangumiMikan_GetBangumisByMikanID_witness :
  let r := Bangumi.with_ID (-1) tmdb_entity in
  let db := mkDB [one_entity; r] [] [] [] [] in
  let db' := fst (UpdateBangumiMikan None db
                    (uint_to_int64 (2 ^ 64 - 1)) 3141) in
  uint_to_int64 (2 ^ 64 - 1) = -1
  /\ In (Bangumi.with_MikanID (Some 3141) r)
        (fst (GetBangumisByMikanID None db' 3141))
  /\ In one_entity (fst (GetBangumisByMikanID None db' 3141)).
Proof.
  intros r db db'.
  destruct (UpdateBangumiMikan_GetBangumisByMikanID db (2 ^ 64 - 1) 3141
              (Bangumi.with_MikanID (Some 3141) r)) as [H1 [_ Hw]].
  destruct (UpdateBangumiMikan_GetBangumisByMikanID db (2 ^ 64 - 1) 3141
              one_entity) as [H2 _].
  assert (Hkey : uint_to_int64 (2 ^ 64 - 1) = -1)
    by (rewrite Hw; [reflexivity | split; [discriminate | reflexivity]]).
  split; [exact Hkey|]. split.
  - apply H1. exists r. split; [right; now left|]. left.
    split; [rewrite Hkey; reflexivity | reflexivity].
  - apply H2. exists one_entity. split; [now left|]. right.
    split; [rewrite Hkey; discriminate | split; reflexivity].
Defined.

Lemma update_mikan_id_wf (db : DB) (bangumiID : Z) (value : option Z) :
  wf_db db -> wf_db (update_mikan_id db bangumiID value).
Proof.
  intros [Hbk Hbnz Hmk Hmnz Hmu Hmo].
  assert (Hids : map Bangumi.ID (tbl_bangumi (update_mikan_id db bangumiID value))
                 = map Bangumi.ID (tbl_bangumi db)).
  { simpl. rewrite map_map. apply map_ext. intros r.
    now destruct (Bangumi.ID r =? bangumiID). }
  constructor; try assumption.
  - now rewrite Hids.
  - simpl. intros r Hr. apply in_map_iff in Hr. destruct Hr as [y [<- Hy]].
    destruct (Bangumi.ID y =? bangumiID); exact (Hbnz y Hy).
  - intros m Hm. rewrite Hids. now apply Hmo.
Qed.

(** X9. RemoveBangumiMikan leaves every field of every entity but the
    release-tracker link as it was, and afterwards no lookup by
    release-tracker ID returns the entity: GetBangumisByMikanID does not,
    and the query of CreateBangumi matches it through its metadata-catalog
    link only. *)
Theorem RemoveBangumiMikan_hides_entity :
  forall (db : DB) (bangumiID : Z),
    let db' := fst (RemoveBangumiMikan None db bangumiID) in
    map frame (tbl_bangumi db') = map frame (tbl_bangumi db)
    /\ map Bangumi.TmdbID (tbl_bangumi db') = map Bangumi.TmdbID (tbl_bangumi db)
    /\ tbl_meta db' = tbl_meta db
    /\ (forall mikanID found,
           In found (fst (GetBangumisByMikanID None db' mikanID)) ->
           Bangumi.ID found <> bangumiID)
    /\ (forall mikanID tmdbID r,
           In r (tbl_bangumi db') -> Bangumi.ID r = bangumiID ->
           mikan_or_tmdb mikanID tmdbID r = column_is (Bangumi.TmdbID r) tmdbID).
Proof.
  intros db bangumiID db'. unfold db'. simpl.
  assert (Hrow : forall r, In r (map (fun r => if Bangumi.ID r =? bangumiID
                                               then Bangumi.with_MikanID None r
                                               else r) (tbl_bangumi db)) ->
                           Bangumi.ID r = bangumiID -> Bangumi.MikanID r = None).
  { intros r Hr Hid. apply in_map_iff in Hr. destruct Hr as [y [<- Hy]].
    destruct (Bangumi.ID y =? bangumiID) eqn:E; [reflexivity|].
    apply Z.eqb_neq in E. contradiction. }
  repeat split.
  - rewrite map_map. apply map_ext. intros r.
    now destruct (Bangumi.ID r =? bangumiID).
  - rewrite map_map. apply map_ext. intros r.
    now destruct (Bangumi.ID r =? bangumiID).
  - intros mikanID found Hf Hid. apply filter_In in Hf. destruct Hf as [Hin Hc].
    rewrite (Hrow found Hin Hid) in Hc. discriminate.
  - intros mikanID tmdbID r Hr Hid. unfold mikan_or_tmdb.
    now rewrite (Hrow r Hr Hid).
Qed.

(** X10. Once the release-tracker link of an entity has been removed, a new
    candidate that carries that ID, and that no entity matches through the
    metadata-catalog ID, is not merged into the entity: CreateBangumi creates
    a second row for it. *)
Theorem CreateBangumi_after_RemoveBangumiMikan :
  forall (fx : Faults) (db : DB) (bangumiID M : Z) (c : Bangumi.t),
    wf_db db ->
    fault_first_bangumi fx = None -> fault_save_bangumi fx = None ->
    new_candidate emptyDB M c ->
    (forall x, In x (tbl_bangumi db) ->
               column_is (Bangumi.TmdbID x) (extract_tmdbID c) = false
               /\ (Bangumi.MikanID x = Some M -> Bangumi.ID x = bangumiID)) ->
    let db' := fst (RemoveBangumiMikan None db bangumiID) in
    exists db2 row,
      CreateBangumi fx db' c = (db2, None)
      /\ tbl_bangumi db2 = tbl_bangumi db' ++ [row]
      /\ Bangumi.MikanID row = Some M
      /\ List.length (tbl_bangumi db2) = S (List.length (tbl_bangumi db)).
Proof.
  intros fx db bangumiID M c Hwf Hq Hs [Hc [Hid [_ [Hf Hd]]]] Hrows db'.
  assert (Hwf' : wf_db db') by (apply update_mikan_id_wf; exact Hwf).
  assert (Hun : unseen db' c).
  { intros x' Hx'. unfold db' in Hx'. simpl in Hx'.
    apply in_map_iff in Hx'. destruct Hx' as [x [<- Hx]].
    destruct (Hrows x Hx) as [HT HM]. destruct Hc as [_ [HeM _]].
    unfold mikan_or_tmdb. rewrite HeM.
    destruct (Bangumi.ID x =? bangumiID) eqn:E; simpl.
    - exact HT.
    - rewrite HT, orb_false_r. unfold column_is.
      destruct (Bangumi.MikanID x) as [y|] eqn:Ey; [|reflexivity].
      destruct (y =? M) eqn:EyM; [|reflexivity].
      apply Z.eqb_eq in EyM. subst y. apply Z.eqb_neq in E.
      now destruct (E (HM eq_refl)). }
  destruct (Save_create_path fx db' c Hwf' Hs Hid Hf Hd)
    as [row [mikan [tmdb [srows [HS [_ [HM [_ [_ _]]]]]]]]].
  rewrite (carries_mikan_written M c _ Hc) in HM.
  rewrite (CreateBangumi_not_found fx db' c Hq) by (apply First_None; exact Hun).
  rewrite HS. eexists; exists row. split; [reflexivity|]. simpl tbl_bangumi.
  split; [reflexivity|]. split; [exact HM|].
  rewrite length_app, length_map. simpl. lia.
Qed.

Lemma CreateBangumi_after_RemoveBangumiMikan_witness :
  exists db2 row,
    CreateBangumi no_faults (fst (RemoveBangumiMikan None one_entity_store 1))
      (candidate None None (Some mikan_3141) None [entry "ABC" "720p"])
    = (db2, None)
    /\ Bangumi.MikanID row = Some 3141
    /\ List.length (tbl_bangumi db2) = 2%nat.
Proof.
  destruct (CreateBangumi_after_RemoveBangumiMikan no_faults one_entity_store 1 3141
              (candidate None None (Some mikan_3141) None [entry "ABC" "720p"])
              one_entity_store_wf eq_refl eq_refl)
    as [db2 [row [H1 [_ [H3 H4]]]]].
  - split; [|split; [reflexivity|split; [intros x []|split]]].
    + split; [discriminate|]. split; [reflexivity|]. intros it [= <-]. reflexivity.
    + repeat constructor; discriminate.
    + reflexivity.
  - intros x [<-|[]]. split; reflexivity.
  - exists db2, row. repeat split; auto.
Defined.

(** ** The pull *)

Lemma CheckNewTorrents_from_Ok (fx : Faults) (db : DB) (torrents : list Torrent.t) :
  forall newTorrents news,
    CheckNewTorrents_from fx db newTorrents torrents = Ok news ->
    forall t, In t news ->
              In t newTorrents
              \/ (In t torrents /\ stored_downloaded db (Torrent.URL t) = false).
Proof.
  induction torrents as [|x torrents IH]; intros newTorrents news H t Ht; simpl in H.
  - injection H as <-. now left.
  - unfold GetTorrentByURL, stored_downloaded in *.
    destruct (fault_torrent_by_url fx (Torrent.URL x)); [discriminate|].
    destruct (find _ (tbl_torrent db)) as [existing|] eqn:EF.
    + destruct (Torrent.Downloaded existing) eqn:ED; simpl in H.
      * destruct (IH _ _ H t Ht) as [Hl|[Hin Hd]]; [now left|].
        right. split; [now right | exact Hd].
      * destruct (IH _ _ H t Ht) as [Hl|[Hin Hd]].
        -- apply in_app_or in Hl. destruct Hl as [Hl|[<-|[]]]; [now left|].
           right. split; [now left|]. now rewrite EF.
        -- right. split; [now right | exact Hd].
    + destruct (IH _ _ H t Ht) as [Hl|[Hin Hd]].
      * apply in_app_or in Hl. destruct Hl as [Hl|[<-|[]]]; [now left|].
        right. split; [now left|]. now rewrite EF.
      * right. split; [now right | exact Hd].
Qed.

Lemma CheckNewTorrents_from_Ok_no_fault (fx : Faults) (db : DB)
  (torrents : list Torrent.t) :
  forall newTorrents news,
    CheckNewTorrents_from fx db newTorrents torrents = Ok news ->
    forall t, In t torrents -> fault_torrent_by_url fx (Torrent.URL t) = None.
Proof.
  induction torrents as [|x torrents IH]; intros newTorrents news H t Ht;
    [destruct Ht|].
  simpl in H. unfold GetTorrentByURL in H.
  destruct (fault_torrent_by_url fx (Torrent.URL x)) eqn:EX; [discriminate|].
  destruct Ht as [<-|Ht]; [exact EX|].
  destruct (find _ (tbl_torrent db)) as [existing|];
    [destruct (Torrent.Downloaded existing)|]; simpl in H;
    exact (IH _ _ H t Ht).
Qed.

(** X11. With no storage fault on the existence checks, pullRss returns the
    fetched releases whose URL the store does not mark as downloaded, in the
    order of the feed and stamped with the feed URL; when the existence
    check of any fetched release fails, it returns no release at all. *)
Theorem pullRss_result :
  forall (GetTorrents : string -> list Torrent.t * option error)
         (fx : Faults) (db : DB) (url : string),
    ((forall t, In t (fst (GetTorrents url)) ->
                fault_torrent_by_url fx (Torrent.URL t) = None) ->
     pullRss GetTorrents fx db url
     = map (Torrent.with_RRSSLink url)
           (filter (fun t => negb (stored_downloaded db (Torrent.URL t)))
                   (fst (GetTorrents url))))
    /\ (forall t, In t (fst (GetTorrents url)) ->
                  fault_torrent_by_url fx (Torrent.URL t) <> None ->
                  pullRss GetTorrents fx db url = []).
Proof.
  intros GetTorrents fx db url. unfold pullRss, getTorrents.
  destruct (GetTorrents url) as [torrents gerr]. simpl. split.
  - intros Hfx. unfold CheckNewTorrents.
    now rewrite (CheckNewTorrents_from_filter fx db torrents [] Hfx).
  - intros t Hin Hfault.
    destruct (CheckNewTorrents fx db torrents) as [news|e] eqn:E; [|reflexivity].
    now destruct (Hfault (CheckNewTorrents_from_Ok_no_fault fx db torrents [] news
                            E t Hin)).
Qed.

Lemma pullRss_result_witness :
  pullRss feed_of_two no_faults
    (mkDB [] [] [] []
       [Torrent.mk "[ABC] Frieren - 05 [1080p]" "https://mikanani.me/t/05" true 1 ""])
    "https://mikanani.me/RSS"
  = [Torrent.with_RRSSLink "https://mikanani.me/RSS" release_06]
  /\ pullRss feed_of_two (fault_on_url (Torrent.URL release_06)) emptyDB
       "https://mikanani.me/RSS" = [].
Proof.
  split.
  - refine (eq_trans
              (proj1 (pullRss_result feed_of_two no_faults _
                        "https://mikanani.me/RSS") _) eq_refl).
    intros t _. reflexivity.
  - apply (proj2 (pullRss_result feed_of_two (fault_on_url (Torrent.URL release_06))
                    emptyDB "https://mikanani.me/RSS") release_06).
    + right. now left.
    + discriminate.
Defined.

(** ** What RefreshRSS enqueues and writes *)

Lemma GetBangumiParseByTitle_Ok_match (fx : Faults) (db : DB)
  (torrentName : string) (parser : EpisodeMetadata.t) :
  GetBangumiParseByTitle fx db torrentName = Ok parser ->
  In parser (tbl_meta db)
  /\ is_substring (EpisodeMetadata.Title parser) torrentName
  /\ is_substring (EpisodeMetadata.Group parser) torrentName.
Proof.
  unfold GetBangumiParseByTitle.
  destruct (fault_parse_by_title fx torrentName); [discriminate|].
  destruct (First _ _ _) as [m|] eqn:E; [|discriminate].
  intros [= <-]. apply First_Some in E. destruct E as [Hin Hc].
  apply title_and_group_in_true in Hc. now split.
Qed.

Lemma RefreshRSS_step_effect (fx : Faults) (db : DB) (q : list Torrent.t)
  (t : Torrent.t) :
  RefreshRSS_step fx (db, q) t = (db, q)
  \/ exists metaData,
       GetBangumiParseByTitle fx db (Torrent.Name t) = Ok metaData
       /\ RefreshRSS_step fx (db, q) t
          = (fst (CreateTorrent fx db
                    (Torrent.with_BangumiID (EpisodeMetadata.BangumiID metaData) t)),
             q ++ [Torrent.with_BangumiID (EpisodeMetadata.BangumiID metaData) t]).
Proof.
  unfold RefreshRSS_step.
  destruct (GetBangumiParseByTitle fx db (Torrent.Name t)) as [m|e]; [|now left].
  destruct (GetTorrentByURL fx db _) as [existing|e];
    [destruct (Torrent.Downloaded existing); [now left|]|];
    right; exists m; now split.
Qed.

Lemma CreateTorrent_tables (fx : Faults) (db : DB) (t : Torrent.t) :
  let db' := fst (CreateTorrent fx db t) in
  tbl_bangumi db' = tbl_bangumi db /\ tbl_mikan db' = tbl_mikan db
  /\ tbl_tmdb db' = tbl_tmdb db /\ tbl_meta db' = tbl_meta db
  /\ (forall y, In y (tbl_torrent db') -> y = t \/ In y (tbl_torrent db)).
Proof.
  unfold CreateTorrent. destruct (fault_save_torrent fx _); simpl.
  - repeat split; auto.
  - repeat split; auto. intros y. apply save_row_Torrent_In.
Qed.

Lemma RefreshRSS_loop_effect (fx : Faults) (torrents : list Torrent.t) :
  forall (db : DB) (q : list Torrent.t),
    let st := RefreshRSS_loop fx torrents (db, q) in
    tbl_bangumi (fst st) = tbl_bangumi db /\ tbl_mikan (fst st) = tbl_mikan db
    /\ tbl_tmdb (fst st) = tbl_tmdb db /\ tbl_meta (fst st) = tbl_meta db
    /\ exists added,
         snd st = q ++ added
         /\ (forall y, In y (tbl_torrent (fst st)) ->
                       In y (tbl_torrent db) \/ In y added)
         /\ (forall x, In x added ->
               exists t m,
                 In t torrents /\ In m (tbl_meta db)
                 /\ is_substring (EpisodeMetadata.Title m) (Torrent.Name t)
                 /\ is_substring (EpisodeMetadata.Group m) (Torrent.Name t)
                 /\ x = Torrent.with_BangumiID (EpisodeMetadata.BangumiID m) t).
Proof.
  induction torrents as [|t torrents IH]; intros db q.
  - simpl. repeat split; auto. exists []. rewrite app_nil_r.
    split; [reflexivity|]. split; [now left | intros x []].
  - change (RefreshRSS_loop fx (t :: torrents) (db, q))
      with (RefreshRSS_loop fx torrents (RefreshRSS_step fx (db, q) t)).
    cbv zeta.
    destruct (RefreshRSS_step_effect fx db q t) as [->|[m [Hm ->]]].
    + destruct (IH db q) as [H1 [H2 [H3 [H4 [added [H5 [H6 H7]]]]]]].
      repeat split; auto. exists added. split; [exact H5|]. split; [exact H6|].
      intros x Hx. destruct (H7 x Hx) as [t0 [m [Ht0 Hrest]]].
      exists t0, m. split; [now right | exact Hrest].
    + set (t' := Torrent.with_BangumiID (EpisodeMetadata.BangumiID m) t).
      destruct (CreateTorrent_tables fx db t') as [C1 [C2 [C3 [C4 C5]]]].
      destruct (IH (fst (CreateTorrent fx db t')) (q ++ [t']))
        as [H1 [H2 [H3 [H4 [added [H5 [H6 H7]]]]]]].
      split; [congruence|]. split; [congruence|]. split; [congruence|].
      split; [congruence|].
      exists (t' :: added). split; [now rewrite H5, <- app_assoc|]. split.
      * intros y Hy. destruct (H6 y Hy) as [Hy'|Hy']; [|right; now right].
        destruct (C5 y Hy') as [->|Hy'']; [right; now left | now left].
      * apply GetBangumiParseByTitle_Ok_match in Hm. destruct Hm as [M1 [M2 M3]].
        intros x [<-|Hx].
        -- exists t, m. repeat split; auto. now left.
        -- destruct (H7 x Hx) as [t0 [m0 [Ht0 [Hm0 Hrest]]]].
           exists t0, m0. split; [now right|]. split; [congruence | exact Hrest].
Qed.

(** X12. RefreshRSS changes no table but that of the releases and only
    appends to the download queue.  Every release it appends is a fetched
    release that the store did not mark as downloaded when it was pulled,
    stamped with the feed URL and with the entity ID of a stored record of
    episode metadata whose title and group occur in its name; and every row
    it writes is a release it enqueues. *)
Theorem RefreshRSS_effect :
  forall (GetTorrents : string -> list Torrent.t * option error)
         (fx : Faults) (db : DB) (DQueue : list Torrent.t) (url : string),
    let st := RefreshRSS GetTorrents fx db DQueue url in
    tbl_bangumi (fst st) = tbl_bangumi db /\ tbl_mikan (fst st) = tbl_mikan db
    /\ tbl_tmdb (fst st) = tbl_tmdb db /\ tbl_meta (fst st) = tbl_meta db
    /\ exists added,
         snd st = DQueue ++ added
         /\ (forall y, In y (tbl_torrent (fst st)) ->
                       In y (tbl_torrent db) \/ In y added)
         /\ (forall x, In x added ->
               exists t m,
                 In t (fst (GetTorrents url))
                 /\ stored_downloaded db (Torrent.URL t) = false
                 /\ In m (tbl_meta db)
                 /\ is_substring (EpisodeMetadata.Title m) (Torrent.Name t)
                 /\ is_substring (EpisodeMetadata.Group m) (Torrent.Name t)
                 /\ x = Torrent.with_BangumiID (EpisodeMetadata.BangumiID m)
                          (Torrent.with_RRSSLink url t)).
Proof.
  intros GetTorrents fx db DQueue url st. unfold st, RefreshRSS.
  destruct (RefreshRSS_loop_effect fx (pullRss GetTorrents fx db url) db DQueue)
    as [H1 [H2 [H3 [H4 [added [H5 [H6 H7]]]]]]].
  repeat split; auto. exists added. split; [exact H5|]. split; [exact H6|].
  intros x Hx. destruct (H7 x Hx) as [t' [m [Ht' [Hm [S1 [S2 ->]]]]]].
  unfold pullRss, getTorrents in Ht'.
  destruct (GetTorrents url) as [torrents gerr]. simpl.
  apply in_map_iff in Ht'. destruct Ht' as [t [<- Ht]].
  destruct (CheckNewTorrents fx db torrents) as [news|e] eqn:E; [|destruct Ht].
  destruct (CheckNewTorrents_from_Ok fx db torrents [] news E t Ht)
    as [[]|[Hin Hd]].
  exists t, m. repeat split; auto.
Qed.

(** ** One task per parsed title *)




Section Discovery.

Variable FilterTorrent : Torrent.t -> option Bangumi.t -> bool.
Variable ParsedTitle : Type.
Variable ParsedTitle_Title : ParsedTitle -> string.
Variable Parse : string -> option ParsedTitle.
Variable fx : Faults.
Variable db : DB.

Let step := FindNewBangumi_step FilterTorrent ParsedTitle ParsedTitle_Title Parse fx db.







End Discovery.


(** ** The global handle *)

Section SingletonProperties.

Variable Handle : Type.
Variable NewDB : option string -> result Handle.
Variable Close : Handle -> option error.

(** X14. Once InitDB has opened the store, a later InitDB opens nothing and
    reports no error, whatever data source it is given, and GetDB returns
    the handle of the first call. *)
Theorem InitDB_only_once :
  forall (s : singleton Handle) (dsn1 dsn2 : option string) (h : Handle),
    globalDB Handle s = None -> NewDB dsn1 = Ok h ->
    let s1 := fst (InitDB Handle NewDB dsn1 s) in
    snd (InitDB Handle NewDB dsn1 s) = None
    /\ opened Handle s1 = opened Handle s ++ [dsn1]
    /\ InitDB Handle NewDB dsn2 s1 = (s1, None)
    /\ GetDB Handle NewDB s1 = (s1, Some h).
Proof.
  intros s dsn1 dsn2 h Hs Hn. unfold InitDB, GetDB. rewrite Hs, Hn. simpl.
  repeat split.
Qed.

(** X15. While the default store cannot be opened, GetDB returns no handle
    and no error, leaves the global handle unset, and tries to open the
    store again at every call. *)
Theorem GetDB_without_store :
  forall (s : singleton Handle) (e : error),
    globalDB Handle s = None -> NewDB None = Err e ->
    let s1 := fst (GetDB Handle NewDB s) in
    snd (GetDB Handle NewDB s) = None
    /\ globalDB Handle s1 = None
    /\ opened Handle s1 = opened Handle s ++ [None]
    /\ snd (GetDB Handle NewDB s1) = None
    /\ opened Handle (fst (GetDB Handle NewDB s1))
       = opened Handle s ++ [None; None].
Proof.
  intros s e Hs Hn. unfold GetDB, InitDB. rewrite Hs, Hn. simpl.
  rewrite ?Hn. simpl. rewrite <- ?app_assoc. repeat split.
Qed.

(** X16. CloseDB returns what closing the connection returns and unsets the
    global handle even when closing failed, so that the next InitDB opens
    the store again, with the data source of that call. *)
Theorem CloseDB_then_InitDB :
  forall (s : singleton Handle) (h h' : Handle) (dsn : option string),
    globalDB Handle s = Some h -> NewDB dsn = Ok h' ->
    let s1 := fst (CloseDB Handle Close s) in
    snd (CloseDB Handle Close s) = Close h
    /\ globalDB Handle s1 = None
    /\ InitDB Handle NewDB dsn s1
       = (mkSingleton Handle (Some h') (opened Handle s ++ [dsn]), None)
    /\ CloseDB Handle Close s1 = (s1, None).
Proof.
  intros s h h' dsn Hs Hn. unfold CloseDB, InitDB. rewrite Hs. simpl. rewrite Hn.
  repeat split.
Qed.

End SingletonProperties.

Lemma InitDB_only_once_witness :
  let NewDB := fun dsn : option string =>
                 match dsn with
                 | Some path => Ok path
                 | None => Ok "data/data.db"
                 end in
  InitDB string NewDB (Some "other.db")
    (fst (InitDB string NewDB None (mkSingleton string None [])))
  = (mkSingleton string (Some "data/data.db") [None], None).
Proof.
  intros NewDB.
  exact (proj1 (proj2 (proj2
           (InitDB_only_once string NewDB (mkSingleton string None []) None
              (Some "other.db") "data/data.db" eq_refl eq_refl)))).
Defined.

Lemma GetDB_without_store_witness :
  let NewDB := fun _ : option string =>
                 @Err string (ErrStorage "unable to open database file") in
  snd (GetDB string NewDB (mkSingleton string None [])) = None.
Proof.
  intros NewDB.
  exact (proj1 (GetDB_without_store string NewDB (mkSingleton string None [])
                  (ErrStorage "unable to open database file") eq_refl eq_refl)).
Defined.

Lemma CloseDB_then_InitDB_witness :
  let NewDB := fun dsn : option string =>
                 match dsn with
                 | Some path => Ok path
                 | None => Ok "data/data.db"
                 end in
  let Close := fun _ : string => Some (ErrStorage "close failed") in
  let s := mkSingleton string (Some "data/data.db") [None] in
  snd (CloseDB string Close s) = Some (ErrStorage "close failed")
  /\ globalDB string (fst (CloseDB string Close s)) = None.
Proof.
  intros NewDB Close s.
  destruct (CloseDB_then_InitDB string NewDB Close s "data/data.db" "other.db"
              (Some "other.db") eq_refl eq_refl) as [H1 [H2 _]].
  split; [exact H1 | exact H2].
Defined.

(** ** Entities by key *)

Lemma First_Bangumi_by_key (db : DB) (r : Bangumi.t) :
  wf_db db ->
  In r (tbl_bangumi db) ->
  First Bangumi.ID (fun x => Bangumi.ID x =? Bangumi.ID r) (tbl_bangumi db) = Some r.
Proof.
  intros Hwf Hr.
  apply (First_only Bangumi.ID _ _ r); [exact Hr | apply Z.eqb_refl |].
  intros x Hx E. apply Z.eqb_eq in E.
  exact (NoDup_map_eq _ _ _ _ (wf_bangumi_keys db Hwf) Hx Hr E).
Qed.

Lemma NoDup_map_filter {A B : Type} (f : A -> B) (c : A -> bool) (l : list A) :
  NoDup (map f l) -> NoDup (map f (filter c l)).
Proof.
  induction l as [|a l IH]; simpl; [constructor|].
  intros H. inversion H as [|? ? Hnotin Hnd]; subst.
  destruct (c a); simpl; [|now apply IH].
  constructor; [|now apply IH].
  intros Hin. apply Hnotin. apply in_map_iff in Hin.
  destruct Hin as [x [E Hx]]. apply filter_In in Hx.
  rewrite <- E. apply in_map. tauto.
Qed.

(** X17. On a well-formed store GetBangumiByID returns the row of the key it
    is given, and gorm.ErrRecordNotFound for a key no row has, the zero key
    among them.  GetBangumiWithDetails takes a [uint], which reaches the
    query as [uint_to_int64] gives it (itself below 2^63, wrapped to a
    negative key from there on): it returns the row of that key, with the
    catalog records its links point to and with exactly the episode metadata
    the entity owns, each record once, and gorm.ErrRecordNotFound when no
    row has that key. *)
Theorem GetBangumiByID_by_key :
  forall (db : DB),
    wf_db db ->
    (forall r, In r (tbl_bangumi db) ->
               GetBangumiByID None db (Bangumi.ID r) = Ok r)
    /\ (forall id, ~ In id (map Bangumi.ID (tbl_bangumi db)) ->
                   GetBangumiByID None db id = Err ErrRecordNotFound)
    /\ GetBangumiByID None db 0 = Err ErrRecordNotFound
    /\ (forall id r,
           In r (tbl_bangumi db) -> Bangumi.ID r = uint_to_int64 id ->
           exists loaded,
             GetBangumiWithDetails None db (uint_to_int64 id) = Ok loaded
             /\ Bangumi.columns loaded = Bangumi.columns r
             /\ (forall it, Bangumi.MikanItem loaded = Some it ->
                            In it (tbl_mikan db)
                            /\ Bangumi.MikanID r = Some (MikanItem.ID it))
             /\ (forall it, In it (tbl_mikan db) ->
                            Bangumi.MikanID r = Some (MikanItem.ID it) ->
                            Bangumi.MikanItem loaded <> None)
             /\ (forall it, Bangumi.TmdbItem loaded = Some it ->
                            In it (tbl_tmdb db)
                            /\ Bangumi.TmdbID r = Some (TmdbItem.ID it))
             /\ (forall it, In it (tbl_tmdb db) ->
                            Bangumi.TmdbID r = Some (TmdbItem.ID it) ->
                            Bangumi.TmdbItem loaded <> None)
             /\ (forall m, In m (Bangumi.EpisodeMetadata loaded)
                           <-> In m (tbl_meta db)
                               /\ EpisodeMetadata.BangumiID m = Bangumi.ID r)
             /\ NoDup (map EpisodeMetadata.ID (Bangumi.EpisodeMetadata loaded)))
    /\ (forall id, ~ In (uint_to_int64 id) (map Bangumi.ID (tbl_bangumi db)) ->
                   GetBangumiWithDetails None db (uint_to_int64 id)
                   = Err ErrRecordNotFound)
    /\ (forall id, 0 <= id < 2 ^ 63 -> uint_to_int64 id = id)
    /\ (forall id, 2 ^ 63 <= id < 2 ^ 64 -> uint_to_int64 id = id - 2 ^ 64).
Proof.
  intros db Hwf.
  assert (Hmiss : forall id, ~ In id (map Bangumi.ID (tbl_bangumi db)) ->
            First Bangumi.ID (fun r => Bangumi.ID r =? id) (tbl_bangumi db) = None).
  { intros id Hid. apply First_None. intros r Hr.
    apply Z.eqb_neq. intros E. apply Hid. rewrite <- E. now apply in_map. }
  split; [|split; [|split; [|split; [|split; [|split]]]]].
  - intros r Hr. unfold GetBangumiByID.
    now rewrite (First_Bangumi_by_key db r Hwf Hr).
  - intros id Hid. unfold GetBangumiByID. now rewrite (Hmiss id Hid).
  - unfold GetBangumiByID. rewrite Hmiss; [reflexivity|].
    intros H0. apply in_map_iff in H0. destruct H0 as [r [E Hr]].
    exact (wf_bangumi_nonzero db Hwf r Hr E).
  - intros id r Hr Hid. unfold GetBangumiWithDetails. rewrite <- Hid.
    rewrite (First_Bangumi_by_key db r Hwf Hr).
    exists (Preload db r). split; [reflexivity|].
    split; [reflexivity|]. split; [|split; [|split; [|split; [|split]]]].
    + simpl. intros it Hit. destruct (Bangumi.MikanID r) as [i|]; [|discriminate].
      pose proof (find_MikanItem_ID _ _ _ Hit) as E.
      apply find_some in Hit. split; [tauto | now rewrite E].
    + simpl. intros it Hin HM. rewrite HM.
      destruct (find _ (tbl_mikan db)) eqn:F; [discriminate|].
      apply (find_none _ _ F) in Hin. now rewrite Z.eqb_refl in Hin.
    + simpl. intros it Hit. destruct (Bangumi.TmdbID r) as [i|]; [|discriminate].
      pose proof (find_TmdbItem_ID _ _ _ Hit) as E.
      apply find_some in Hit. split; [tauto | now rewrite E].
    + simpl. intros it Hin HT. rewrite HT.
      destruct (find _ (tbl_tmdb db)) eqn:F; [discriminate|].
      apply (find_none _ _ F) in Hin. now rewrite Z.eqb_refl in Hin.
    + simpl. intros m. rewrite filter_In, Z.eqb_eq. reflexivity.
    + simpl. apply NoDup_map_filter. exact (wf_meta_keys db Hwf).
  - intros id Hid. unfold GetBangumiWithDetails. now rewrite (Hmiss _ Hid).
  - apply uint_to_int64_small.
  - apply uint_to_int64_wrap.
Qed.

Lemma GetBangumiByID_by_key_witness :
  GetBangumiByID None one_entity_store 1 = Ok one_entity
  /\ GetBangumiByID None one_entity_store 0 = Err ErrRecordNotFound
  /\ GetBangumiWithDetails None one_entity_store (uint_to_int64 (2 ^ 64 - 1))
     = Err ErrRecordNotFound
  /\ exists loaded,
       GetBangumiWithDetails None one_entity_store (uint_to_int64 1) = Ok loaded
       /\ forall m, In m (Bangumi.EpisodeMetadata loaded) <-> m = stored_1080.
Proof.
  destruct (GetBangumiByID_by_key one_entity_store one_entity_store_wf)
    as [H1 [_ [H3 [H4 [H5 _]]]]].
  split; [exact (H1 one_entity (or_introl eq_refl))|]. split; [exact H3|].
  split; [apply H5; intros [E|[]]; discriminate E|].
  destruct (H4 1 one_entity (or_introl eq_refl) eq_refl)
    as [loaded [Hl [_ [_ [_ [_ [_ [Hm _]]]]]]]].
  exists loaded. split; [exact Hl|]. intros m. rewrite Hm. simpl. split.
  - intros [[E|[]] _]. now symmetry.
  - intros ->. split; [now left | reflexivity].
Defined.

(** ** The merge loop, once more *)

Lemma merge_EpisodeMetadata_noop oldID news :
  forall attached,
    (forall n, In n news -> exists e, In e attached /\ agree_on_key e n) ->
    merge_EpisodeMetadata oldID attached news = attached.
Proof.
  induction news as [|n news IH]; intros attached H; [reflexivity|].
  rewrite merge_EpisodeMetadata_cons.
  rewrite (proj2 (merge_one_iff oldID attached n) (H n (or_introl eq_refl))).
  apply IH. intros n' Hn'. apply H. now right.
Qed.

(** X18. The loop of lines 158-175 only appends: the entries attached before
    it stay in place and in order, and what follows them are entries of the
    candidate stamped with the entity's ID.  It keeps a list without two
    entries of the same key such a list, and running it again on its result
    with the same candidate entries changes nothing. *)
Theorem merge_EpisodeMetadata_loop :
  forall (oldID : Z) (attached news : list EpisodeMetadata.t),
    let merged := merge_EpisodeMetadata oldID attached news in
    (exists appended,
        merged = attached ++ map (EpisodeMetadata.with_BangumiID oldID) appended
        /\ forall a, In a appended -> In a news)
    /\ (pairwise_distinct same_dedup_key attached = true ->
        pairwise_distinct same_dedup_key merged = true)
    /\ merge_EpisodeMetadata oldID merged news = merged.
Proof.
  intros oldID attached news merged. split; [|split].
  - apply merge_EpisodeMetadata_appends.
  - apply merge_EpisodeMetadata_distinct.
  - apply merge_EpisodeMetadata_noop. intros n Hn.
    now apply merge_EpisodeMetadata_covers.
Qed.

(** ** UpdateBangumi *)

(** X19. UpdateBangumi does not look for an existing entity: given a new
    candidate for a release-tracker ID that a stored entity is linked to, it
    adds a row linked to that ID, whereas CreateBangumi on the same store
    and candidate merges into a stored row and adds none. *)
Theorem UpdateBangumi_does_not_merge :
  forall (fx : Faults) (db : DB) (c r : Bangumi.t) (M : Z),
    wf_db db ->
    fault_first_bangumi fx = None -> fault_save_bangumi fx = None ->
    In r (tbl_bangumi db) -> Bangumi.MikanID r = Some M ->
    carries_mikan M c -> Bangumi.ID c = 0 ->
    Forall fresh_meta (Bangumi.EpisodeMetadata c) ->
    pairwise_distinct same_dedup_key (Bangumi.EpisodeMetadata c) = true ->
    (exists db' row,
        UpdateBangumi fx db c = (db', None)
        /\ tbl_bangumi db' = tbl_bangumi db ++ [row]
        /\ Bangumi.MikanID row = Some M
        /\ In r (tbl_bangumi db') /\ Bangumi.ID row <> Bangumi.ID r)
    /\ (exists db2 old row2,
           CreateBangumi fx db c = (db2, None)
           /\ In old (tbl_bangumi db)
           /\ mikan_or_tmdb (extract_mikanID c) (extract_tmdbID c) old = true
           /\ tbl_bangumi db2
              = map (fun x => if Bangumi.ID x =? Bangumi.ID old then row2 else x)
                    (tbl_bangumi db)
           /\ frame row2 = frame old
           /\ List.length (tbl_bangumi db2) = List.length (tbl_bangumi db)).
Proof.
  intros fx db c r M Hwf Hq Hs Hin HM Hc Hid Hf Hd. split.
  - unfold UpdateBangumi.
    destruct (Save_create_path fx db c Hwf Hs Hid Hf Hd)
      as [row [mikan [tmdb [srows [HS [Hk [HMr [_ [_ _]]]]]]]]].
    rewrite (carries_mikan_written M c _ Hc) in HMr.
    rewrite HS. eexists; exists row. split; [reflexivity|]. simpl.
    split; [reflexivity|]. split; [exact HMr|].
    split; [apply in_or_app; now left|].
    rewrite Hk. intros E.
    apply (next_id_fresh (map Bangumi.ID (tbl_bangumi db))). rewrite E.
    now apply in_map.
  - assert (Hmatch : mikan_or_tmdb (extract_mikanID c) (extract_tmdbID c) r = true).
    { destruct Hc as [_ [HeM _]]. unfold mikan_or_tmdb. rewrite HeM, HM. simpl.
      now rewrite Z.eqb_refl. }
    destruct (proj2 (First_exists Bangumi.ID
                       (mikan_or_tmdb (extract_mikanID c) (extract_tmdbID c))
                       (tbl_bangumi db))) as [old Hfirst]; [now exists r|].
    destruct (First_Some _ _ _ _ Hfirst) as [Hold Hcond].
    destruct (Save_merge_path fx db old c Hwf Hs Hold Hf)
      as [row2 [mikan [tmdb [appended [srows [HS [HF _]]]]]]].
    rewrite (CreateBangumi_found fx db c old Hq Hfirst)
      by (apply (wf_bangumi_nonzero db Hwf); exact Hold).
    rewrite HS. eexists; exists old, row2. simpl tbl_bangumi.
    split; [reflexivity|]. split; [exact Hold|]. split; [exact Hcond|].
    split; [reflexivity|]. split; [exact HF | apply length_map].
Qed.

Lemma UpdateBangumi_does_not_merge_witness :
  let c := candidate None None (Some mikan_3141) None [entry "ABC" "720p"] in
  (exists db' row,
      UpdateBangumi no_faults one_entity_store c = (db', None)
      /\ tbl_bangumi db' = [one_entity; row]
      /\ Bangumi.MikanID row = Some 3141)
  /\ List.length (tbl_bangumi (fst (CreateBangumi no_faults one_entity_store c)))
     = 1%nat.
Proof.
  intros c.
  destruct (UpdateBangumi_does_not_merge no_faults one_entity_store c
              one_entity 3141 one_entity_store_wf eq_refl eq_refl)
    as [[db' [row [H1 [H2 [H3 _]]]]] [db2 [old [row2 [H4 [_ [_ [_ [_ H5]]]]]]]]].
  - now left.
  - reflexivity.
  - split; [discriminate|]. split; [reflexivity|]. intros it [= <-]. reflexivity.
  - reflexivity.
  - repeat constructor; discriminate.
  - reflexivity.
  - split; [exists db', row; repeat split; auto|].
    rewrite H4. exact H5.
Defined.

Lemma create_MikanItem_stored (tbl : list MikanItem.t) (i : Z) (it : MikanItem.t) :
  find (fun x => MikanItem.ID x =? i) tbl = Some it -> i <> 0 ->
  exists it', create_MikanItem tbl it = (tbl, it') /\ MikanItem.ID it' = i.
Proof.
  intros Hf Hnz. apply find_some in Hf. destruct Hf as [Hin E].
  apply Z.eqb_eq in E. unfold create_MikanItem.
  set (it0 := if MikanItem.Season it =? 0 then MikanItem.with_Season 1 it else it).
  assert (H0 : MikanItem.ID it0 = i)
    by (unfold it0; now destruct (MikanItem.Season it =? 0)).
  rewrite H0. destruct (i =? 0) eqn:E0; [apply Z.eqb_eq in E0; contradiction|].
  assert (Hex : existsb (fun r => MikanItem.ID r =? i) tbl = true)
    by (apply existsb_exists; exists it; split; [exact Hin | now apply Z.eqb_eq]).
  rewrite Hex. now exists it0.
Qed.

Lemma create_TmdbItem_stored (tbl : list TmdbItem.t) (i : Z) (it : TmdbItem.t) :
  find (fun x => TmdbItem.ID x =? i) tbl = Some it -> i <> 0 ->
  exists it', create_TmdbItem tbl it = (tbl, it') /\ TmdbItem.ID it' = i.
Proof.
  intros Hf Hnz. apply find_some in Hf. destruct Hf as [Hin E].
  apply Z.eqb_eq in E. unfold create_TmdbItem.
  set (it0 := if TmdbItem.Season it =? 0 then TmdbItem.with_Season 1 it else it).
  assert (H0 : TmdbItem.ID it0 = i)
    by (unfold it0; now destruct (TmdbItem.Season it =? 0)).
  rewrite H0. destruct (i =? 0) eqn:E0; [apply Z.eqb_eq in E0; contradiction|].
  assert (Hex : existsb (fun r => TmdbItem.ID r =? i) tbl = true)
    by (apply existsb_exists; exists it; split; [exact Hin | now apply Z.eqb_eq]).
  rewrite Hex. now exists it0.
Qed.

Lemma columns_eq (b r : Bangumi.t) :
  frame b = frame r -> Bangumi.MikanID b = Bangumi.MikanID r ->
  Bangumi.TmdbID b = Bangumi.TmdbID r -> Bangumi.columns r = r ->
  Bangumi.columns b = r.
Proof.
  destruct b, r. unfold frame, Bangumi.columns. simpl.
  intros F -> -> C. inversion F. subst. exact C.
Qed.

(** X20. Loading an entity with GetBangumiWithDetails and writing it back
    with UpdateBangumi leaves the store as it was: no catalog record, no row
    and no episode metadata is added or changed. *)
Theorem UpdateBangumi_of_loaded :
  forall (fx : Faults) (db : DB) (r loaded : Bangumi.t),
    wf_db db -> fault_save_bangumi fx = None ->
    In r (tbl_bangumi db) -> Bangumi.columns r = r ->
    Bangumi.MikanID r <> Some 0 -> Bangumi.TmdbID r <> Some 0 ->
    GetBangumiWithDetails None db (Bangumi.ID r) = Ok loaded ->
    UpdateBangumi fx db loaded = (db, None).
Proof.
  intros fx db r loaded Hwf Hs Hin Hcol HM HT Hload.
  unfold GetBangumiWithDetails in Hload.
  rewrite (First_Bangumi_by_key db r Hwf Hin) in Hload. injection Hload as <-.
  unfold UpdateBangumi, Save_Bangumi. rewrite Hs.
  (* the belongs-to writes *)
  assert (E1 : fst (save_belongs_to_MikanItem (tbl_mikan db) (Preload db r))
               = tbl_mikan db
               /\ Bangumi.MikanID (snd (save_belongs_to_MikanItem
                                         (tbl_mikan db) (Preload db r)))
                  = Bangumi.MikanID r).
  { unfold save_belongs_to_MikanItem.
    replace (Bangumi.MikanItem (Preload db r))
      with (match Bangumi.MikanID r with
            | Some i => find (fun it => MikanItem.ID it =? i) (tbl_mikan db)
            | None => None
            end) by reflexivity.
    destruct (Bangumi.MikanID r) as [m|] eqn:Em; [|now split].
    destruct (find _ (tbl_mikan db)) as [it|] eqn:Ef;
      [|split; [reflexivity | exact Em]].
    destruct (create_MikanItem_stored _ m it Ef) as [it' [-> Hid]];
      [congruence|].
    simpl. now rewrite Hid. }
  destruct E1 as [E1 L1].
  destruct (save_belongs_to_MikanItem (tbl_mikan db) (Preload db r))
    as [mikan b1] eqn:EM. simpl in E1, L1. subst mikan.
  assert (E2 : fst (save_belongs_to_TmdbItem (tbl_tmdb db) b1) = tbl_tmdb db
               /\ Bangumi.TmdbID (snd (save_belongs_to_TmdbItem (tbl_tmdb db) b1))
                  = Bangumi.TmdbID r).
  { destruct (save_belongs_to_MikanItem_frame _ _ _ _ EM) as [_ [_ [TI TD]]].
    unfold save_belongs_to_TmdbItem. rewrite TI.
    replace (Bangumi.TmdbItem (Preload db r))
      with (match Bangumi.TmdbID r with
            | Some i => find (fun it => TmdbItem.ID it =? i) (tbl_tmdb db)
            | None => None
            end) by reflexivity.
    replace (Bangumi.TmdbID (Preload db r)) with (Bangumi.TmdbID r) in TD
      by reflexivity.
    destruct (Bangumi.TmdbID r) as [m|] eqn:Em; [|now split].
    destruct (find _ (tbl_tmdb db)) as [it|] eqn:Ef;
      [|split; [reflexivity | exact TD]].
    destruct (create_TmdbItem_stored _ m it Ef) as [it' [-> Hid]];
      [congruence|].
    simpl. now rewrite Hid. }
  destruct E2 as [E2 L2].
  destruct (save_belongs_to_TmdbItem (tbl_tmdb db) b1) as [tmdb b2] eqn:ET.
  simpl in E2, L2. subst tmdb.
  destruct (save_belongs_to_both _ _ _ _ _ _ _ EM ET) as [F [EMeta _]].
  destruct (save_belongs_to_TmdbItem_frame _ _ _ _ ET) as [_ [_ [_ MD]]].
  replace (frame (Preload db r)) with (frame r) in F by reflexivity.
  assert (Hid : Bangumi.ID r = Bangumi.ID b2)
    by (unfold frame in F; now inversion F).
  rewrite (save_row_Bangumi_update _ b2 r Hin Hid)
    by (rewrite <- Hid; exact (wf_bangumi_nonzero db Hwf r Hin)).
  rewrite (columns_eq b2 r F) by congruence.
  rewrite <- Hid, (replace_row_same _ r (wf_bangumi_keys db Hwf) Hin).
  rewrite EMeta.
  replace (Bangumi.EpisodeMetadata (Preload db r))
    with (filter (fun m => EpisodeMetadata.BangumiID m =? Bangumi.ID r) (tbl_meta db))
    by reflexivity.
  assert (Hpre : forall m,
             In m (filter (fun m => EpisodeMetadata.BangumiID m =? Bangumi.ID r)
                          (tbl_meta db)) ->
             In m (tbl_meta db) /\ EpisodeMetadata.BangumiID m = Bangumi.ID r).
  { intros m Hm. apply filter_In in Hm. destruct Hm as [H1 H2].
    apply Z.eqb_eq in H2. now split. }
  rewrite (map_ext_in _ (fun m => m)), map_id
    by (intros m Hm; apply with_BangumiID_same; apply (Hpre m Hm)).
  rewrite (save_has_many_stored_all _ _ (wf_meta_keys db Hwf)).
  - rewrite (wf_meta_unique db Hwf). now destruct db.
  - intros m Hm. split; [apply (Hpre m Hm)|].
    apply (wf_meta_nonzero db Hwf). apply (Hpre m Hm).
Qed.

Lemma UpdateBangumi_of_loaded_witness :
  UpdateBangumi no_faults one_entity_store (Preload one_entity_store one_entity)
  = (one_entity_store, None).
Proof.
  apply (UpdateBangumi_of_loaded no_faults one_entity_store one_entity).
  - exact one_entity_store_wf.
  - reflexivity.
  - now left.
  - reflexivity.
  - discriminate.
  - discriminate.
  - reflexivity.
Defined.
